(** * shutdown_golang: the device agent and its shutdown-request state machine

    A shallow embedding of the two revisions of the agent that the repository
    holds, [src/app.go] (module [AppGo]) and the [package main] carried by
    [src/unnamed/part_002] (module [Part002]), followed by the properties of
    the shutdown executor, the status reporter, the watcher loop and the
    registry client.

    The agent is effectful: it reads the wall clock, talks to the registry
    over HTTP, sleeps, logs and runs the power-off command.  Every effect is
    recorded in a trace (newest event first); what the outside world answers
    is given by oracles that see the whole trace so far, so a registry, a
    clock and a command runner of any behaviour are covered. *)

From Stdlib Require Import ZArith String List Lia.
From Stdlib Require Import Floats.SpecFloat.
From stdpp Require Import gmap strings list fin_maps.

#[local] Set Warnings "-register-all".
#[local] Open Scope string_scope.
#[local] Open Scope list_scope.
#[local] Open Scope Z_scope.

(** ** Time ([time.Time], [time.Duration]) *)

(** An instant is its number of nanoseconds since the Unix epoch; a
    [time.Duration] is an [int64] count of nanoseconds. *)
Definition Time := Z.
Definition Duration := Z.

Definition Second : Duration := 1000000000.
Definition Minute : Duration := 60 * Second.

Definition minInt64 : Z := - 2 ^ 63.
Definition maxInt64 : Z := 2 ^ 63 - 1.

Definition minDuration : Duration := minInt64.
Definition maxDuration : Duration := maxInt64.

(** [t.Sub(u)]: the difference, saturated to the range of [Duration]. *)
Definition time_Sub (t u : Time) : Duration :=
  let d := t - u in
  if d <? minDuration then minDuration
  else if maxDuration <? d then maxDuration
  else d.

(** [t.Unix()]: whole seconds since the epoch (rounded down). *)
Definition time_Unix (t : Time) : Z := t `div` Second.

(** [t.After(u)]. *)
Definition time_After (t u : Time) : bool := u <? t.

(** The constants of both revisions. *)
Definition ShutdownDelay : Duration := 5 * Second.
Definition StatusUpdateInterval : Duration := 3 * Minute.
Definition ShutdownPollInterval : Duration := 10 * Second.
Definition MinUptimeBeforeShutdown : Duration := 1 * Minute.

(** ** JSON values and Go values *)

(** What [encoding/json] decodes into an [interface{}]: a JSON number
    becomes a [float64], here a [spec_float].  A number literal too large
    for a [float64] is carried as the infinity that [strconv.ParseFloat]
    returns beside its range error. *)
Inductive JSON :=
| JNull
| JBool (b : bool)
| JNumber (f : spec_float)
| JString (s : string)
| JArray (l : list JSON)
| JObject (m : gmap string JSON).

(** The integer part of a [float64] (rounded toward zero), when it has one. *)
Definition float64_trunc (f : spec_float) : option Z :=
  match f with
  | S754_zero _ => Some 0
  | S754_finite s m e =>
      let a := if 0 <=? e then Z.pos m * 2 ^ e else Z.pos m `div` 2 ^ (- e) in
      Some (if s then - a else a)
  | S754_infinity _ | S754_nan => None
  end.

(** The conversion [int64(f)].  Go leaves the result to the implementation
    when the value does not fit; [oor] is what the implementation gives. *)
Definition int64_of_float64 (oor : spec_float -> Z) (f : spec_float) : Z :=
  match float64_trunc f with
  | Some z => if (minInt64 <=? z) && (z <=? maxInt64) then z else oor f
  | None => oor f
  end.

(** A [float64] that [strconv.ParseFloat] returns without an error. *)
Definition float64_parsed (f : spec_float) : bool :=
  match f with
  | S754_zero _ | S754_finite _ _ _ => true
  | S754_infinity _ | S754_nan => false
  end.

(** Every number of the value, at any depth, fits a [float64]: the decoder
    records an error for each number that does not ([convertNumber]). *)
Fixpoint json_numbers_fit (v : JSON) : bool :=
  match v with
  | JNull | JBool _ | JString _ => true
  | JNumber f => float64_parsed f
  | JArray l => forallb json_numbers_fit l
  | JObject m => map_fold (fun _ v' b => json_numbers_fit v' && b) true m
  end.

(** [json.Unmarshal(raw, &req)] with [req : map[string]interface{}], on a
    payload that is well-formed JSON: [null] leaves the map nil and is no
    error, an object all of whose numbers fit a [float64] fills the map,
    anything else is an error. *)
Definition json_Unmarshal_map (raw : JSON) : option (gmap string JSON) :=
  match raw with
  | JNull => Some ∅
  | JObject m => if json_numbers_fit raw then Some m else None
  | _ => None
  end.

(** [s, _ := req[key].(string)]: the string under [key], or the empty
    string when the key is missing or holds something else. *)
Definition string_field (req : gmap string JSON) (key : string) : string :=
  match req !! key with
  | Some (JString s) => s
  | _ => ""
  end.

(** The values the agent puts into the maps it marshals. *)
Inductive GoValue :=
| GString (s : string)
| GTime (t : Time)
| GStringMap (m : gmap string string).

(** ** The device record *)

Record Device := {
  ID : string;
  UserID : string;
  Name : string;
  Status : string;
  LastSeen : option Time;
  FirstOnlineAt : option Time;
  ShutdownRequest : option JSON;   (* json.RawMessage; None is nil *)
}.

(** ** Requests, responses, errors *)

Inductive PostBody :=
| BodyArray (rows : list (gmap string GoValue))
| BodyObject (row : gmap string GoValue).

Inductive Request :=
| GetDevices (userID name : string)
| PostDevice (body : PostBody) (prefer : string)
| PatchDevice (userID name : string) (data : gmap string GoValue).

(** A response body either decodes as a list of devices or does not. *)
Inductive Body :=
| DevicesJSON (dl : list Device)
| RawBody (s : string).

Inductive Response :=
| TransportError (msg : string)      (* httpClient.Do returned an error *)
| HttpResponse (code : Z) (body : Body).

Inductive error :=
| ErrTransport (msg : string)
| ErrStatus (op : string) (code : Z) (body : Body)
| ErrDecode
| ErrContext (ctx : string) (e : error).

Record Cmd := { cmd_name : string; cmd_args : list string }.

Inductive CmdResult :=
| CmdOk (out : string)
| CmdFail (out : string) (err : string).

(** ** Traces and the outside world *)

Inductive Event :=
| EvNow (t : Time)                        (* time.Now() *)
| EvHttp (rq : Request) (rs : Response)   (* httpClient.Do *)
| EvSleep (d : Duration)                  (* time.Sleep *)
| EvTick (period : Duration)              (* <-ticker.C *)
| EvExec (c : Cmd) (r : CmdResult)        (* running an exec.Cmd *)
| EvLog (msg : string).                   (* log.Print... *)

(** The trace so far, newest event first. *)
Definition World := list Event.

Record Env := {
  registry : World -> Request -> Response;
  clock : World -> Time;
  run_command : World -> Cmd -> CmdResult;
  GOOS : string;                            (* runtime.GOOS *)
  rfc3339_format : Time -> string;          (* t.Format(time.RFC3339) *)
  rfc3339_parse : string -> option Time;    (* time.Parse(time.RFC3339, s) *)
  float64_oor : spec_float -> Z;            (* int64(f) when f does not fit *)
}.

(** A computation either returns, or is still running when its budget of
    recursive calls and loop iterations is used up. *)
Inductive Outcome (A : Type) :=
| Ret (a : A) (w : World)
| Stall (w : World).
Arguments Ret {A} a w.
Arguments Stall {A} w.

Definition M (A : Type) : Type := World -> Outcome A.

Definition ret {A} (a : A) : M A := fun w => Ret a w.

Definition bind {A B} (m : M A) (k : A -> M B) : M B :=
  fun w => match m w with
           | Ret a w' => k a w'
           | Stall w' => Stall w'
           end.

Definition stall {A} : M A := fun w => Stall w.

Declare Scope agent_scope.
Delimit Scope agent_scope with agent.
Notation "x <- m ;; k" := (bind m (fun x => k))
  (at level 100, m at next level, right associativity) : agent_scope.
Notation "m ;;; k" := (bind m (fun _ => k))
  (at level 100, right associativity) : agent_scope.
#[local] Open Scope agent_scope.

Definition out_world {A} (o : Outcome A) : World :=
  match o with Ret _ w => w | Stall w => w end.

Section Effects.
Context (env : Env).

Definition now : M Time :=
  fun w => let t := clock env w in Ret t (EvNow t :: w).

Definition http (rq : Request) : M Response :=
  fun w => let rs := registry env w rq in Ret rs (EvHttp rq rs :: w).

Definition sleep (d : Duration) : M unit :=
  fun w => Ret tt (EvSleep d :: w).

Definition tick (period : Duration) : M unit :=
  fun w => Ret tt (EvTick period :: w).

Definition exec (c : Cmd) : M CmdResult :=
  fun w => let r := run_command env w c in Ret r (EvExec c r :: w).

Definition log (msg : string) : M unit :=
  fun w => Ret tt (EvLog msg :: w).

(** [time.Since(t0)]. *)
Definition since (t0 : Time) : M Duration :=
  t <- now ;; ret (time_Sub t t0).
End Effects.

(** ** What both revisions share *)

(** The value of [shutdown_requested] in the payloads the agent writes. *)
Definition request_state (status : string) : GoValue :=
  GStringMap {[ "status" := status ]}.

Definition request_failed (err : string) : GoValue :=
  GStringMap (<[ "status" := "failed" ]> {[ "error" := err ]}).

Section Shared.
Context (env : Env) (userID name : string).

(** [fetchDevices] ([src/app.go] lines 153-174, [part_002] lines 352-373):
    the same text in both revisions.  Go returns the pair (devices, err);
    devices is nil when err is not. *)
Definition fetchDevices : M (list Device * option error) :=
  rs <- http env (GetDevices userID name) ;;
  match rs with
  | TransportError e => ret ([], Some (ErrTransport e))
  | HttpResponse code body =>
      if negb (code =? 200) then ret ([], Some (ErrStatus "fetch" code body))
      else match body with
           | DevicesJSON dl => ret (dl, None)
           | RawBody _ => ret ([], Some ErrDecode)
           end
  end.
End Shared.

(** ** [src/app.go] *)

Module AppGo.
Section WithEnv.
Context (env : Env) (userID name : string).

(** [createDevice] (lines 177-204): POST of a one-row array, with
    [Prefer: resolution=merge-duplicates]. *)
Definition createDevice : M (option error) :=
  t1 <- now env ;;
  t2 <- now env ;;
  let payload : gmap string GoValue :=
    <[ "user_id" := GString userID ]>
    (<[ "name" := GString name ]>
    (<[ "status" := GString "unknown" ]>
    (<[ "first_online_at" := GTime t1 ]>
    {[ "last_seen" := GTime t2 ]}))) in
  rs <- http env (PostDevice (BodyArray [payload]) "resolution=merge-duplicates") ;;
  match rs with
  | TransportError e => ret (Some (ErrTransport e))
  | HttpResponse code body =>
      if 300 <=? code then ret (Some (ErrStatus "createDevice" code body))
      else ret None
  end.

(** [patchDevice] (lines 207-244): on 404, look the row up, create it when
    the lookup gives none, and call [patchDevice] again.  [fuel] bounds the
    depth of that recursion, which the source does not. *)
Fixpoint patchDevice (fuel : nat) (data : gmap string GoValue) : M unit :=
  match fuel with
  | O => stall
  | S fuel' =>
      rs <- http env (PatchDevice userID name data) ;;
      match rs with
      | TransportError _ => log "PATCH error:"
      | HttpResponse code _ =>
          if code =? 404 then
            r <- fetchDevices env userID name ;;
            match r.1 with
            | [] =>
                e <- createDevice ;;
                match e with
                | Some _ => log "createDevice:"
                | None => patchDevice fuel' data
                end
            | _ :: _ => patchDevice fuel' data
            end
          else if 300 <=? code then log "PATCH status %d: %s"
          else log "PATCH succeeded for %q: %v"
      end
  end.

(** [handleShutdown] (lines 247-261): the expiry check on a numeric
    [expires_at], the uptime guard, then PATCH, log, sleep and command. *)
Definition handleShutdown (fuel : nat) (dev : Device) (req : gmap string JSON)
  : M unit :=
  expired <- match req !! "expires_at" with
             | Some (JNumber exp) =>
                 t <- now env ;;
                 ret (int64_of_float64 (float64_oor env) exp <? time_Unix t)
             | _ => ret false
             end ;;
  if expired : bool then
    patchDevice fuel {[ "shutdown_requested" := request_state "expired" ]}
  else
    young <- match FirstOnlineAt dev with
             | Some t0 =>
                 d <- since env t0 ;; ret (d <? MinUptimeBeforeShutdown)
             | None => ret false
             end ;;
    if young : bool then ret tt
    else
      patchDevice fuel {[ "shutdown_requested" := request_state "done" ]} ;;;
      log "Shutting down…" ;;;
      sleep ShutdownDelay ;;;
      _ <- exec env {| cmd_name := "shutdown"; cmd_args := ["now"] |} ;;
      ret tt.

(** [updateDeviceStatus] (lines 103-114): the body of the loop, then the
    loop for a number of ticks (the source loops forever). *)
Definition statusTick (fuel : nat) : M unit :=
  t1 <- now env ;;
  t2 <- now env ;;
  patchDevice fuel
    (<[ "status" := GString "on" ]>
    (<[ "last_seen" := GTime t1 ]>
    {[ "first_online_at" := GTime t2 ]})) ;;;
  tick StatusUpdateInterval.

Fixpoint updateDeviceStatus (ticks fuel : nat) : M unit :=
  match ticks with
  | O => stall
  | S ticks' => statusTick fuel ;;; updateDeviceStatus ticks' fuel
  end.

(** [listenForShutdownRequests] (lines 117-150): one pass of the loop, then
    the loop for a number of polls (the source loops forever). *)
Definition pollOnce (fuel : nat) : M unit :=
  r <- fetchDevices env userID name ;;
  match r.2 with
  | Some _ =>
      log "Fetch devices error:" ;;; sleep ShutdownPollInterval
  | None =>
      match r.1 with
      | [] =>
          log "No row found for device %q, creating one…" ;;;
          e <- createDevice ;;
          match e with
          | Some _ => log "createDevice failed:"
          | None => log "Created device row for %q"
          end ;;;
          sleep ShutdownPollInterval
      | device :: _ =>
          match ShutdownRequest device with
          | Some raw =>
              match json_Unmarshal_map raw with
              | None => log "Failed to parse shutdown request:"
              | Some req =>
                  if String.eqb (string_field req "status") "pending"
                  then handleShutdown fuel device req
                  else ret tt
              end
          | None => ret tt
          end ;;;
          sleep ShutdownPollInterval
      end
  end.

Fixpoint listenForShutdownRequests (polls fuel : nat) : M unit :=
  match polls with
  | O => stall
  | S polls' => pollOnce fuel ;;; listenForShutdownRequests polls' fuel
  end.

End WithEnv.
End AppGo.

(** ** The [package main] of [src/unnamed/part_002] *)

Module Part002.

Definition MaxRetries : Z := 3.
Definition RetryDelay : Duration := 5 * Second.

Definition dquote : string := String (Ascii.ascii_of_nat 34) EmptyString.

Section WithEnv.
Context (env : Env) (userID name : string).

(** [createDevice] (lines 376-414): look the row up first, POST a single
    object only when the lookup gives none. *)
Definition createDevice : M (option error) :=
  r <- fetchDevices env userID name ;;
  match r.2 with
  | Some err => ret (Some (ErrContext "failed to check existing device" err))
  | None =>
      match r.1 with
      | _ :: _ => ret None
      | [] =>
          t1 <- now env ;;
          t2 <- now env ;;
          let payload : gmap string GoValue :=
            <[ "user_id" := GString userID ]>
            (<[ "name" := GString name ]>
            (<[ "status" := GString "unknown" ]>
            (<[ "first_online_at" := GString (rfc3339_format env t1) ]>
            {[ "last_seen" := GString (rfc3339_format env t2) ]}))) in
          rs <- http env (PostDevice (BodyObject payload) "return=minimal") ;;
          match rs with
          | TransportError e => ret (Some (ErrTransport e))
          | HttpResponse code body =>
              if 300 <=? code
              then ret (Some (ErrStatus "createDevice" code body))
              else ret None
          end
      end
  end.

(** [patchDevice] (lines 417-454): as in [src/app.go], with an error
    result; the result of the recursive call is dropped.  [fuel] bounds the
    depth of the recursion, which the source does not. *)
Fixpoint patchDevice (fuel : nat) (data : gmap string GoValue)
  : M (option error) :=
  match fuel with
  | O => stall
  | S fuel' =>
      rs <- http env (PatchDevice userID name data) ;;
      match rs with
      | TransportError e => log "PATCH error:" ;;; ret (Some (ErrTransport e))
      | HttpResponse code body =>
          if code =? 404 then
            r <- fetchDevices env userID name ;;
            match r.1 with
            | [] =>
                e <- createDevice ;;
                match e with
                | Some err => log "createDevice:" ;;; ret (Some err)
                | None => patchDevice fuel' data ;;; ret None
                end
            | _ :: _ => patchDevice fuel' data ;;; ret None
            end
          else if 300 <=? code then ret (Some (ErrStatus "PATCH" code body))
          else log "PATCH succeeded for %q: %v" ;;; ret None
      end
  end.

(** The command the [switch] on [runtime.GOOS] selects (lines 488-503), if
    any. *)
Definition shutdownCommand (os : string) : option Cmd :=
  if String.eqb os "windows" then
    Some {| cmd_name := "shutdown"; cmd_args := ["/s"; "/t"; "0"] |}
  else if String.eqb os "linux" then
    Some {| cmd_name := "systemctl"; cmd_args := ["poweroff"] |}
  else if String.eqb os "darwin" then
    Some {| cmd_name := "osascript";
            cmd_args := ["-e"; ("tell application " ++ dquote ++ "System Events"
                                  ++ dquote ++ " to shut down")%string] |}
  else None.

(** [handleShutdown] (lines 457-523).  [commit] is what follows the expiry
    check: the uptime guard, the PATCH of [shutting_down], the sleep, the
    command and the PATCH of its outcome. *)
Definition handleShutdown (fuel : nat) (dev : Device) (req : gmap string JSON)
  : M unit :=
  let commit : M unit :=
    young <- match FirstOnlineAt dev with
             | Some t0 =>
                 d <- since env t0 ;; ret (d <? MinUptimeBeforeShutdown)
             | None => ret false
             end ;;
    if young : bool then
      log "Device %s too recently started, skipping shutdown"
    else
      log "Shutting down…" ;;;
      t <- now env ;;
      patchDevice fuel
        (<[ "shutdown_requested" := request_state "shutting_down" ]>
        (<[ "status" := GString "off" ]>
        {[ "last_seen" := GString (rfc3339_format env t) ]})) ;;;
      sleep ShutdownDelay ;;;
      match shutdownCommand (GOOS env) with
      | None => log "Unsupported OS: %s. Shutdown command not executed."
      | Some cmd =>
          r <- exec env cmd ;;
          match r with
          | CmdFail _ err =>
              log "Shutdown command failed: %v\nOutput: %s" ;;;
              patchDevice fuel {[ "shutdown_requested" := request_failed err ]} ;;;
              ret tt
          | CmdOk _ =>
              patchDevice fuel
                (<[ "shutdown_requested" := request_state "done" ]>
                {[ "status" := GString "off" ]}) ;;;
              log "Shutdown command executed successfully"
          end
      end
  in
  match req !! "expires_at" with
  | Some (JString expiresStr) =>
      match rfc3339_parse env expiresStr with
      | None => log "Failed to parse expires_at: %v"
      | Some expiresAt =>
          t <- now env ;;
          if time_After t expiresAt then
            patchDevice fuel {[ "shutdown_requested" := request_state "expired" ]} ;;;
            ret tt
          else commit
      end
  | _ => commit
  end.

(** [updateDeviceStatus] (lines 299-313): the loop for a number of ticks
    (the source loops until a PATCH fails); [statusTick] is the loop body up
    to the test of the PATCH's result. *)
Definition statusTick (fuel : nat) : M (option error) :=
  t <- now env ;;
  let now_ := rfc3339_format env t in
  patchDevice fuel
    (<[ "status" := GString "on" ]>
    (<[ "last_seen" := GString now_ ]>
    {[ "first_online_at" := GString now_ ]})).

Fixpoint updateDeviceStatus (ticks fuel : nat) : M error :=
  match ticks with
  | O => stall
  | S ticks' =>
      e <- statusTick fuel ;;
      match e with
      | Some err => ret (ErrContext "failed to update device status" err)
      | None => tick StatusUpdateInterval ;;; updateDeviceStatus ticks' fuel
      end
  end.

(** [listenForShutdownRequests] (lines 316-349): one pass of the loop, then
    the loop for a number of polls (the source never leaves the loop). *)
Definition pollOnce (fuel : nat) : M unit :=
  r <- fetchDevices env userID name ;;
  match r.2 with
  | Some _ =>
      log "Fetch devices error:" ;;; sleep ShutdownPollInterval
  | None =>
      match r.1 with
      | [] =>
          log "No row found for device %q, creating one…" ;;;
          e <- createDevice ;;
          match e with
          | Some _ => log "createDevice failed:"
          | None => log "Created device row for %q"
          end ;;;
          sleep ShutdownPollInterval
      | device :: _ =>
          match ShutdownRequest device with
          | Some raw =>
              match json_Unmarshal_map raw with
              | None => log "Failed to parse shutdown request:"
              | Some req =>
                  if String.eqb (string_field req "status") "pending"
                  then handleShutdown fuel device req
                  else ret tt
              end
          | None => ret tt
          end ;;;
          sleep ShutdownPollInterval
      end
  end.

Fixpoint listenForShutdownRequests (polls fuel : nat) : M error :=
  match polls with
  | O => stall
  | S polls' => pollOnce fuel ;;; listenForShutdownRequests polls' fuel
  end.

End WithEnv.
End Part002.

(** ** Reading traces *)

Definition as_patch (e : Event) : option (gmap string GoValue) :=
  match e with
  | EvHttp (PatchDevice _ _ d) _ => Some d
  | _ => None
  end.

Definition as_post (e : Event) : option PostBody :=
  match e with
  | EvHttp (PostDevice b _) _ => Some b
  | _ => None
  end.

Definition as_exec (e : Event) : option (Cmd * CmdResult) :=
  match e with
  | EvExec c r => Some (c, r)
  | _ => None
  end.

(** The PATCH payloads, the POST bodies and the commands run, newest first. *)
Definition patches (evs : list Event) : list (gmap string GoValue) :=
  omap as_patch evs.
Definition posts (evs : list Event) : list PostBody := omap as_post evs.
Definition execs (evs : list Event) : list (Cmd * CmdResult) :=
  omap as_exec evs.

(** The state a payload writes to [shutdown_requested], if it writes one. *)
Definition written_state (d : gmap string GoValue) : option string :=
  match d !! "shutdown_requested" with
  | Some (GStringMap m) => m !! "status"
  | _ => None
  end.

(** A POST body that leaves [shutdown_requested] alone. *)
Definition post_plain (b : PostBody) : Prop :=
  match b with
  | BodyArray rows => Forall (fun r => r !! "shutdown_requested" = None) rows
  | BodyObject r => r !! "shutdown_requested" = None
  end.

(** What one call of [patchDevice] with payload [data] can leave in the
    trace: PATCHes of [data] for this device, the lookups and creations of
    its recovery from 404, clock readings and log lines; never a sleep, a
    tick or a command. *)
Definition patch_noise (userID name : string) (data : gmap string GoValue)
  (e : Event) : Prop :=
  match e with
  | EvHttp (PatchDevice u n d) _ => u = userID /\ n = name /\ d = data
  | EvHttp (PostDevice b _) _ => post_plain b
  | EvHttp (GetDevices _ _) _ => True
  | EvNow _ | EvLog _ => True
  | EvSleep _ | EvTick _ | EvExec _ _ => False
  end.

(** A stretch of trace in which [data] is PATCHed at least once and nothing
    else is written. *)
Definition patch_span (userID name : string) (data : gmap string GoValue)
  (evs : list Event) : Prop :=
  Forall (patch_noise userID name data) evs /\
  exists rs, In (EvHttp (PatchDevice userID name data) rs) evs.

(** Clock readings and log lines only. *)
Definition silent (e : Event) : Prop :=
  match e with
  | EvNow _ | EvLog _ => True
  | _ => False
  end.

Definition is_404 (rs : Response) : bool :=
  match rs with
  | HttpResponse code _ => code =? 404
  | TransportError _ => false
  end.

(** A registry that never answers a PATCH for this device with 404. *)
Definition never_404 (env : Env) (userID name : string) : Prop :=
  forall w data, is_404 (registry env w (PatchDevice userID name data)) = false.

(** ** The guards of the executor, as conditions on a request *)

(** The uptime guard lets the request through: [first_online_at] is unknown,
    or at least [MinUptimeBeforeShutdown] has passed since.  The result is
    the trace after the guard. *)
Definition past_uptime (env : Env) (dev : Device) (w : World) : option World :=
  match FirstOnlineAt dev with
  | Some t0 =>
      if time_Sub (clock env w) t0 <? MinUptimeBeforeShutdown then None
      else Some (EvNow (clock env w) :: w)
  | None => Some w
  end.

(** The expiry check of [src/app.go] lets the request through. *)
Definition AppGo_past_expiry (env : Env) (req : gmap string JSON) (w : World)
  : option World :=
  match req !! "expires_at" with
  | Some (JNumber exp) =>
      if int64_of_float64 (float64_oor env) exp <? time_Unix (clock env w)
      then None else Some (EvNow (clock env w) :: w)
  | _ => Some w
  end.

(** The expiry check of [part_002] lets the request through. *)
Definition Part002_past_expiry (env : Env) (req : gmap string JSON) (w : World)
  : option World :=
  match req !! "expires_at" with
  | Some (JString s) =>
      match rfc3339_parse env s with
      | Some e =>
          if time_After (clock env w) e then None
          else Some (EvNow (clock env w) :: w)
      | None => None
      end
  | _ => Some w
  end.

(** The executor commits: both guards let the request through. *)
Definition AppGo_commits env dev req w : option World :=
  AppGo_past_expiry env req w ≫= past_uptime env dev.
Definition Part002_commits env dev req w : option World :=
  Part002_past_expiry env req w ≫= past_uptime env dev.

(** The payloads of the executor. *)
Definition expired_data : gmap string GoValue :=
  {[ "shutdown_requested" := request_state "expired" ]}.

Definition AppGo_done_data : gmap string GoValue :=
  {[ "shutdown_requested" := request_state "done" ]}.

Definition commit_data (last_seen : string) : gmap string GoValue :=
  <[ "shutdown_requested" := request_state "shutting_down" ]>
  (<[ "status" := GString "off" ]>
  {[ "last_seen" := GString last_seen ]}).

Definition final_data (r : CmdResult) : gmap string GoValue :=
  match r with
  | CmdFail _ err => {[ "shutdown_requested" := request_failed err ]}
  | CmdOk _ =>
      <[ "shutdown_requested" := request_state "done" ]>
      {[ "status" := GString "off" ]}
  end.

(** The device with its [first_online_at] unknown. *)
Definition without_epoch (dev : Device) : Device :=
  {| ID := ID dev; UserID := UserID dev; Name := Name dev; Status := Status dev;
     LastSeen := LastSeen dev; FirstOnlineAt := None;
     ShutdownRequest := ShutdownRequest dev |}.

(** The command of [src/app.go]. *)
Definition shutdown_now : Cmd := {| cmd_name := "shutdown"; cmd_args := ["now"] |}.

(** The terminal states, and the payloads in a trace that write one. *)
Definition terminal (d : gmap string GoValue) : bool :=
  match written_state d with
  | Some s => String.eqb s "done" || String.eqb s "failed"
  | None => false
  end.

Definition terminal_writes (evs : list Event) : list (gmap string GoValue) :=
  List.filter terminal (patches evs).

(** The states written to [shutdown_requested], newest first. *)
Definition states_written (evs : list Event) : list string :=
  omap written_state (patches evs).

(** ** Sample surroundings, for the worked instances *)

(** 2025-01-01T12:00:00Z. *)
Definition noon : Time := 1735732800 * Second.

Definition sample_format (t : Time) : string :=
  if t =? noon then "2025-01-01T12:00:00Z" else "".

Definition sample_parse (s : string) : option Time :=
  if String.eqb s "2025-01-01T12:00:00Z" then Some noon
  else if String.eqb s "2020-01-01T00:00:00Z" then Some (1577836800 * Second)
  else if String.eqb s "2030-01-01T00:00:00Z" then Some (1893456000 * Second)
  else None.

Definition no_content : Response := HttpResponse 204 (RawBody "").

(** A registry that answers by the kind of request alone. *)
Definition steady_registry (found : list Device) (on_post on_patch : Response)
  : World -> Request -> Response :=
  fun _ rq =>
    match rq with
    | GetDevices _ _ => HttpResponse 200 (DevicesJSON found)
    | PostDevice _ _ => on_post
    | PatchDevice _ _ _ => on_patch
    end.

Definition sample_env (reg : World -> Request -> Response) (os : string)
  (r : CmdResult) : Env :=
  {| registry := reg;
     clock := fun _ => noon;
     run_command := fun _ _ => r;
     GOOS := os;
     rfc3339_format := sample_format;
     rfc3339_parse := sample_parse;
     float64_oor := fun _ => minInt64 |}.

Definition laptop (epoch : option Time) (request : option JSON) : Device :=
  {| ID := "d-1"; UserID := "user-1"; Name := "laptop-7"; Status := "on";
     LastSeen := None; FirstOnlineAt := epoch; ShutdownRequest := request |}.

Definition pending : gmap string JSON := {[ "status" := JString "pending" ]}.

Definition pending_until (deadline : JSON) : gmap string JSON :=
  <[ "expires_at" := deadline ]> pending.

(** The Unix second 1577836800 (2020-01-01T00:00:00Z) as a [float64]. *)
Definition year2020 : spec_float := S754_finite false 1577836800 0.

(** The literal 1e400, which no [float64] holds. *)
Definition too_large : spec_float := S754_infinity false.

(** ** Vocabulary of the later sections *)

(** A registry that accepts every creation. *)
Definition creates_always (env : Env) : Prop :=
  forall w b p, match registry env w (PostDevice b p) with
                | HttpResponse code _ => code < 300
                | TransportError _ => False
                end.

(** A registry that answers every lookup with a list of devices. *)
Definition finds_always (env : Env) (userID name : string) : Prop :=
  forall w, exists dl,
    registry env w (GetDevices userID name) = HttpResponse 200 (DevicesJSON dl).

(** A registry that answers every PATCH for this device with 404. *)
Definition always_404 (env : Env) (userID name : string) : Prop :=
  forall w data, is_404 (registry env w (PatchDevice userID name data)) = true.

(** The transitions the data model lists, and those of [src/app.go]. *)
Definition listed_transition (prev next : string) : bool :=
  (String.eqb prev "pending"
     && (String.eqb next "expired" || String.eqb next "shutting_down"))
  || (String.eqb prev "shutting_down"
        && (String.eqb next "done" || String.eqb next "failed")).

Definition AppGo_transition (prev next : string) : bool :=
  String.eqb prev "pending"
    && (String.eqb next "expired" || String.eqb next "done").

(** A payload re-sent after a 404 is one write: runs of the same state
    count once. *)
Fixpoint squash (l : list string) : list string :=
  match l with
  | [] => []
  | a :: l' =>
      match l' with
      | b :: _ => if String.eqb a b then squash l' else a :: squash l'
      | [] => [a]
      end
  end.

(** Every state in [l] (newest first) is one step after the state written
    before it, the oldest one step after [first]. *)
Fixpoint forward_from (step : string -> string -> bool) (first : string)
  (l : list string) : bool :=
  match l with
  | [] => true
  | s :: rest => step (hd first rest) s && forward_from step first rest
  end.

(** The runs of states the executor of [part_002] can write. *)
Definition Part002_shape (l : list string) : Prop :=
  l = [] \/
  (exists k, l = replicate (S k) "expired") \/
  (exists k, l = replicate (S k) "shutting_down") \/
  (exists j k final, (final = "done" \/ final = "failed") /\
     l = replicate (S j) final ++ replicate (S k) "shutting_down").

(** The runs of states the executor of [src/app.go] can write. *)
Definition AppGo_shape (l : list string) : Prop :=
  l = [] \/
  (exists k, l = replicate (S k) "expired") \/
  (exists k, l = replicate (S k) "done").

(** How the answer to the POST decides the result of [createDevice]. *)
Definition post_decides (e : option error) (rs : Response) : Prop :=
  (e = None <-> exists code body, rs = HttpResponse code body /\ code < 300) /\
  (forall body, rs = HttpResponse 409 body -> e <> None).

(** The payload of a tick of [src/app.go] and of [part_002]. *)
Definition AppGo_liveness_data (t1 t2 : Time) : gmap string GoValue :=
  <[ "status" := GString "on" ]>
  (<[ "last_seen" := GTime t1 ]>
  {[ "first_online_at" := GTime t2 ]}).

Definition Part002_liveness_data (now_ : string) : gmap string GoValue :=
  <[ "status" := GString "on" ]>
  (<[ "last_seen" := GString now_ ]>
  {[ "first_online_at" := GString now_ ]}).

(** What a tick of the reporter adds to the trace [w] it starts from, up to
    its wait for the ticker: the readings of the clock ([src/app.go] makes
    two, [part_002] one), then a stretch in which the payload made of those
    very readings is PATCHed at least once and nothing else is written. *)
Definition AppGo_tick_body (env : Env) (userID name : string) (w : World)
  (evs : list Event) : Prop :=
  let t1 := clock env w in
  let t2 := clock env (EvNow t1 :: w) in
  exists sent, evs = sent ++ [EvNow t2; EvNow t1] /\
               patch_span userID name (AppGo_liveness_data t1 t2) sent.

Definition Part002_tick_body (env : Env) (userID name : string) (w : World)
  (evs : list Event) : Prop :=
  let t := clock env w in
  exists sent, evs = sent ++ [EvNow t] /\
               patch_span userID name
                 (Part002_liveness_data (rfc3339_format env t)) sent.

(** [ticked body w k w']: from [w], the reporter has completed [k] ticks and
    the trace is [w']; each tick is its body, read off the trace it started
    from, followed by the wait for the ticker. *)
Inductive ticked (body : World -> list Event -> Prop) (w : World)
  : nat -> World -> Prop :=
| ticked_O : ticked body w 0 w
| ticked_S k w1 evs :
    ticked body w k w1 ->
    body w1 evs ->
    ticked body w (S k) (EvTick StatusUpdateInterval :: evs ++ w1).

(** ** Vocabulary of the event invariants *)

(** A computation that only ever adds events satisfying [P], whether it
    returns or not. *)
Definition emits {A} (P : Event -> Prop) (m : M A) : Prop :=
  forall w, exists evs, out_world (m w) = evs ++ w /\ Forall P evs.

(** A row as [createDevice] posts it: its [status] is unknown, it sets
    [first_online_at] and [last_seen], and it has no [shutdown_requested]. *)
Definition fresh_row (r : gmap string GoValue) : Prop :=
  r !! "status" = Some (GString "unknown") /\
  is_Some (r !! "first_online_at") /\
  is_Some (r !! "last_seen") /\
  r !! "shutdown_requested" = None.

Definition post_fresh (b : PostBody) : Prop :=
  match b with
  | BodyArray rows => Forall fresh_row rows
  | BodyObject r => fresh_row r
  end.

(** What the status reporter may leave in the trace: no command, no sleep,
    and PATCHes that report the device on and leave [shutdown_requested]
    alone. *)
Definition reporter_event (e : Event) : Prop :=
  match e with
  | EvExec _ _ | EvSleep _ => False
  | EvHttp (PatchDevice _ _ d) _ =>
      d !! "status" = Some (GString "on") /\ d !! "shutdown_requested" = None
  | EvHttp (PostDevice b _) _ => post_plain b
  | _ => True
  end.

(** What the watcher may leave in the trace, given the commands [ok] it may
    run: no tick, sleeps of the grace delay and of the poll interval only,
    PATCHes that leave [first_online_at] alone and give [status], if
    anything, the value off, and POSTs of rows as [createDevice] makes them,
    which do set [first_online_at] and give [status] the value unknown. *)
Definition watcher_event (ok : Cmd -> Prop) (e : Event) : Prop :=
  match e with
  | EvTick _ => False
  | EvSleep d => d = ShutdownDelay \/ d = ShutdownPollInterval
  | EvExec c _ => ok c
  | EvHttp (PatchDevice _ _ d) _ =>
      d !! "first_online_at" = None /\
      (d !! "status" = None \/ d !! "status" = Some (GString "off"))
  | EvHttp (PostDevice b _) _ => post_fresh b
  | _ => True
  end.

(** The number of sleeps of the poll interval in a stretch of trace. *)
Definition is_poll_sleep (e : Event) : bool :=
  match e with
  | EvSleep d => d =? ShutdownPollInterval
  | _ => false
  end.

Definition poll_sleeps (evs : list Event) : nat :=
  length (List.filter is_poll_sleep evs).

(** The answers to a lookup that [fetchDevices] turns into an error. *)
Definition fetch_fails (rs : Response) : bool :=
  match rs with
  | TransportError _ => true
  | HttpResponse code (DevicesJSON _) => negb (code =? 200)
  | HttpResponse _ (RawBody _) => true
  end.

(** The answers to a PATCH that [patchDevice] takes for a failure without
    trying again. *)
Definition patch_fails (rs : Response) : bool :=
  match rs with
  | TransportError _ => true
  | HttpResponse code _ => negb (code =? 404) && (300 <=? code)
  end.

(** A request the watcher does not act on: no payload, or a payload that
    decodes to a map whose [status] is not the string pending. *)
Definition not_pending (dev : Device) : Prop :=
  match ShutdownRequest dev with
  | None => True
  | Some raw =>
      exists req, json_Unmarshal_map raw = Some req /\
                  String.eqb (string_field req "status") "pending" = false
  end.

(** The events of this owner's agent, by what it may PATCH, how long it may
    sleep, what it may run and on what period it may tick.  Lookups and
    PATCHes are about this device, creations post rows as [createDevice]
    makes them. *)
Definition agent_event (userID name : string)
  (ok_data : gmap string GoValue -> Prop) (ok_sleep : Duration -> Prop)
  (ok_cmd : Cmd -> Prop) (ok_tick : Duration -> Prop) (e : Event) : Prop :=
  match e with
  | EvNow _ | EvLog _ => True
  | EvHttp (GetDevices u n) _ => u = userID /\ n = name
  | EvHttp (PostDevice b _) _ => post_plain b /\ post_fresh b
  | EvHttp (PatchDevice u n d) _ => u = userID /\ n = name /\ ok_data d
  | EvSleep d => ok_sleep d
  | EvExec c _ => ok_cmd c
  | EvTick p => ok_tick p
  end.

(** The payloads the watcher may PATCH and those the reporter may. *)
Definition watcher_data (d : gmap string GoValue) : Prop :=
  d !! "first_online_at" = None /\
  (d !! "status" = None \/ d !! "status" = Some (GString "off")).

Definition reporter_data (d : gmap string GoValue) : Prop :=
  d !! "status" = Some (GString "on") /\ d !! "shutdown_requested" = None.

Definition watcher_sleep (d : Duration) : Prop :=
  d = ShutdownDelay \/ d = ShutdownPollInterval.

(** A registry that cannot be reached. *)
Definition down_registry : World -> Request -> Response :=
  fun _ _ => TransportError "dial tcp: connection refused".

(** A registry that answers the first PATCH with 404 and every later one
    with 500, finds the device and accepts creations. *)
Definition gone_then_broken (found : list Device) : World -> Request -> Response :=
  fun w rq =>
    match rq with
    | GetDevices _ _ => HttpResponse 200 (DevicesJSON found)
    | PostDevice _ _ => HttpResponse 201 (RawBody "")
    | PatchDevice _ _ _ =>
        match patches w with
        | [] => HttpResponse 404 (RawBody "")
        | _ :: _ => HttpResponse 500 (RawBody "")
        end
    end.

(** A pass that has returned: the lookup first, the sleep of the poll
    interval last, and no other sleep of that length between. *)
Definition pass_shape (env : Env) (u n : string) (w w' : World) : Prop :=
  exists evs,
    w' = EvSleep ShutdownPollInterval
           :: evs ++ EvHttp (GetDevices u n) (registry env w (GetDevices u n)) :: w /\
    poll_sleeps evs = 0%nat.

(** ** Trace lemmas for the registry client *)

Lemma patches_app (a b : list Event) : patches (a ++ b) = patches a ++ patches b.
Proof. apply omap_app. Qed.

Lemma execs_app (a b : list Event) : execs (a ++ b) = execs a ++ execs b.
Proof. apply omap_app. Qed.

Lemma fetchDevices_ret env u n w :
  exists r, fetchDevices env u n w = Ret r (EvHttp (GetDevices u n) (registry env w (GetDevices u n)) :: w).
Proof.
  unfold fetchDevices, bind, http, ret.
  destruct (registry env w (GetDevices u n)) as [e | code body]; eauto.
  destruct (negb (code =? 200)); eauto.
  destruct body; eauto.
Qed.

Lemma trace_nil (w : World) : w = [] ++ w.
Proof. reflexivity. Qed.

Lemma trace_cons (e : Event) (l evs w : World) :
  l = evs ++ w -> e :: l = (e :: evs) ++ w.
Proof. intros ->. reflexivity. Qed.

Lemma trace_app (l evs1 evs2 w : World) :
  l = evs2 ++ w -> evs1 ++ l = (evs1 ++ evs2) ++ w.
Proof. intros ->. apply app_assoc. Qed.

(** Splits a trace into the events added on top of [w]. *)
Ltac trace_split :=
  repeat first [ apply trace_nil | apply trace_cons | apply trace_app ].

Lemma AppGo_createDevice_ret env u n w :
  exists e evs, AppGo.createDevice env u n w = Ret e (evs ++ w) /\
                Forall (fun ev => forall d, patch_noise u n d ev) evs.
Proof.
  unfold AppGo.createDevice, bind, http, now, ret.
  set (t1 := clock env w). set (t2 := clock env (EvNow t1 :: w)).
  set (rq := PostDevice _ _).
  destruct (registry env (EvNow t2 :: EvNow t1 :: w) rq) as [e | code body] eqn:Hrs.
  - eexists _, _. split; [f_equal; trace_split|]. repeat constructor.
  - destruct (300 <=? code).
    + eexists _, _. split; [f_equal; trace_split|]. repeat constructor.
    + eexists _, _. split; [f_equal; trace_split|]. repeat constructor.
Qed.

(** The PATCH that a call starts with is in the trace it leaves. *)
Ltac patch_sent :=
  intros _; eexists;
  repeat first [ left; reflexivity | right | apply in_or_app; right ].

(** The events of the recovery are harmless whatever the payload. *)
Ltac noise_tail Hc :=
  rewrite ?Forall_app; repeat split;
  first
    [ assumption
    | (eapply Forall_impl; [exact Hc|]; simpl; solve [auto])
    | (repeat constructor; done) ].

Lemma AppGo_patchDevice_trace env u n data fuel : forall w,
  exists evs, out_world (AppGo.patchDevice env u n fuel data w) = evs ++ w /\
              Forall (patch_noise u n data) evs /\
              (fuel <> 0%nat ->
               exists rs, In (EvHttp (PatchDevice u n data) rs) evs).
Proof.
  induction fuel as [|fuel IH]; intros w.
  - exists []. simpl. split; [done|]. split; [constructor | congruence].
  - simpl. unfold bind at 1. unfold http. cbv zeta.
    set (ev := EvHttp (PatchDevice u n data) _).
    assert (Hev : patch_noise u n data ev) by (subst ev; simpl; auto).
    destruct (registry env w (PatchDevice u n data)) as [e | code body].
    { exists [EvLog "PATCH error:"; ev]. split; [done|].
      split; [by repeat constructor | patch_sent]. }
    destruct (code =? 404).
    2:{ destruct (300 <=? code); eexists [_; ev]; (split; [done|]);
          (split; [by repeat constructor | patch_sent]). }
    unfold bind at 1.
    destruct (fetchDevices_ret env u n (ev :: w)) as [r ->].
    set (g := EvHttp (GetDevices u n) _).
    destruct (r.1) as [|d0 dl].
    + unfold bind at 1.
      destruct (AppGo_createDevice_ret env u n (g :: ev :: w)) as (e & cevs & -> & Hc).
      destruct e as [err|].
      * exists (EvLog "createDevice:" :: cevs ++ [g; ev]).
        split; [simpl; by rewrite <- app_assoc|].
        split; [constructor; [done|]; noise_tail Hc | patch_sent].
      * destruct (IH (cevs ++ g :: ev :: w)) as (evs & -> & Hn & _).
        exists (evs ++ cevs ++ [g; ev]). split; [by rewrite <- !app_assoc|].
        split; [noise_tail Hc | patch_sent].
    + destruct (IH (g :: ev :: w)) as (evs & -> & Hn & _).
      exists (evs ++ [g; ev]). split; [by rewrite <- !app_assoc|].
      split; [noise_tail Hn | patch_sent].
Qed.

Lemma Part002_createDevice_ret env u n w :
  exists e evs, Part002.createDevice env u n w = Ret e (evs ++ w) /\
                Forall (fun ev => forall d, patch_noise u n d ev) evs.
Proof.
  unfold Part002.createDevice. unfold bind at 1.
  destruct (fetchDevices_ret env u n w) as [r ->].
  set (g := EvHttp (GetDevices u n) _).
  destruct (r.2) as [err|].
  { eexists _, [g]. split; [done|]. repeat constructor. }
  destruct (r.1) as [|d0 dl].
  2:{ eexists _, [g]. split; [done|]. repeat constructor. }
  unfold bind, http, now, ret.
  set (t1 := clock env (g :: w)). set (t2 := clock env (EvNow t1 :: g :: w)).
  set (rq := PostDevice _ _).
  destruct (registry env (EvNow t2 :: EvNow t1 :: g :: w) rq) as [e | code body].
  - eexists _, _. split; [f_equal; trace_split|]. repeat constructor.
  - destruct (300 <=? code).
    + eexists _, _. split; [f_equal; trace_split|]. repeat constructor.
    + eexists _, _. split; [f_equal; trace_split|]. repeat constructor.
Qed.

Lemma out_world_bind_ret {A B} (m : M A) (b : B) w :
  out_world (bind m (fun _ => ret b) w) = out_world (m w).
Proof. unfold bind, ret. destruct (m w); reflexivity. Qed.

Lemma Part002_patchDevice_trace env u n data fuel : forall w,
  exists evs, out_world (Part002.patchDevice env u n fuel data w) = evs ++ w /\
              Forall (patch_noise u n data) evs /\
              (fuel <> 0%nat ->
               exists rs, In (EvHttp (PatchDevice u n data) rs) evs).
Proof.
  induction fuel as [|fuel IH]; intros w.
  - exists []. simpl. split; [done|]. split; [constructor | congruence].
  - simpl. unfold bind at 1. unfold http. cbv zeta.
    set (ev := EvHttp (PatchDevice u n data) _).
    assert (Hev : patch_noise u n data ev) by (subst ev; simpl; auto).
    destruct (registry env w (PatchDevice u n data)) as [e | code body].
    { exists [EvLog "PATCH error:"; ev]. split; [done|].
      split; [by repeat constructor | patch_sent]. }
    destruct (code =? 404).
    2:{ destruct (300 <=? code); [eexists [ev] | eexists [_; ev]];
          (split; [done|]); (split; [by repeat constructor | patch_sent]). }
    unfold bind at 1.
    destruct (fetchDevices_ret env u n (ev :: w)) as [r ->].
    set (g := EvHttp (GetDevices u n) _).
    destruct (r.1) as [|d0 dl].
    + unfold bind at 1.
      destruct (Part002_createDevice_ret env u n (g :: ev :: w)) as (e & cevs & -> & Hc).
      destruct e as [err|].
      * exists (EvLog "createDevice:" :: cevs ++ [g; ev]).
        split; [simpl; by rewrite <- app_assoc|].
        split; [constructor; [done|]; noise_tail Hc | patch_sent].
      * rewrite out_world_bind_ret.
        destruct (IH (cevs ++ g :: ev :: w)) as (evs & -> & Hn & _).
        exists (evs ++ cevs ++ [g; ev]). split; [by rewrite <- !app_assoc|].
        split; [noise_tail Hc | patch_sent].
    + rewrite out_world_bind_ret.
      destruct (IH (g :: ev :: w)) as (evs & -> & Hn & _).
      exists (evs ++ [g; ev]). split; [by rewrite <- !app_assoc|].
      split; [noise_tail Hn | patch_sent].
Qed.

(** A call that returns has PATCHed its payload, and written nothing else. *)
Lemma AppGo_patchDevice_span env u n data fuel w r w' :
  AppGo.patchDevice env u n fuel data w = Ret r w' ->
  exists evs, w' = evs ++ w /\ patch_span u n data evs.
Proof.
  intros H. destruct (AppGo_patchDevice_trace env u n data fuel w) as (evs & Hw & Hn & Hin).
  rewrite H in Hw. simpl in Hw. exists evs. split; [done|]. split; [done|].
  apply Hin. intros ->. discriminate.
Qed.

Lemma Part002_patchDevice_span env u n data fuel w r w' :
  Part002.patchDevice env u n fuel data w = Ret r w' ->
  exists evs, w' = evs ++ w /\ patch_span u n data evs.
Proof.
  intros H. destruct (Part002_patchDevice_trace env u n data fuel w) as (evs & Hw & Hn & Hin).
  rewrite H in Hw. simpl in Hw. exists evs. split; [done|]. split; [done|].
  apply Hin. intros ->. discriminate.
Qed.

(** A PATCH that is not answered 404 is not repeated: the call returns. *)
Lemma AppGo_patchDevice_returns env u n data fuel w :
  is_404 (registry env w (PatchDevice u n data)) = false ->
  exists w', AppGo.patchDevice env u n (S fuel) data w = Ret tt w'.
Proof.
  intros H. simpl. unfold bind, http.
  destruct (registry env w (PatchDevice u n data)) as [e | code body]; simpl in H.
  - eexists. reflexivity.
  - rewrite H. destruct (300 <=? code); eexists; reflexivity.
Qed.

Lemma Part002_patchDevice_returns env u n data fuel w :
  is_404 (registry env w (PatchDevice u n data)) = false ->
  exists r w', Part002.patchDevice env u n (S fuel) data w = Ret r w'.
Proof.
  intros H. simpl. unfold bind, http.
  destruct (registry env w (PatchDevice u n data)) as [e | code body]; simpl in H.
  - eexists _, _. reflexivity.
  - rewrite H. destruct (300 <=? code); eexists _, _; reflexivity.
Qed.

(** ** Projections of a stretch of [patchDevice] events *)

Lemma noise_execs u n data evs :
  Forall (patch_noise u n data) evs -> execs evs = [].
Proof.
  induction 1 as [|e evs He _ IH]; [done|].
  destruct e as [| [] | | | |]; simpl in *; try done.
Qed.

Lemma noise_patches u n data evs :
  Forall (patch_noise u n data) evs ->
  patches evs = replicate (length (patches evs)) data.
Proof.
  induction 1 as [|e evs He _ IH]; [done|].
  destruct e as [| [] | | | |]; simpl in *; try done.
  destruct He as (_ & _ & ->). unfold patches in *. simpl. by f_equal.
Qed.

Lemma in_patches u n data rs evs :
  In (EvHttp (PatchDevice u n data) rs) evs -> In data (patches evs).
Proof.
  induction evs as [|e evs IH]; [done|]. intros [-> | H].
  - left. done.
  - unfold patches in *. simpl. destruct (as_patch e); [right|]; auto.
Qed.

Lemma span_patches u n data evs :
  patch_span u n data evs ->
  exists k, patches evs = replicate (S k) data.
Proof.
  intros [Hn [rs Hin]]. apply in_patches in Hin.
  rewrite (noise_patches _ _ _ _ Hn) in *.
  destruct (length (patches evs)) as [|k]; [done|]. by exists k.
Qed.

Lemma span_length u n data evs :
  patch_span u n data evs -> exists k, length (patches evs) = S k.
Proof.
  intros H. destruct (span_patches _ _ _ _ H) as [k Hk]. exists k.
  by rewrite Hk, length_replicate.
Qed.

Lemma span_execs u n data evs : patch_span u n data evs -> execs evs = [].
Proof. intros [Hn _]. by eapply noise_execs. Qed.

Lemma span_log_l u n data evs msg :
  patch_span u n data evs -> patch_span u n data (EvLog msg :: evs).
Proof.
  intros [Hn [rs Hin]]. split; [by constructor|]. exists rs. by right.
Qed.

Lemma span_log_r u n data evs msg :
  patch_span u n data evs -> patch_span u n data (evs ++ [EvLog msg]).
Proof.
  intros [Hn [rs Hin]]. split.
  - apply Forall_app. split; [done|]. by repeat constructor.
  - exists rs. apply in_or_app. by left.
Qed.

(** The outcome of a call, with the trace it adds. *)
Lemma AppGo_patchDevice_cases env u n data fuel w :
  (exists evs, AppGo.patchDevice env u n fuel data w = Stall (evs ++ w) /\
               Forall (patch_noise u n data) evs) \/
  (exists evs, AppGo.patchDevice env u n fuel data w = Ret tt (evs ++ w) /\
               patch_span u n data evs).
Proof.
  destruct (AppGo.patchDevice env u n fuel data w) as [[] w'|w'] eqn:H.
  - right. destruct (AppGo_patchDevice_span _ _ _ _ _ _ _ _ H) as (evs & -> & Hs).
    by exists evs.
  - left. destruct (AppGo_patchDevice_trace env u n data fuel w) as (evs & Hw & Hn & _).
    rewrite H in Hw. simpl in Hw. subst w'. by exists evs.
Qed.

Lemma Part002_patchDevice_cases env u n data fuel w :
  (exists evs, Part002.patchDevice env u n fuel data w = Stall (evs ++ w) /\
               Forall (patch_noise u n data) evs) \/
  (exists r evs, Part002.patchDevice env u n fuel data w = Ret r (evs ++ w) /\
                 patch_span u n data evs).
Proof.
  destruct (Part002.patchDevice env u n fuel data w) as [r w'|w'] eqn:H.
  - right. destruct (Part002_patchDevice_span _ _ _ _ _ _ _ _ H) as (evs & -> & Hs).
    by exists r, evs.
  - left. destruct (Part002_patchDevice_trace env u n data fuel w) as (evs & Hw & Hn & _).
    rewrite H in Hw. simpl in Hw. subst w'. by exists evs.
Qed.

(** ** The guards, step by step *)

Lemma Part002_expiry_pass env u n fuel dev req w w1 :
  Part002_past_expiry env req w = Some w1 ->
  Part002.handleShutdown env u n fuel dev req w =
  Part002.handleShutdown env u n fuel dev (delete "expires_at" req) w1.
Proof.
  unfold Part002_past_expiry, Part002.handleShutdown.
  rewrite lookup_delete_eq.
  destruct (req !! "expires_at") as [[| | |s| |]|]; try (intros [= ->]; reflexivity).
  destruct (rfc3339_parse env s) as [e|]; [|done].
  unfold bind at 1. unfold now. cbv zeta.
  destruct (time_After (clock env w) e); [done|]. intros [= <-]. reflexivity.
Qed.

Lemma Part002_uptime_pass env u n fuel dev req w w0 :
  req !! "expires_at" = None ->
  past_uptime env dev w = Some w0 ->
  Part002.handleShutdown env u n fuel dev req w =
  Part002.handleShutdown env u n fuel (without_epoch dev) req w0.
Proof.
  unfold past_uptime, Part002.handleShutdown. intros ->.
  change (FirstOnlineAt (without_epoch dev)) with (@None Time).
  destruct (FirstOnlineAt dev) as [t0|]; [|by intros [= ->]].
  unfold since, bind, now, ret. cbv zeta.
  destruct (time_Sub (clock env w) t0 <? MinUptimeBeforeShutdown); [done|].
  intros [= <-]. reflexivity.
Qed.

Lemma Part002_commits_pass env u n fuel dev req w w0 :
  Part002_commits env dev req w = Some w0 ->
  Part002.handleShutdown env u n fuel dev req w =
  Part002.handleShutdown env u n fuel (without_epoch dev)
    (delete "expires_at" req) w0.
Proof.
  unfold Part002_commits. intros H.
  destruct (Part002_past_expiry env req w) as [w1|] eqn:H1; [|done]. simpl in H.
  rewrite (Part002_expiry_pass _ _ _ _ _ _ _ _ H1).
  apply Part002_uptime_pass; [apply lookup_delete_eq | done].
Qed.

(** ** The committed executor of [part_002] *)

(** Everything a committed run can do, whether or not its calls of
    [patchDevice] return. *)
Lemma Part002_committed_core env u n fuel dev req w0 :
  req !! "expires_at" = None -> FirstOnlineAt dev = None ->
  let t := clock env (EvLog "Shutting down…" :: w0) in
  let base := EvNow t :: EvLog "Shutting down…" :: w0 in
  let data := commit_data (rfc3339_format env t) in
  let run := Part002.handleShutdown env u n fuel dev req w0 in
  exists pre, Forall (patch_noise u n data) pre /\
    (run = Stall (pre ++ base) \/
     patch_span u n data pre /\
     let w1 := EvSleep ShutdownDelay :: pre ++ base in
     match Part002.shutdownCommand (GOOS env) with
     | None =>
         run = Ret tt (EvLog "Unsupported OS: %s. Shutdown command not executed." :: w1)
     | Some c =>
         let r := run_command env w1 c in
         exists post, Forall (patch_noise u n (final_data r)) post /\
           (run = Stall (post ++ EvExec c r :: w1) \/
            patch_span u n (final_data r) post /\
            run = Ret tt (post ++ EvExec c r :: w1))
     end).
Proof.
  intros Hreq Hdev t base data run. subst run.
  unfold Part002.handleShutdown. rewrite Hreq, Hdev.
  unfold bind, ret, log, now, sleep, exec. cbv zeta. fold t. fold base.
  change (<["shutdown_requested":=request_state "shutting_down"]> _) with data.
  destruct (Part002_patchDevice_cases env u n data fuel base)
    as [(pre & -> & Hpre) | (r0 & pre & -> & Hpre)].
  { exists pre. split; [done|]. by left. }
  exists pre. split; [apply Hpre|]. right. split; [done|]. cbv zeta.
  destruct (Part002.shutdownCommand (GOOS env)) as [c|]; [|done].
  set (w1 := EvSleep ShutdownDelay :: pre ++ base).
  destruct (run_command env w1 c) as [out | out err] eqn:Hr.
  - destruct (Part002_patchDevice_cases env u n (final_data (CmdOk out)) fuel
                (EvExec c (CmdOk out) :: w1))
      as [(post & Hrun & Hpost) | (r1 & post & Hrun & Hpost)];
      simpl in Hrun; rewrite Hrun.
    + exists post. split; [done|]. by left.
    + exists (EvLog "Shutdown command executed successfully" :: post).
      split; [constructor; [done | apply Hpost]|].
      right. split; [by apply span_log_l | done].
  - destruct (Part002_patchDevice_cases env u n (final_data (CmdFail out err)) fuel
                (EvLog "Shutdown command failed: %v\nOutput: %s"
                   :: EvExec c (CmdFail out err) :: w1))
      as [(post & Hrun & Hpost) | (r1 & post & Hrun & Hpost)];
      simpl in Hrun; rewrite Hrun.
    + exists (post ++ [EvLog "Shutdown command failed: %v\nOutput: %s"]).
      split; [apply Forall_app; split; [done | by repeat constructor]|].
      left. by rewrite <- app_assoc.
    + exists (post ++ [EvLog "Shutdown command failed: %v\nOutput: %s"]).
      split; [apply Forall_app; split; [apply Hpost | by repeat constructor]|].
      right. split; [by apply span_log_r | by rewrite <- app_assoc].
Qed.

(** ** The committed executor of [src/app.go] *)

Lemma AppGo_expiry_pass env u n fuel dev req w w1 :
  AppGo_past_expiry env req w = Some w1 ->
  AppGo.handleShutdown env u n fuel dev req w =
  AppGo.handleShutdown env u n fuel dev (delete "expires_at" req) w1.
Proof.
  unfold AppGo_past_expiry, AppGo.handleShutdown.
  rewrite lookup_delete_eq.
  destruct (req !! "expires_at") as [[| |f| | |]|]; try (intros [= ->]; reflexivity).
  unfold bind, now, ret. cbv zeta.
  destruct (int64_of_float64 (float64_oor env) f <? time_Unix (clock env w)); [done|].
  intros [= <-]. reflexivity.
Qed.

Lemma AppGo_uptime_pass env u n fuel dev req w w0 :
  req !! "expires_at" = None ->
  past_uptime env dev w = Some w0 ->
  AppGo.handleShutdown env u n fuel dev req w =
  AppGo.handleShutdown env u n fuel (without_epoch dev) req w0.
Proof.
  unfold past_uptime, AppGo.handleShutdown. intros ->.
  change (FirstOnlineAt (without_epoch dev)) with (@None Time).
  destruct (FirstOnlineAt dev) as [t0|]; [|by intros [= ->]].
  unfold since, bind, now, ret. cbv zeta.
  destruct (time_Sub (clock env w) t0 <? MinUptimeBeforeShutdown); [done|].
  intros [= <-]. reflexivity.
Qed.

Lemma AppGo_commits_pass env u n fuel dev req w w0 :
  AppGo_commits env dev req w = Some w0 ->
  AppGo.handleShutdown env u n fuel dev req w =
  AppGo.handleShutdown env u n fuel (without_epoch dev)
    (delete "expires_at" req) w0.
Proof.
  unfold AppGo_commits. intros H.
  destruct (AppGo_past_expiry env req w) as [w1|] eqn:H1; [|done]. simpl in H.
  rewrite (AppGo_expiry_pass _ _ _ _ _ _ _ _ H1).
  apply AppGo_uptime_pass; [apply lookup_delete_eq | done].
Qed.

Lemma AppGo_committed_core env u n fuel dev req w0 :
  req !! "expires_at" = None -> FirstOnlineAt dev = None ->
  let run := AppGo.handleShutdown env u n fuel dev req w0 in
  exists pre, Forall (patch_noise u n AppGo_done_data) pre /\
    (run = Stall (pre ++ w0) \/
     patch_span u n AppGo_done_data pre /\
     let w1 := EvSleep ShutdownDelay :: EvLog "Shutting down…" :: pre ++ w0 in
     run = Ret tt (EvExec shutdown_now (run_command env w1 shutdown_now) :: w1)).
Proof.
  intros Hreq Hdev run. subst run.
  unfold AppGo.handleShutdown. rewrite Hreq, Hdev.
  unfold bind, ret, log, sleep, exec. cbv zeta.
  change ({["shutdown_requested" := request_state "done"]}) with AppGo_done_data.
  destruct (AppGo_patchDevice_cases env u n AppGo_done_data fuel w0)
    as [(pre & -> & Hpre) | (pre & -> & Hpre)].
  - exists pre. split; [done|]. by left.
  - exists pre. split; [apply Hpre|]. right. split; done.
Qed.

(** ** When the executor returns *)

(** With a registry that never answers this device's PATCH with 404, every
    call of [patchDevice] returns at once, and so does the executor. *)
Lemma AppGo_handleShutdown_returns env u n fuel dev req w :
  never_404 env u n ->
  exists w', AppGo.handleShutdown env u n (S fuel) dev req w = Ret tt w'.
Proof.
  intros H404. unfold AppGo.handleShutdown.
  assert (Hp : forall data w0, exists w', AppGo.patchDevice env u n (S fuel) data w0 = Ret tt w').
  { intros. apply AppGo_patchDevice_returns, H404. }
  assert (Hk : forall w0, exists w',
    (young <- match FirstOnlineAt dev with
              | Some t0 => d <- since env t0 ;; ret (d <? MinUptimeBeforeShutdown)
              | None => ret false
              end ;;
     if young : bool then ret tt
     else
       AppGo.patchDevice env u n (S fuel) {[ "shutdown_requested" := request_state "done" ]} ;;;
       log "Shutting down…" ;;;
       sleep ShutdownDelay ;;;
       _ <- exec env {| cmd_name := "shutdown"; cmd_args := ["now"] |} ;;
       ret tt) w0 = Ret tt w').
  { intros w0. destruct (FirstOnlineAt dev) as [t0|].
    - unfold since, now. unfold bind at 1 2 3. unfold ret at 1 2. cbv zeta.
      destruct (_ <? _).
      + eexists. reflexivity.
      + unfold bind at 1. destruct (Hp {[ "shutdown_requested" := request_state "done" ]} (EvNow (clock env w0) :: w0)) as [w' ->].
        eexists. reflexivity.
    - unfold bind at 1. unfold ret at 1. unfold bind at 1.
      destruct (Hp {[ "shutdown_requested" := request_state "done" ]} w0) as [w' ->].
      eexists. reflexivity. }
  destruct (req !! "expires_at") as [[| |f| | |]|];
    try (unfold bind at 1; unfold ret at 1; apply Hk).
  unfold bind at 1 2. unfold now, ret at 1. cbv zeta.
  destruct (_ <? _).
  - apply Hp.
  - apply Hk.
Qed.

Lemma Part002_handleShutdown_returns env u n fuel dev req w :
  never_404 env u n ->
  exists w', Part002.handleShutdown env u n (S fuel) dev req w = Ret tt w'.
Proof.
  intros H404.
  assert (Hp : forall data w0, exists r w', Part002.patchDevice env u n (S fuel) data w0 = Ret r w').
  { intros. apply Part002_patchDevice_returns, H404. }
  assert (Hk : forall req0 w0, req0 !! "expires_at" = None ->
    exists w', Part002.handleShutdown env u n (S fuel) dev req0 w0 = Ret tt w').
  { intros req0 w0 Hreq. unfold Part002.handleShutdown. rewrite Hreq.
    assert (Hc : forall w1, exists w',
      (log "Shutting down…" ;;;
       t <- now env ;;
       Part002.patchDevice env u n (S fuel)
         (<[ "shutdown_requested" := request_state "shutting_down" ]>
         (<[ "status" := GString "off" ]>
         {[ "last_seen" := GString (rfc3339_format env t) ]})) ;;;
       sleep ShutdownDelay ;;;
       match Part002.shutdownCommand (GOOS env) with
       | None => log "Unsupported OS: %s. Shutdown command not executed."
       | Some cmd =>
           r <- exec env cmd ;;
           match r with
           | CmdFail _ err =>
               log "Shutdown command failed: %v\nOutput: %s" ;;;
               Part002.patchDevice env u n (S fuel) {[ "shutdown_requested" := request_failed err ]} ;;;
               ret tt
           | CmdOk _ =>
               Part002.patchDevice env u n (S fuel)
                 (<[ "shutdown_requested" := request_state "done" ]>
                 {[ "status" := GString "off" ]}) ;;;
               log "Shutdown command executed successfully"
           end
       end) w1 = Ret tt w').
    { intros w1. unfold bind at 1. unfold log at 1. unfold bind at 1. unfold now. cbv zeta.
      unfold bind at 1.
      destruct (Hp (<[ "shutdown_requested" := request_state "shutting_down" ]>
         (<[ "status" := GString "off" ]>
         {[ "last_seen" := GString (rfc3339_format env (clock env (EvLog "Shutting down…" :: w1))) ]}))
         (EvNow (clock env (EvLog "Shutting down…" :: w1)) :: EvLog "Shutting down…" :: w1)) as (r & w2 & ->).
      unfold bind at 1. unfold sleep.
      destruct (Part002.shutdownCommand (GOOS env)) as [c|]; [|eexists; reflexivity].
      unfold bind at 1. unfold exec. cbv zeta.
      destruct (run_command env (EvSleep ShutdownDelay :: w2) c) as [out|out err].
      - unfold bind at 1.
        destruct (Hp (<[ "shutdown_requested" := request_state "done" ]>
                 {[ "status" := GString "off" ]}) (EvExec c (CmdOk out) :: EvSleep ShutdownDelay :: w2)) as (r1 & w3 & ->).
        eexists. reflexivity.
      - unfold bind at 1. unfold log at 1. unfold bind at 1.
        destruct (Hp {[ "shutdown_requested" := request_failed err ]}
          (EvLog "Shutdown command failed: %v\nOutput: %s" :: EvExec c (CmdFail out err) :: EvSleep ShutdownDelay :: w2)) as (r1 & w3 & ->).
        eexists. reflexivity. }
    destruct (FirstOnlineAt dev) as [t0|].
    - unfold since, now. unfold bind at 1 2 3. unfold ret at 1 2. cbv zeta.
      destruct (_ <? _); [eexists; reflexivity | apply Hc].
    - unfold bind at 1. unfold ret at 1. apply Hc. }
  destruct (Part002_past_expiry env req w) as [w1|] eqn:Hexp.
  - rewrite (Part002_expiry_pass _ _ _ _ _ _ _ _ Hexp). apply Hk, lookup_delete_eq.
  - unfold Part002_past_expiry in Hexp. unfold Part002.handleShutdown.
    destruct (req !! "expires_at") as [[| | |s| |]|]; try done.
    destruct (rfc3339_parse env s) as [e|]; [|eexists; reflexivity].
    unfold bind at 1. unfold now. cbv zeta.
    destruct (time_After (clock env w) e); [|done].
    unfold bind at 1.
    destruct (Hp {[ "shutdown_requested" := request_state "expired" ]} (EvNow (clock env w) :: w)) as (r & w2 & ->).
    eexists. reflexivity.
Qed.

(** ** Counting writes *)

Lemma filter_replicate {A} (f : A -> bool) k (x : A) :
  List.filter f (replicate k x) = if f x then replicate k x else [].
Proof.
  induction k as [|k IH]; simpl; [by destruct (f x)|].
  rewrite IH. by destruct (f x).
Qed.

Lemma terminal_writes_app a b :
  terminal_writes (a ++ b) = terminal_writes a ++ terminal_writes b.
Proof. unfold terminal_writes. by rewrite patches_app, List.filter_app. Qed.

Lemma execs_cons e l : execs (e :: l) = option_list (as_exec e) ++ execs l.
Proof. unfold execs. simpl. by destruct (as_exec e). Qed.

Lemma terminal_writes_cons e l :
  terminal_writes (e :: l) =
  List.filter terminal (option_list (as_patch e)) ++ terminal_writes l.
Proof.
  unfold terminal_writes, patches. simpl. destruct (as_patch e); [|done].
  simpl. by destruct (terminal _).
Qed.

Lemma terminal_writes_noise u n data evs :
  Forall (patch_noise u n data) evs -> terminal data = false ->
  terminal_writes evs = [].
Proof.
  intros Hn Ht. unfold terminal_writes.
  rewrite (noise_patches _ _ _ _ Hn), filter_replicate. by rewrite Ht.
Qed.

Lemma terminal_writes_span u n data evs :
  patch_span u n data evs -> terminal data = true ->
  exists k, terminal_writes evs = replicate (S k) data.
Proof.
  intros Hs Ht. destruct (span_patches _ _ _ _ Hs) as [k Hk].
  exists k. unfold terminal_writes. by rewrite Hk, filter_replicate, Ht.
Qed.

Lemma terminal_final r : terminal (final_data r) = true.
Proof. by destruct r. Qed.

Lemma terminal_commit s : terminal (commit_data s) = false.
Proof. done. Qed.

(** ** C1: the terminal state after a commit *)

(** C1, as amended.  In [part_002], in every run of a committed executor,
    finished or not, either no command has been run and no terminal state
    written, or the power-off command has been run exactly once and every
    terminal write carries the one payload its result selects, sent once or
    re-sent after a 404: [failed] with the command's error when the command
    failed, [done] with [status = off] when it succeeded.  A run that has
    returned is of the second kind, with at least one terminal write, on a
    supported OS, and of the first kind on an unsupported one.  In
    [src/app.go], a committed executor writes [done] alone and before the
    command; a run that has returned has written it at least once, has run
    [shutdown now] as its last action, and has written nothing after it,
    whatever the result.  With a registry that never answers this device's
    PATCH with 404, both executors return. *)
Theorem terminal_state_after_commit env u n dev req fuel w w0 :
  (Part002_commits env dev req w = Some w0 ->
   let run := Part002.handleShutdown env u n fuel dev req w in
   exists evs, out_world run = evs ++ w0 /\
     ((execs evs = [] /\ terminal_writes evs = [] /\
       (forall w', run = Ret tt w' -> Part002.shutdownCommand (GOOS env) = None)) \/
      (exists c r k,
         Part002.shutdownCommand (GOOS env) = Some c /\
         execs evs = [(c, r)] /\
         terminal_writes evs = replicate k (final_data r) /\
         (forall w', run = Ret tt w' -> k <> 0%nat)))) /\
  (AppGo_commits env dev req w = Some w0 ->
   let run := AppGo.handleShutdown env u n fuel dev req w in
   exists pre k,
     patches pre = replicate k AppGo_done_data /\ execs pre = [] /\
     (run = Stall (pre ++ w0) \/
      k <> 0%nat /\
      exists r, run = Ret tt (EvExec shutdown_now r :: EvSleep ShutdownDelay
                                :: EvLog "Shutting down…" :: pre ++ w0))) /\
  (never_404 env u n ->
   (exists w', Part002.handleShutdown env u n (S fuel) dev req w = Ret tt w') /\
   (exists w', AppGo.handleShutdown env u n (S fuel) dev req w = Ret tt w')) /\
  (forall out err,
     written_state (final_data (CmdFail out err)) = Some "failed" /\
     final_data (CmdFail out err) !! "shutdown_requested"
       = Some (GStringMap (<[ "status" := "failed" ]> {[ "error" := err ]})) /\
     written_state (final_data (CmdOk out)) = Some "done" /\
     final_data (CmdOk out) !! "status" = Some (GString "off")).
Proof.
  split; [|split; [|split; [|done]]].
  - intros Hc run. subst run. rewrite (Part002_commits_pass _ _ _ _ _ _ _ _ Hc).
    destruct (Part002_committed_core env u n fuel (without_epoch dev)
                (delete "expires_at" req) w0) as (pre & Hpre & Hcases);
      [apply lookup_delete_eq | done |].
    cbv zeta in Hcases.
    set (base := [EvNow (clock env (EvLog "Shutting down…" :: w0));
                  EvLog "Shutting down…"]).
    assert (Hq : execs (pre ++ base) = [] /\ terminal_writes (pre ++ base) = []).
    { rewrite execs_app, terminal_writes_app, (noise_execs _ _ _ _ Hpre),
        (terminal_writes_noise _ _ _ _ Hpre (terminal_commit _)). done. }
    destruct Hq as [Hqe Hqt].
    destruct Hcases as [-> | [Hspan Hrest]].
    { exists (pre ++ base). split; [by rewrite <- app_assoc|]. left. done. }
    destruct (Part002.shutdownCommand (GOOS env)) as [c|].
    + destruct Hrest as (post & Hpost & Hout).
      set (w1 := EvSleep ShutdownDelay :: _) in *.
      set (r := run_command env w1 c) in *.
      exists (post ++ EvExec c r :: EvSleep ShutdownDelay :: pre ++ base).
      split.
      { destruct Hout as [-> | [_ ->]]; simpl; subst w1;
          repeat (rewrite <- app_assoc; simpl); done. }
      right. exists c, r, (length (patches post)). split; [done|]. split; [|split].
      * rewrite execs_app, (noise_execs _ _ _ _ Hpost), !execs_cons, Hqe. done.
      * rewrite terminal_writes_app, !terminal_writes_cons, Hqt. simpl.
        rewrite app_nil_r. unfold terminal_writes.
        rewrite (noise_patches _ _ _ _ Hpost) at 1.
        by rewrite filter_replicate, terminal_final.
      * intros w' Hret. destruct Hout as [Hstall | [Hpspan _]]; [congruence|].
        destruct (span_length _ _ _ _ Hpspan) as [k ->]. done.
    + rewrite Hrest. simpl.
      exists (EvLog "Unsupported OS: %s. Shutdown command not executed."
                :: EvSleep ShutdownDelay :: pre ++ base).
      split; [simpl; by rewrite <- app_assoc|]. left.
      rewrite !execs_cons, !terminal_writes_cons, Hqe, Hqt. done.
  - intros Hc run. subst run. rewrite (AppGo_commits_pass _ _ _ _ _ _ _ _ Hc).
    destruct (AppGo_committed_core env u n fuel (without_epoch dev)
                (delete "expires_at" req) w0) as (pre & Hpre & Hcases);
      [apply lookup_delete_eq | done |].
    exists pre, (length (patches pre)).
    split; [by eapply noise_patches|]. split; [by eapply noise_execs|].
    destruct Hcases as [-> | [Hspan Hret]]; [by left|]. right.
    destruct (span_length _ _ _ _ Hspan) as [k ->]. split; [done|].
    eexists. exact Hret.
  - intros H404. split.
    + by apply Part002_handleShutdown_returns.
    + by apply AppGo_handleShutdown_returns.
Qed.

(** On FreeBSD the executor of [part_002] commits, writes [shutting_down],
    and returns with no terminal state written and no command run; the
    executor of [src/app.go] writes [done] although the command fails, and
    never [failed]. *)
Lemma commit_without_terminal_state :
  let bsd := sample_env (steady_registry [] no_content no_content) "freebsd" (CmdOk "") in
  let broken := sample_env (steady_registry [] no_content no_content) "linux"
                  (CmdFail "" "exit status 1") in
  (Part002_commits bsd (laptop None None) pending [] = Some [] /\
   exists w', Part002.handleShutdown bsd "user-1" "laptop-7" 1 (laptop None None) pending []
              = Ret tt w' /\
              states_written w' = ["shutting_down"] /\
              terminal_writes w' = [] /\ execs w' = []) /\
  (AppGo_commits broken (laptop None None) pending [] = Some [] /\
   exists w', AppGo.handleShutdown broken "user-1" "laptop-7" 1 (laptop None None) pending []
              = Ret tt w' /\
              states_written w' = ["done"] /\
              execs w' = [(shutdown_now, CmdFail "" "exit status 1")]).
Proof.
  cbv zeta. split.
  - split; [reflexivity|]. eexists. split; [vm_compute; reflexivity|].
    split; [|split]; vm_compute; reflexivity.
  - split; [reflexivity|]. eexists. split; [vm_compute; reflexivity|].
    split; vm_compute; reflexivity.
Qed.

Lemma terminal_state_after_commit_witness :
  let env := sample_env (steady_registry [] no_content no_content) "linux"
               (CmdFail "" "exit status 1") in
  let run := Part002.handleShutdown env "user-1" "laptop-7" 1 (laptop None None) pending [] in
  Part002_commits env (laptop None None) pending [] = Some [] /\
  exists evs, out_world run = evs ++ [] /\
    ((execs evs = [] /\ terminal_writes evs = [] /\
      (forall w', run = Ret tt w' -> Part002.shutdownCommand "linux" = None)) \/
     (exists c r k,
        Part002.shutdownCommand "linux" = Some c /\
        execs evs = [(c, r)] /\
        terminal_writes evs = replicate k (final_data r) /\
        (forall w', run = Ret tt w' -> k <> 0%nat))).
Proof.
  cbv zeta. split; [reflexivity|].
  destruct (terminal_state_after_commit
              (sample_env (steady_registry [] no_content no_content) "linux"
                 (CmdFail "" "exit status 1"))
              "user-1" "laptop-7" (laptop None None) pending 1 [] []) as [H _].
  exact (H eq_refl).
Defined.

(** ** C2: the order of the commit *)

(** C2, as amended.  In [part_002], every run of a committed executor,
    finished or not, starts by logging, reading the clock and PATCHing
    [shutdown_requested = {status: shutting_down}] together with
    [status = off] and [last_seen] set to that reading; while that call of
    [patchDevice] lasts nothing else is sent and nothing is run.  Once it has
    returned, the PATCH having been sent at least once, the executor sleeps
    [ShutdownDelay], five seconds, and only then, on a supported OS, runs the
    power-off command, once.  In [src/app.go], a committed executor instead
    PATCHes [shutdown_requested = {status: done}] alone, then logs, sleeps
    [ShutdownDelay] and runs [shutdown now]; it never writes
    [shutting_down].  With a registry that never answers this device's PATCH
    with 404, both executors return. *)
Theorem commit_before_power_off env u n dev req fuel w w0 :
  (Part002_commits env dev req w = Some w0 ->
   let run := Part002.handleShutdown env u n fuel dev req w in
   let t := clock env (EvLog "Shutting down…" :: w0) in
   let base := EvNow t :: EvLog "Shutting down…" :: w0 in
   exists pre k,
     patches pre = replicate k (commit_data (rfc3339_format env t)) /\
     execs pre = [] /\
     (run = Stall (pre ++ base) \/
      k <> 0%nat /\
      exists post,
        out_world run = post ++ EvSleep ShutdownDelay :: pre ++ base /\
        match Part002.shutdownCommand (GOOS env) with
        | Some c => exists post' r, post = post' ++ [EvExec c r] /\ execs post' = []
        | None => execs post = []
        end)) /\
  (AppGo_commits env dev req w = Some w0 ->
   let run := AppGo.handleShutdown env u n fuel dev req w in
   exists pre k,
     patches pre = replicate k AppGo_done_data /\ execs pre = [] /\
     (run = Stall (pre ++ w0) \/
      k <> 0%nat /\
      exists r, run = Ret tt (EvExec shutdown_now r :: EvSleep ShutdownDelay
                                :: EvLog "Shutting down…" :: pre ++ w0))) /\
  (never_404 env u n ->
   (exists w', Part002.handleShutdown env u n (S fuel) dev req w = Ret tt w') /\
   (exists w', AppGo.handleShutdown env u n (S fuel) dev req w = Ret tt w')) /\
  (forall last_seen,
     written_state (commit_data last_seen) = Some "shutting_down" /\
     commit_data last_seen !! "status" = Some (GString "off") /\
     commit_data last_seen !! "last_seen" = Some (GString last_seen)) /\
  ShutdownDelay = 5 * Second.
Proof.
  split; [|split; [|split; [|done]]].
  - intros Hc run t base. subst run.
    rewrite (Part002_commits_pass _ _ _ _ _ _ _ _ Hc).
    destruct (Part002_committed_core env u n fuel (without_epoch dev)
                (delete "expires_at" req) w0) as (pre & Hpre & Hcases);
      [apply lookup_delete_eq | done |].
    cbv zeta in Hcases. fold t in Hcases, Hpre. fold base in Hcases.
    exists pre, (length (patches pre)).
    split; [by eapply noise_patches|]. split; [by eapply noise_execs|].
    destruct Hcases as [-> | [Hspan Hrest]]; [by left|]. right.
    destruct (span_length _ _ _ _ Hspan) as [k ->]. split; [done|].
    destruct (Part002.shutdownCommand (GOOS env)) as [c|].
    + destruct Hrest as (post & Hpost & Hout).
      set (r := run_command env _ c) in *.
      exists (post ++ [EvExec c r]). split.
      * destruct Hout as [-> | [_ ->]]; simpl; by rewrite <- app_assoc.
      * exists post, r. split; [done|]. by eapply noise_execs.
    + rewrite Hrest. by exists [EvLog "Unsupported OS: %s. Shutdown command not executed."].
  - intros Hc run. subst run. rewrite (AppGo_commits_pass _ _ _ _ _ _ _ _ Hc).
    destruct (AppGo_committed_core env u n fuel (without_epoch dev)
                (delete "expires_at" req) w0) as (pre & Hpre & Hcases);
      [apply lookup_delete_eq | done |].
    exists pre, (length (patches pre)).
    split; [by eapply noise_patches|]. split; [by eapply noise_execs|].
    destruct Hcases as [-> | [Hspan Hret]]; [by left|]. right.
    destruct (span_length _ _ _ _ Hspan) as [k ->]. split; [done|].
    eexists. exact Hret.
  - intros H404. split.
    + by apply Part002_handleShutdown_returns.
    + by apply AppGo_handleShutdown_returns.
Qed.

(** The committed executor of [src/app.go] on a well-behaved registry: the
    PATCH carries [done] and neither [status] nor [last_seen], and
    [shutting_down] is not written before the command is run. *)
Lemma power_off_without_shutting_down :
  let env := sample_env (steady_registry [] no_content no_content) "linux" (CmdOk "") in
  AppGo_commits env (laptop None None) pending [] = Some [] /\
  AppGo.handleShutdown env "user-1" "laptop-7" 1 (laptop None None) pending [] =
    Ret tt [ EvExec shutdown_now (CmdOk "");
             EvSleep ShutdownDelay;
             EvLog "Shutting down…";
             EvLog "PATCH succeeded for %q: %v";
             EvHttp (PatchDevice "user-1" "laptop-7" AppGo_done_data) no_content ] /\
  written_state AppGo_done_data = Some "done" /\
  AppGo_done_data !! "status" = None /\
  AppGo_done_data !! "last_seen" = None.
Proof. cbv zeta. repeat split; vm_compute; reflexivity. Qed.

Lemma commit_before_power_off_witness :
  let env := sample_env (steady_registry [] no_content no_content) "linux" (CmdOk "") in
  let run := Part002.handleShutdown env "user-1" "laptop-7" 1 (laptop None None) pending [] in
  let base := [EvNow noon; EvLog "Shutting down…"] in
  Part002_commits env (laptop None None) pending [] = Some [] /\
  exists pre k,
    patches pre = replicate k (commit_data "2025-01-01T12:00:00Z") /\
    execs pre = [] /\
    (run = Stall (pre ++ base) \/
     k <> 0%nat /\
     exists post,
       out_world run = post ++ EvSleep ShutdownDelay :: pre ++ base /\
       exists post' r,
         post = post' ++ [EvExec {| cmd_name := "systemctl"; cmd_args := ["poweroff"] |} r]
         /\ execs post' = []).
Proof.
  cbv zeta. split; [reflexivity|].
  destruct (commit_before_power_off
              (sample_env (steady_registry [] no_content no_content) "linux" (CmdOk ""))
              "user-1" "laptop-7" (laptop None None) pending 1 [] []) as [H _].
  exact (H eq_refl).
Defined.

(** ** C3: a deadline that has passed *)

Lemma AppGo_expired_run env u n fuel dev req w exp :
  req !! "expires_at" = Some (JNumber exp) ->
  int64_of_float64 (float64_oor env) exp < time_Unix (clock env w) ->
  AppGo.handleShutdown env u n fuel dev req w =
  AppGo.patchDevice env u n fuel expired_data (EvNow (clock env w) :: w).
Proof.
  intros Hreq Hlt. unfold AppGo.handleShutdown. rewrite Hreq.
  unfold bind, now, ret. cbv zeta.
  apply Z.ltb_lt in Hlt. rewrite Hlt. reflexivity.
Qed.

Lemma Part002_expired_run env u n fuel dev req w s e :
  req !! "expires_at" = Some (JString s) ->
  rfc3339_parse env s = Some e ->
  e < clock env w ->
  Part002.handleShutdown env u n fuel dev req w =
  (Part002.patchDevice env u n fuel expired_data ;;; ret tt)
    (EvNow (clock env w) :: w).
Proof.
  intros Hreq Hparse Hlt. unfold Part002.handleShutdown. rewrite Hreq, Hparse.
  unfold bind at 1. unfold now. cbv zeta.
  unfold time_After. apply Z.ltb_lt in Hlt. rewrite Hlt. reflexivity.
Qed.

(** C3, as amended.  When [expires_at] is present in the form the revision
    decodes (a JSON number of Unix seconds in [src/app.go], an RFC 3339
    string in [part_002]) and is already past at the executor's clock
    reading, the executor does one thing: it calls [patchDevice] with
    [shutdown_requested = {status: expired}].  Every PATCH it sends carries
    exactly that payload, which has no [status] field; at least one is sent;
    no command is run; and the executor returns when that call does, at once
    if the PATCH is not answered 404. *)
Theorem past_deadline_marks_expired env u n dev req fuel w :
  let t := clock env w in
  (forall exp,
     req !! "expires_at" = Some (JNumber exp) ->
     int64_of_float64 (float64_oor env) exp < time_Unix t ->
     AppGo.handleShutdown env u n (S fuel) dev req w =
       AppGo.patchDevice env u n (S fuel) expired_data (EvNow t :: w) /\
     (exists evs k,
        out_world (AppGo.handleShutdown env u n (S fuel) dev req w)
          = evs ++ EvNow t :: w /\
        patches evs = replicate (S k) expired_data /\ execs evs = []) /\
     (is_404 (registry env (EvNow t :: w) (PatchDevice u n expired_data)) = false ->
      exists w', AppGo.handleShutdown env u n (S fuel) dev req w = Ret tt w')) /\
  (forall s e,
     req !! "expires_at" = Some (JString s) ->
     rfc3339_parse env s = Some e ->
     e < t ->
     Part002.handleShutdown env u n (S fuel) dev req w =
       (Part002.patchDevice env u n (S fuel) expired_data ;;; ret tt) (EvNow t :: w) /\
     (exists evs k,
        out_world (Part002.handleShutdown env u n (S fuel) dev req w)
          = evs ++ EvNow t :: w /\
        patches evs = replicate (S k) expired_data /\ execs evs = []) /\
     (is_404 (registry env (EvNow t :: w) (PatchDevice u n expired_data)) = false ->
      exists w', Part002.handleShutdown env u n (S fuel) dev req w = Ret tt w')) /\
  written_state expired_data = Some "expired" /\
  expired_data !! "status" = None.
Proof.
  intros t. split; [|split; [|done]].
  - intros exp Hreq Hlt.
    rewrite (AppGo_expired_run _ _ _ _ _ _ _ _ Hreq Hlt). fold t.
    split; [done|]. split.
    + destruct (AppGo_patchDevice_trace env u n expired_data (S fuel) (EvNow t :: w))
        as (evs & Hw & Hn & Hin).
      destruct (span_patches u n expired_data evs) as [k Hk]; [split; auto|].
      exists evs, k. split; [done|]. split; [done|]. by eapply noise_execs.
    + intros H. by apply AppGo_patchDevice_returns.
  - intros s e Hreq Hparse Hlt.
    rewrite (Part002_expired_run _ _ _ _ _ _ _ _ _ Hreq Hparse Hlt). fold t.
    split; [done|]. split.
    + rewrite out_world_bind_ret.
      destruct (Part002_patchDevice_trace env u n expired_data (S fuel) (EvNow t :: w))
        as (evs & Hw & Hn & Hin).
      destruct (span_patches u n expired_data evs) as [k Hk]; [split; auto|].
      exists evs, k. split; [done|]. split; [done|]. by eapply noise_execs.
    + intros H.
      destruct (Part002_patchDevice_returns env u n expired_data fuel _ H) as (r & w' & Hr).
      exists w'. unfold bind. by rewrite Hr.
Qed.

(** A deadline of 2020, read at noon on 2025-01-01, in the form the other
    revision decodes: [part_002] is given Unix seconds, [src/app.go] an
    RFC 3339 string.  Neither marks the request expired; both go on to the
    power-off. *)
Lemma past_deadline_of_other_form :
  let env := sample_env (steady_registry [] no_content no_content) "linux" (CmdOk "") in
  (exists w',
     Part002.handleShutdown env "user-1" "laptop-7" 1 (laptop None None)
       (pending_until (JNumber year2020)) [] = Ret tt w' /\
     states_written w' = ["done"; "shutting_down"] /\
     execs w' = [({| cmd_name := "systemctl"; cmd_args := ["poweroff"] |}, CmdOk "")]) /\
  (exists w',
     AppGo.handleShutdown env "user-1" "laptop-7" 1 (laptop None None)
       (pending_until (JString "2020-01-01T00:00:00Z")) [] = Ret tt w' /\
     states_written w' = ["done"] /\
     execs w' = [(shutdown_now, CmdOk "")]).
Proof.
  cbv zeta. split; eexists; (split; [vm_compute; reflexivity|]);
    split; vm_compute; reflexivity.
Qed.

Lemma past_deadline_marks_expired_witness :
  let env := sample_env (steady_registry [] no_content no_content) "linux" (CmdOk "") in
  int64_of_float64 (float64_oor env) year2020 < time_Unix noon /\
  exists evs k,
    out_world (AppGo.handleShutdown env "user-1" "laptop-7" 1 (laptop None None)
                 (pending_until (JNumber year2020)) [])
      = evs ++ [EvNow noon] /\
    patches evs = replicate (S k) expired_data /\ execs evs = [].
Proof.
  cbv zeta.
  set (env := sample_env (steady_registry [] no_content no_content) "linux" (CmdOk "")).
  assert (Hlt : int64_of_float64 (float64_oor env) year2020 < time_Unix (clock env []))
    by reflexivity.
  split; [exact Hlt|].
  destruct (past_deadline_marks_expired env "user-1" "laptop-7" (laptop None None)
              (pending_until (JNumber year2020)) 0 []) as [H _].
  destruct (H year2020 eq_refl Hlt) as (_ & Hex & _). exact Hex.
Defined.

(** ** Guards leave only clock readings *)

Lemma patches_cons e l : patches (e :: l) = option_list (as_patch e) ++ patches l.
Proof. unfold patches. simpl. by destruct (as_patch e). Qed.

Lemma silent_patches evs : Forall silent evs -> patches evs = [].
Proof.
  induction 1 as [|e evs He _ IH]; [done|].
  rewrite patches_cons, IH. by destruct e.
Qed.

Lemma silent_execs evs : Forall silent evs -> execs evs = [].
Proof.
  induction 1 as [|e evs He _ IH]; [done|].
  rewrite execs_cons, IH. by destruct e.
Qed.

Lemma past_uptime_silent env dev w w0 :
  past_uptime env dev w = Some w0 ->
  exists evs, w0 = evs ++ w /\ Forall silent evs.
Proof.
  unfold past_uptime. destruct (FirstOnlineAt dev) as [t0|].
  - destruct (_ <? _); [done|]. intros [= <-].
    exists [EvNow (clock env w)]. split; [done | by repeat constructor].
  - intros [= <-]. by exists [].
Qed.

Lemma AppGo_past_expiry_silent env req w w1 :
  AppGo_past_expiry env req w = Some w1 ->
  exists evs, w1 = evs ++ w /\ Forall silent evs.
Proof.
  unfold AppGo_past_expiry.
  destruct (req !! "expires_at") as [[| |f| | |]|];
    try (intros [= <-]; by exists []).
  destruct (_ <? _); [done|]. intros [= <-].
  exists [EvNow (clock env w)]. split; [done | by repeat constructor].
Qed.

Lemma Part002_past_expiry_silent env req w w1 :
  Part002_past_expiry env req w = Some w1 ->
  exists evs, w1 = evs ++ w /\ Forall silent evs.
Proof.
  unfold Part002_past_expiry.
  destruct (req !! "expires_at") as [[| | |s| |]|];
    try (intros [= <-]; by exists []).
  destruct (rfc3339_parse env s); [|done].
  destruct (time_After _ _); [done|]. intros [= <-].
  exists [EvNow (clock env w)]. split; [done | by repeat constructor].
Qed.

Lemma past_uptime_young env dev w :
  past_uptime env dev w = None ->
  exists t0, FirstOnlineAt dev = Some t0 /\
             time_Sub (clock env w) t0 < MinUptimeBeforeShutdown.
Proof.
  unfold past_uptime. destruct (FirstOnlineAt dev) as [t0|]; [|done].
  destruct (_ <? _) eqn:H; [|done]. intros _. exists t0. split; [done|].
  by apply Z.ltb_lt.
Qed.

(** ** Inside the uptime window *)

Lemma AppGo_young_run env u n fuel dev req w t0 :
  req !! "expires_at" = None ->
  FirstOnlineAt dev = Some t0 ->
  time_Sub (clock env w) t0 < MinUptimeBeforeShutdown ->
  AppGo.handleShutdown env u n fuel dev req w = Ret tt (EvNow (clock env w) :: w).
Proof.
  intros Hreq Hdev Hyoung. apply Z.ltb_lt in Hyoung.
  unfold AppGo.handleShutdown. rewrite Hreq, Hdev.
  unfold since, bind, now, ret. cbv zeta. by rewrite Hyoung.
Qed.

Lemma Part002_young_run env u n fuel dev req w t0 :
  req !! "expires_at" = None ->
  FirstOnlineAt dev = Some t0 ->
  time_Sub (clock env w) t0 < MinUptimeBeforeShutdown ->
  Part002.handleShutdown env u n fuel dev req w =
  Ret tt (EvLog "Device %s too recently started, skipping shutdown"
            :: EvNow (clock env w) :: w).
Proof.
  intros Hreq Hdev Hyoung. apply Z.ltb_lt in Hyoung.
  unfold Part002.handleShutdown. rewrite Hreq, Hdev.
  unfold since, bind, now, ret. cbv zeta. by rewrite Hyoung.
Qed.

(** ** C5: the uptime guard *)

(** C5, as amended.  For a pending request that the expiry check lets
    through, observed while [first_online_at] is known and less than
    [MinUptimeBeforeShutdown], one minute, has passed since it, the executor
    returns having only read the clock (and, in [part_002], logged): no
    request is sent to the registry and no command is run, whatever the
    budget of [patchDevice].  A request whose deadline has passed is marked
    expired first, inside the window too. *)
Theorem young_device_is_left_alone env u n dev req fuel w t0 :
  FirstOnlineAt dev = Some t0 ->
  (forall w1,
     AppGo_past_expiry env req w = Some w1 ->
     time_Sub (clock env w1) t0 < MinUptimeBeforeShutdown ->
     exists evs,
       AppGo.handleShutdown env u n fuel dev req w = Ret tt (evs ++ w) /\
       Forall silent evs) /\
  (forall w1,
     Part002_past_expiry env req w = Some w1 ->
     time_Sub (clock env w1) t0 < MinUptimeBeforeShutdown ->
     exists evs,
       Part002.handleShutdown env u n fuel dev req w = Ret tt (evs ++ w) /\
       Forall silent evs).
Proof.
  intros Hdev. split.
  - intros w1 Hexp Hyoung.
    rewrite (AppGo_expiry_pass _ _ _ _ _ _ _ _ Hexp).
    rewrite (AppGo_young_run _ _ _ _ _ _ _ _ (lookup_delete_eq _ _) Hdev Hyoung).
    destruct (AppGo_past_expiry_silent _ _ _ _ Hexp) as (evs & -> & Hs).
    exists (EvNow (clock env (evs ++ w)) :: evs). split; [done|]. by constructor.
  - intros w1 Hexp Hyoung.
    rewrite (Part002_expiry_pass _ _ _ _ _ _ _ _ Hexp).
    rewrite (Part002_young_run _ _ _ _ _ _ _ _ (lookup_delete_eq _ _) Hdev Hyoung).
    destruct (Part002_past_expiry_silent _ _ _ _ Hexp) as (evs & -> & Hs).
    eexists (_ :: _ :: evs). split; [done|]. by repeat constructor.
Qed.

(** Ten seconds after [first_online_at], a pending request whose deadline
    has passed: both executors PATCH [expired]. *)
Lemma young_device_still_expires :
  let env := sample_env (steady_registry [] no_content no_content) "linux" (CmdOk "") in
  let dev := laptop (Some (noon - 10 * Second)) None in
  time_Sub noon (noon - 10 * Second) < MinUptimeBeforeShutdown /\
  AppGo.handleShutdown env "user-1" "laptop-7" 1 dev (pending_until (JNumber year2020)) [] =
    Ret tt [ EvLog "PATCH succeeded for %q: %v";
             EvHttp (PatchDevice "user-1" "laptop-7" expired_data) no_content;
             EvNow noon ] /\
  Part002.handleShutdown env "user-1" "laptop-7" 1 dev
      (pending_until (JString "2020-01-01T00:00:00Z")) [] =
    Ret tt [ EvLog "PATCH succeeded for %q: %v";
             EvHttp (PatchDevice "user-1" "laptop-7" expired_data) no_content;
             EvNow noon ].
Proof. cbv zeta. repeat split; vm_compute; reflexivity. Qed.

Lemma young_device_is_left_alone_witness :
  let env := sample_env (steady_registry [] no_content no_content) "linux" (CmdOk "") in
  let dev := laptop (Some (noon - 10 * Second)) None in
  time_Sub noon (noon - 10 * Second) < MinUptimeBeforeShutdown /\
  exists evs,
    Part002.handleShutdown env "user-1" "laptop-7" 1 dev
      (pending_until (JString "2030-01-01T00:00:00Z")) [] = Ret tt (evs ++ []) /\
    Forall silent evs.
Proof.
  cbv zeta.
  set (env := sample_env (steady_registry [] no_content no_content) "linux" (CmdOk "")).
  assert (Hy : time_Sub (clock env [EvNow noon]) (noon - 10 * Second)
               < MinUptimeBeforeShutdown) by reflexivity.
  split; [exact Hy|].
  destruct (young_device_is_left_alone env "user-1" "laptop-7"
              (laptop (Some (noon - 10 * Second)) None)
              (pending_until (JString "2030-01-01T00:00:00Z")) 1 []
              (noon - 10 * Second) eq_refl) as [_ H].
  exact (H [EvNow noon] eq_refl Hy).
Defined.

(** ** Requests without a deadline the revision reads *)

(** Without a deadline, [src/app.go] writes [done] and nothing else. *)
Lemma AppGo_no_deadline_writes env u n fuel dev req w :
  req !! "expires_at" = None ->
  exists evs k,
    out_world (AppGo.handleShutdown env u n fuel dev req w) = evs ++ w /\
    patches evs = replicate k AppGo_done_data.
Proof.
  intros Hreq. destruct (past_uptime env dev w) as [w0|] eqn:Hup.
  - rewrite (AppGo_uptime_pass _ _ _ _ _ _ _ _ Hreq Hup).
    destruct (past_uptime_silent _ _ _ _ Hup) as (evs0 & -> & Hs0).
    destruct (AppGo_committed_core env u n fuel (without_epoch dev) req (evs0 ++ w))
      as (pre & Hpre & [-> | [_ ->]]); [done | done | |].
    + exists (pre ++ evs0), (length (patches pre)). split; [by rewrite app_assoc|].
      rewrite patches_app, (silent_patches _ Hs0), app_nil_r.
      by eapply noise_patches.
    + eexists (_ :: _ :: _ :: pre ++ evs0), (length (patches pre)).
      split; [simpl; by rewrite <- app_assoc|].
      rewrite !patches_cons, patches_app, (silent_patches _ Hs0), app_nil_r.
      simpl. by eapply noise_patches.
  - destruct (past_uptime_young _ _ _ Hup) as (t0 & Hdev & Hy).
    rewrite (AppGo_young_run _ _ _ _ _ _ _ _ Hreq Hdev Hy).
    by exists [EvNow (clock env w)], 0%nat.
Qed.

Lemma AppGo_patchDevice_once env u n data fuel w :
  is_404 (registry env w (PatchDevice u n data)) = false ->
  exists msg,
    AppGo.patchDevice env u n (S fuel) data w =
    Ret tt (EvLog msg :: EvHttp (PatchDevice u n data)
                           (registry env w (PatchDevice u n data)) :: w).
Proof.
  intros H. simpl. unfold bind, http.
  destruct (registry env w (PatchDevice u n data)) as [e | code body]; simpl in H.
  - eexists. reflexivity.
  - rewrite H. destruct (300 <=? code); eexists; reflexivity.
Qed.

(** ** C9: a deadline that [src/app.go] does not read *)

(** C9.  In [src/app.go], when [expires_at] is present but is not a JSON
    number, [handleShutdown] runs exactly as if the field were absent,
    whatever the clock says: every PATCH it sends carries
    [shutdown_requested = {status: done}], never [expired]; inside the
    uptime window it returns after reading the clock; when the uptime guard
    lets the request through, a run that returns has run [shutdown now] as
    its last action; and when moreover the PATCH is not answered 404, the
    run does return, having PATCHed [done], slept [ShutdownDelay] and run
    [shutdown now]. *)
Theorem non_numeric_deadline_is_ignored env u n dev req v fuel w :
  req !! "expires_at" = Some v ->
  (forall f, v <> JNumber f) ->
  AppGo.handleShutdown env u n fuel dev req w =
    AppGo.handleShutdown env u n fuel dev (delete "expires_at" req) w /\
  (exists evs k,
     out_world (AppGo.handleShutdown env u n fuel dev req w) = evs ++ w /\
     patches evs = replicate k AppGo_done_data /\
     written_state AppGo_done_data = Some "done") /\
  (forall t0,
     FirstOnlineAt dev = Some t0 ->
     time_Sub (clock env w) t0 < MinUptimeBeforeShutdown ->
     AppGo.handleShutdown env u n fuel dev req w = Ret tt (EvNow (clock env w) :: w)) /\
  (forall w0 w',
     past_uptime env dev w = Some w0 ->
     AppGo.handleShutdown env u n fuel dev req w = Ret tt w' ->
     exists pre r k,
       w' = EvExec shutdown_now r :: EvSleep ShutdownDelay
              :: EvLog "Shutting down…" :: pre ++ w0 /\
       patches pre = replicate (S k) AppGo_done_data) /\
  (forall w0,
     past_uptime env dev w = Some w0 ->
     is_404 (registry env w0 (PatchDevice u n AppGo_done_data)) = false ->
     exists msg rs r,
       AppGo.handleShutdown env u n (S fuel) dev req w =
       Ret tt (EvExec shutdown_now r :: EvSleep ShutdownDelay
                 :: EvLog "Shutting down…" :: EvLog msg
                 :: EvHttp (PatchDevice u n AppGo_done_data) rs :: w0)).
Proof.
  intros Hreq Hv.
  assert (Hexp : AppGo_past_expiry env req w = Some w).
  { unfold AppGo_past_expiry. rewrite Hreq. destruct v; try done. by destruct (Hv f). }
  assert (Hdel : forall k, AppGo.handleShutdown env u n k dev req w =
                 AppGo.handleShutdown env u n k dev (delete "expires_at" req) w).
  { intros k. by apply AppGo_expiry_pass. }
  split; [apply Hdel|]. split; [|split; [|split]].
  - rewrite Hdel.
    destruct (AppGo_no_deadline_writes env u n fuel dev (delete "expires_at" req) w)
      as (evs & k & Hw & Hp); [apply lookup_delete_eq|].
    by exists evs, k.
  - intros t0 Hdev Hy. rewrite Hdel.
    by apply (AppGo_young_run _ _ _ _ _ _ _ t0 (lookup_delete_eq _ _)).
  - intros w0 w' Hup Hrun. rewrite Hdel in Hrun.
    rewrite (AppGo_uptime_pass _ _ _ _ _ _ _ _ (lookup_delete_eq _ _) Hup) in Hrun.
    destruct (AppGo_committed_core env u n fuel (without_epoch dev)
                (delete "expires_at" req) w0) as (pre & Hpre & Hcases);
      [apply lookup_delete_eq | done |].
    rewrite Hrun in Hcases. destruct Hcases as [Hstall | [Hspan Hret]]; [done|].
    cbv zeta in Hret. injection Hret as ->.
    destruct (span_patches _ _ _ _ Hspan) as [k Hk].
    by eexists pre, _, k.
  - intros w0 Hup H404. rewrite Hdel.
    rewrite (AppGo_uptime_pass _ _ _ _ _ _ _ _ (lookup_delete_eq _ _) Hup).
    destruct (AppGo_patchDevice_once env u n AppGo_done_data fuel w0 H404) as [msg Hp].
    exists msg, (registry env w0 (PatchDevice u n AppGo_done_data)).
    unfold AppGo.handleShutdown. rewrite lookup_delete_eq.
    change (FirstOnlineAt (without_epoch dev)) with (@None Time).
    unfold bind, ret, log, sleep, exec. cbv zeta.
    change ({["shutdown_requested" := request_state "done"]}) with AppGo_done_data.
    rewrite Hp. eexists. reflexivity.
Qed.

Lemma non_numeric_deadline_is_ignored_witness :
  let env := sample_env (steady_registry [] no_content no_content) "linux" (CmdOk "") in
  let req := pending_until (JString "2020-01-01T00:00:00Z") in
  req !! "expires_at" = Some (JString "2020-01-01T00:00:00Z") /\
  exists msg rs r,
    AppGo.handleShutdown env "user-1" "laptop-7" 1 (laptop None None) req [] =
    Ret tt [ EvExec shutdown_now r; EvSleep ShutdownDelay; EvLog "Shutting down…";
             EvLog msg; EvHttp (PatchDevice "user-1" "laptop-7" AppGo_done_data) rs ].
Proof.
  cbv zeta. split; [reflexivity|].
  set (env := sample_env (steady_registry [] no_content no_content) "linux" (CmdOk "")).
  assert (Hv : forall f, JString "2020-01-01T00:00:00Z" <> JNumber f) by discriminate.
  destruct (non_numeric_deadline_is_ignored env "user-1" "laptop-7" (laptop None None)
              (pending_until (JString "2020-01-01T00:00:00Z"))
              (JString "2020-01-01T00:00:00Z") 0 [] eq_refl Hv) as (_ & _ & _ & _ & H).
  exact (H [] eq_refl eq_refl).
Defined.

(** ** C10: the recovery from 404 has no bound *)

Lemma plain_patches u n evs :
  Forall (fun ev => forall d, patch_noise u n d ev) evs -> patches evs = [].
Proof.
  induction 1 as [|e evs He _ IH]; [done|].
  rewrite patches_cons, IH.
  destruct e as [| [] | | | |]; try done.
  destruct (He ∅) as (_ & _ & ->).
  destruct (He {[ "status" := GString "on" ]}) as (_ & _ & Habs).
  by apply (f_equal (fun m : gmap string GoValue => m !! "status")) in Habs.
Qed.

Lemma AppGo_createDevice_ok env u n w :
  creates_always env ->
  exists evs, AppGo.createDevice env u n w = Ret None (evs ++ w) /\ patches evs = [].
Proof.
  intros Hpost. unfold AppGo.createDevice, bind, http, now, ret. cbv zeta.
  match goal with |- context [registry env ?w0 ?rq] =>
    specialize (Hpost w0 _ _ : match registry env w0 rq with
                               | HttpResponse code _ => code < 300
                               | TransportError _ => False end);
    destruct (registry env w0 rq) as [e | code body] end; [done|].
  apply Z.leb_gt in Hpost. rewrite Hpost.
  eexists. split; [f_equal; trace_split | done].
Qed.

Lemma Part002_createDevice_ok env u n w :
  creates_always env -> finds_always env u n ->
  exists evs, Part002.createDevice env u n w = Ret None (evs ++ w) /\ patches evs = [].
Proof.
  intros Hpost Hget. unfold Part002.createDevice, fetchDevices.
  unfold bind at 1 2. unfold http at 1. cbv zeta.
  destruct (Hget w) as [dl ->]. simpl.
  destruct dl as [|d0 dl].
  - unfold bind, http, now, ret. cbv zeta.
    match goal with |- context [registry env ?w0 ?rq] =>
      specialize (Hpost w0 _ _ : match registry env w0 rq with
                                 | HttpResponse code _ => code < 300
                                 | TransportError _ => False end);
      destruct (registry env w0 rq) as [e | code body] end; [done|].
    apply Z.leb_gt in Hpost. rewrite Hpost.
    eexists. split; [f_equal; trace_split | done].
  - eexists [_]. split; [reflexivity | done].
Qed.

Lemma AppGo_patchDevice_stalls env u n data :
  always_404 env u n -> creates_always env ->
  forall fuel w, exists evs,
    AppGo.patchDevice env u n fuel data w = Stall (evs ++ w) /\
    patches evs = replicate fuel data.
Proof.
  intros H404 Hpost. induction fuel as [|fuel IH]; intros w.
  - by exists [].
  - simpl. unfold bind at 1. unfold http. cbv zeta.
    specialize (H404 w data).
    destruct (registry env w (PatchDevice u n data)) as [e | code body] eqn:Hrs;
      [done|]. simpl in H404. rewrite H404.
    set (ev := EvHttp _ _).
    unfold bind at 1.
    destruct (fetchDevices_ret env u n (ev :: w)) as [r ->].
    set (g := EvHttp (GetDevices u n) _).
    destruct (r.1) as [|d0 dl].
    + unfold bind at 1.
      destruct (AppGo_createDevice_ok env u n (g :: ev :: w) Hpost) as (cevs & -> & Hc).
      destruct (IH (cevs ++ g :: ev :: w)) as (evs & -> & Hp).
      exists (evs ++ cevs ++ [g; ev]). split; [by rewrite <- !app_assoc|].
      rewrite !patches_app, Hp, Hc. simpl.
      change (replicate fuel data ++ [data] = data :: replicate fuel data).
      by rewrite <- replicate_cons_app.
    + destruct (IH (g :: ev :: w)) as (evs & -> & Hp).
      exists (evs ++ [g; ev]). split; [by rewrite <- !app_assoc|].
      rewrite !patches_app, Hp.
      change (replicate fuel data ++ [data] = data :: replicate fuel data).
      by rewrite <- replicate_cons_app.
Qed.

Lemma Part002_patchDevice_stalls env u n data :
  always_404 env u n -> creates_always env -> finds_always env u n ->
  forall fuel w, exists evs,
    Part002.patchDevice env u n fuel data w = Stall (evs ++ w) /\
    patches evs = replicate fuel data.
Proof.
  intros H404 Hpost Hget. induction fuel as [|fuel IH]; intros w.
  - by exists [].
  - simpl. unfold bind at 1. unfold http. cbv zeta.
    specialize (H404 w data).
    destruct (registry env w (PatchDevice u n data)) as [e | code body] eqn:Hrs;
      [done|]. simpl in H404. rewrite H404.
    set (ev := EvHttp _ _).
    unfold bind at 1.
    destruct (fetchDevices_ret env u n (ev :: w)) as [r ->].
    set (g := EvHttp (GetDevices u n) _).
    destruct (r.1) as [|d0 dl].
    + unfold bind at 1.
      destruct (Part002_createDevice_ok env u n (g :: ev :: w) Hpost Hget)
        as (cevs & -> & Hc).
      unfold bind at 1.
      destruct (IH (cevs ++ g :: ev :: w)) as (evs & -> & Hp).
      exists (evs ++ cevs ++ [g; ev]). split; [by rewrite <- !app_assoc|].
      rewrite !patches_app, Hp, Hc. simpl.
      change (replicate fuel data ++ [data] = data :: replicate fuel data).
      by rewrite <- replicate_cons_app.
    + unfold bind at 1.
      destruct (IH (g :: ev :: w)) as (evs & -> & Hp).
      exists (evs ++ [g; ev]). split; [by rewrite <- !app_assoc|].
      rewrite !patches_app, Hp.
      change (replicate fuel data ++ [data] = data :: replicate fuel data).
      by rewrite <- replicate_cons_app.
Qed.

(** C10, as amended.  The recovery of [patchDevice] from a 404 has no retry
    limit.  For a registry that answers 404 to every PATCH of this record
    and accepts every creation (and, for [part_002], answers every lookup
    with a list of devices), [patchDevice] does not return within any budget
    of recursive calls, and a budget of [fuel] calls sends [fuel] PATCHes of
    the same payload. *)
Theorem patchDevice_never_returns env u n data :
  always_404 env u n ->
  creates_always env ->
  (forall fuel w, exists evs,
     AppGo.patchDevice env u n fuel data w = Stall (evs ++ w) /\
     patches evs = replicate fuel data) /\
  (finds_always env u n ->
   forall fuel w, exists evs,
     Part002.patchDevice env u n fuel data w = Stall (evs ++ w) /\
     patches evs = replicate fuel data).
Proof.
  intros H404 Hpost. split.
  - by apply AppGo_patchDevice_stalls.
  - intros Hget. by apply Part002_patchDevice_stalls.
Qed.

(** A registry that answers 404 to every PATCH, finds no device and refuses
    the creation with 500: [patchDevice] returns after one round. *)
Lemma patchDevice_returns_when_creation_fails :
  let reg := steady_registry [] (HttpResponse 500 (RawBody "")) (HttpResponse 404 (RawBody "")) in
  let env := sample_env reg "linux" (CmdOk "") in
  always_404 env "user-1" "laptop-7" /\
  (exists w', AppGo.patchDevice env "user-1" "laptop-7" 5 expired_data [] = Ret tt w' /\
              patches w' = [expired_data]) /\
  (exists e w', Part002.patchDevice env "user-1" "laptop-7" 5 expired_data [] = Ret (Some e) w' /\
                patches w' = [expired_data]).
Proof.
  cbv zeta. split; [intros w d; reflexivity|].
  split; [eexists | eexists _, _]; (split; [vm_compute; reflexivity|]);
    vm_compute; reflexivity.
Qed.

Lemma patchDevice_never_returns_witness :
  let reg := steady_registry [laptop None None] (HttpResponse 201 (RawBody ""))
               (HttpResponse 404 (RawBody "")) in
  let env := sample_env reg "linux" (CmdOk "") in
  always_404 env "user-1" "laptop-7" /\ creates_always env /\
  exists evs,
    AppGo.patchDevice env "user-1" "laptop-7" 3 expired_data [] = Stall (evs ++ []) /\
    patches evs = replicate 3 expired_data.
Proof.
  cbv zeta.
  set (env := sample_env _ _ _).
  assert (H404 : always_404 env "user-1" "laptop-7") by (intros w d; reflexivity).
  assert (Hpost : creates_always env) by (intros w b p; reflexivity).
  split; [exact H404|]. split; [exact Hpost|].
  destruct (patchDevice_never_returns env "user-1" "laptop-7" expired_data H404 Hpost)
    as [H _].
  exact (H 3%nat []).
Defined.

(** ** C4: the states the executor writes *)

Lemma states_written_app a b :
  states_written (a ++ b) = states_written a ++ states_written b.
Proof. unfold states_written. by rewrite patches_app, omap_app. Qed.

Lemma states_written_cons e l :
  states_written (e :: l) =
  omap written_state (option_list (as_patch e)) ++ states_written l.
Proof. unfold states_written. by rewrite patches_cons, omap_app. Qed.

Lemma omap_replicate {A B} (f : A -> option B) k x y :
  f x = Some y -> omap f (replicate k x) = replicate k y.
Proof.
  intros H. induction k as [|k IH]; simpl; [done|].
  rewrite H. simpl. f_equal. exact IH.
Qed.

Lemma states_written_noise u n data s evs :
  Forall (patch_noise u n data) evs -> written_state data = Some s ->
  states_written evs = replicate (length (patches evs)) s.
Proof.
  intros Hn Hs. unfold states_written.
  rewrite (noise_patches _ _ _ _ Hn) at 1. by apply omap_replicate.
Qed.

Lemma states_written_silent evs : Forall silent evs -> states_written evs = [].
Proof. intros H. unfold states_written. by rewrite (silent_patches _ H). Qed.

Lemma squash_cons2 a b l :
  squash (a :: b :: l) =
  if String.eqb a b then squash (b :: l) else a :: squash (b :: l).
Proof. reflexivity. Qed.

Lemma squash_replicate a k : squash (replicate (S k) a) = [a].
Proof.
  induction k as [|k IH]; [done|].
  change (replicate (S (S k)) a) with (a :: a :: replicate k a).
  rewrite squash_cons2, String.eqb_refl. exact IH.
Qed.

Lemma squash_replicate_app a b j k :
  String.eqb a b = false ->
  squash (replicate (S j) a ++ replicate (S k) b) = [a; b].
Proof.
  intros Hab. induction j as [|j IH].
  - change (replicate 1 a ++ replicate (S k) b) with (a :: b :: replicate k b).
    rewrite squash_cons2, Hab. f_equal. apply (squash_replicate b k).
  - change (replicate (S (S j)) a ++ replicate (S k) b)
      with (a :: a :: (replicate j a ++ replicate (S k) b)).
    rewrite squash_cons2, String.eqb_refl. exact IH.
Qed.

Lemma Part002_shape_forward l :
  Part002_shape l -> forward_from listed_transition "pending" (squash l) = true.
Proof.
  intros [-> | [[k ->] | [[k ->] | (j & k & final & Hf & ->)]]].
  - done.
  - by rewrite squash_replicate.
  - by rewrite squash_replicate.
  - destruct Hf as [-> | ->]; by rewrite squash_replicate_app.
Qed.

Lemma AppGo_shape_forward l :
  AppGo_shape l -> forward_from AppGo_transition "pending" (squash l) = true.
Proof.
  intros [-> | [[k ->] | [k ->]]]; [done | |]; by rewrite squash_replicate.
Qed.

Lemma written_state_final r :
  exists final, (final = "done" \/ final = "failed") /\
                written_state (final_data r) = Some final.
Proof. destruct r; [exists "done" | exists "failed"]; auto. Qed.

Lemma AppGo_states env u n fuel dev req w :
  exists evs,
    out_world (AppGo.handleShutdown env u n fuel dev req w) = evs ++ w /\
    AppGo_shape (states_written evs).
Proof.
  destruct (AppGo_past_expiry env req w) as [w1|] eqn:Hexp.
  - rewrite (AppGo_expiry_pass _ _ _ _ _ _ _ _ Hexp).
    destruct (AppGo_past_expiry_silent _ _ _ _ Hexp) as (evs0 & -> & Hs0).
    destruct (AppGo_no_deadline_writes env u n fuel dev (delete "expires_at" req)
                (evs0 ++ w)) as (evs & k & -> & Hp); [apply lookup_delete_eq|].
    exists (evs ++ evs0). split; [by rewrite app_assoc|].
    rewrite states_written_app, (states_written_silent _ Hs0), app_nil_r.
    unfold states_written. rewrite Hp.
    rewrite (omap_replicate written_state k AppGo_done_data "done" eq_refl).
    destruct k; [by left | right; right; by eexists].
  - unfold AppGo_past_expiry in Hexp.
    destruct (req !! "expires_at") as [[| |f| | |]|] eqn:Hreq; try done.
    destruct (_ <? _) eqn:Hlt; [|done]. apply Z.ltb_lt in Hlt.
    rewrite (AppGo_expired_run _ _ _ _ _ _ _ _ Hreq Hlt).
    destruct (AppGo_patchDevice_trace env u n expired_data fuel (EvNow (clock env w) :: w))
      as (evs & -> & Hn & _).
    exists (evs ++ [EvNow (clock env w)]). split; [by rewrite <- app_assoc|].
    rewrite states_written_app.
    rewrite (states_written_noise _ _ _ "expired" _ Hn eq_refl).
    change (states_written [EvNow (clock env w)]) with (@nil string).
    rewrite app_nil_r.
    destruct (length (patches evs)); [by left | right; left; by eexists].
Qed.

Lemma Part002_states env u n fuel dev req w :
  exists evs,
    out_world (Part002.handleShutdown env u n fuel dev req w) = evs ++ w /\
    Part002_shape (states_written evs).
Proof.
  destruct (Part002_past_expiry env req w) as [w1|] eqn:Hexp.
  - rewrite (Part002_expiry_pass _ _ _ _ _ _ _ _ Hexp).
    destruct (Part002_past_expiry_silent _ _ _ _ Hexp) as (evs0 & -> & Hs0).
    destruct (past_uptime env dev (evs0 ++ w)) as [w0|] eqn:Hup.
    + rewrite (Part002_uptime_pass _ _ _ _ _ _ _ _ (lookup_delete_eq _ _) Hup).
      destruct (past_uptime_silent _ _ _ _ Hup) as (evs1 & -> & Hs1).
      destruct (Part002_committed_core env u n fuel (without_epoch dev)
                  (delete "expires_at" req) (evs1 ++ evs0 ++ w))
        as (pre & Hpre & Hcases); [apply lookup_delete_eq | done |].
      cbv zeta in Hcases.
      set (t := clock env (EvLog "Shutting down…" :: evs1 ++ evs0 ++ w)) in *.
      assert (Hbase : forall l, l ++ pre ++ EvNow t :: EvLog "Shutting down…" :: evs1 ++ evs0 ++ w
                = (l ++ pre ++ [EvNow t; EvLog "Shutting down…"] ++ evs1 ++ evs0) ++ w).
      { intros l. repeat rewrite <- app_assoc. reflexivity. }
      assert (Hst : forall l, states_written (l ++ pre ++ [EvNow t; EvLog "Shutting down…"] ++ evs1 ++ evs0)
                = states_written l ++ replicate (length (patches pre)) "shutting_down").
      { intros l. rewrite !states_written_app.
        rewrite (states_written_noise _ _ _ "shutting_down" _ Hpre eq_refl).
        rewrite (states_written_silent _ Hs1), (states_written_silent _ Hs0).
        change (states_written [EvNow t; EvLog "Shutting down…"]) with (@nil string).
        by rewrite !app_nil_r. }
      destruct Hcases as [-> | [Hspan Hrest]].
      * eexists. split; [exact (Hbase [])|]. rewrite (Hst []). simpl.
        destruct (length (patches pre)); [by left | right; right; left; by eexists].
      * destruct (span_length _ _ _ _ Hspan) as [k Hk].
        destruct (Part002.shutdownCommand (GOOS env)) as [c|].
        -- destruct Hrest as (post & Hpost & Hout).
           set (w1 := EvSleep ShutdownDelay :: _) in *.
           set (r := run_command env w1 c) in *.
           assert (Hw : out_world (Part002.handleShutdown env u n fuel (without_epoch dev)
                      (delete "expires_at" req) (evs1 ++ evs0 ++ w))
                    = post ++ EvExec c r :: w1).
           { destruct Hout as [-> | [_ ->]]; done. }
           rewrite Hw. subst w1.
           exists ((post ++ [EvExec c r; EvSleep ShutdownDelay]) ++ pre
                     ++ [EvNow t; EvLog "Shutting down…"] ++ evs1 ++ evs0).
           split; [rewrite <- Hbase; by rewrite <- app_assoc|].
           rewrite Hst, Hk, states_written_app.
           change (states_written [EvExec c r; EvSleep ShutdownDelay]) with (@nil string).
           rewrite app_nil_r.
           destruct (written_state_final r) as (final & Hf & Hwf).
           rewrite (states_written_noise _ _ _ final _ Hpost Hwf).
           destruct (length (patches post)).
           ++ right; right; left. by exists k.
           ++ right; right; right. by eexists _, k, final.
        -- rewrite Hrest. simpl.
           exists ([EvLog "Unsupported OS: %s. Shutdown command not executed.";
                    EvSleep ShutdownDelay] ++ pre
                     ++ [EvNow t; EvLog "Shutting down…"] ++ evs1 ++ evs0).
           split; [by rewrite <- Hbase|].
           rewrite Hst, Hk. right; right; left. by exists k.
    + destruct (past_uptime_young _ _ _ Hup) as (t0 & Hdev & Hy).
      rewrite (Part002_young_run _ _ _ _ _ _ _ _ (lookup_delete_eq _ _) Hdev Hy).
      eexists (_ :: _ :: evs0). split; [done|].
      rewrite !states_written_cons, (states_written_silent _ Hs0). by left.
  - unfold Part002_past_expiry in Hexp.
    destruct (req !! "expires_at") as [[| | |s| |]|] eqn:Hreq; try done.
    destruct (rfc3339_parse env s) as [e|] eqn:Hparse.
    + destruct (time_After _ _) eqn:Hlt; [|done]. apply Z.ltb_lt in Hlt.
      rewrite (Part002_expired_run _ _ _ _ _ _ _ _ _ Hreq Hparse Hlt).
      rewrite out_world_bind_ret.
      destruct (Part002_patchDevice_trace env u n expired_data fuel (EvNow (clock env w) :: w))
        as (evs & -> & Hn & _).
      exists (evs ++ [EvNow (clock env w)]). split; [by rewrite <- app_assoc|].
      rewrite states_written_app.
      rewrite (states_written_noise _ _ _ "expired" _ Hn eq_refl).
      change (states_written [EvNow (clock env w)]) with (@nil string).
      rewrite app_nil_r.
      destruct (length (patches evs)); [by left | right; left; by eexists].
    + unfold Part002.handleShutdown. rewrite Hreq, Hparse.
      exists [EvLog "Failed to parse expires_at: %v"]. split; [done | by left].
Qed.

Lemma plain_posts u n evs :
  Forall (fun ev => forall d, patch_noise u n d ev) evs ->
  Forall post_plain (posts evs).
Proof.
  induction 1 as [|e evs He _ IH]; [constructor|].
  destruct e as [| [] | | | |]; try exact IH.
  unfold posts. simpl. constructor; [|exact IH]. exact (He ∅).
Qed.

(** C4, as amended.  Starting from the [pending] request it was handed, the
    states a run of the executor writes to [shutdown_requested], taken in
    order and counting a payload re-sent after a 404 once, each follow the
    state before by one transition: in [part_002] one of
    pending -> expired, pending -> shutting_down, shutting_down -> done,
    shutting_down -> failed; in [src/app.go] one of pending -> expired,
    pending -> done.  This holds of every run, finished or not.  Neither
    revision writes [pending], and creating the device row never touches
    [shutdown_requested]. *)
Theorem shutdown_request_moves_forward env u n dev req fuel w :
  (exists evs,
     out_world (Part002.handleShutdown env u n fuel dev req w) = evs ++ w /\
     forward_from listed_transition "pending" (squash (states_written evs)) = true) /\
  (exists evs,
     out_world (AppGo.handleShutdown env u n fuel dev req w) = evs ++ w /\
     forward_from AppGo_transition "pending" (squash (states_written evs)) = true) /\
  (exists e evs,
     Part002.createDevice env u n w = Ret e (evs ++ w) /\
     Forall post_plain (posts evs) /\ patches evs = []) /\
  (exists e evs,
     AppGo.createDevice env u n w = Ret e (evs ++ w) /\
     Forall post_plain (posts evs) /\ patches evs = []).
Proof.
  split; [|split; [|split]].
  - destruct (Part002_states env u n fuel dev req w) as (evs & Hw & Hs).
    exists evs. split; [done|]. by apply Part002_shape_forward.
  - destruct (AppGo_states env u n fuel dev req w) as (evs & Hw & Hs).
    exists evs. split; [done|]. by apply AppGo_shape_forward.
  - destruct (Part002_createDevice_ret env u n w) as (e & evs & Hr & Hn).
    exists e, evs. split; [done|]. split; [by eapply plain_posts | by eapply plain_patches].
  - destruct (AppGo_createDevice_ret env u n w) as (e & evs & Hr & Hn).
    exists e, evs. split; [done|]. split; [by eapply plain_posts | by eapply plain_patches].
Qed.

(** The executor of [src/app.go] takes a pending request straight to
    [done], which is not one of the listed transitions. *)
Lemma pending_goes_straight_to_done :
  let env := sample_env (steady_registry [] no_content no_content) "linux" (CmdOk "") in
  exists w',
    AppGo.handleShutdown env "user-1" "laptop-7" 1 (laptop None None) pending [] = Ret tt w' /\
    states_written w' = ["done"] /\
    listed_transition "pending" "done" = false /\
    forward_from listed_transition "pending" (squash (states_written w')) = false.
Proof.
  cbv zeta. eexists. split; [vm_compute; reflexivity|].
  repeat split; vm_compute; reflexivity.
Qed.

(** ** C7: creating the device row *)

Lemma post_decides_transport msg : post_decides (Some (ErrTransport msg)) (TransportError msg).
Proof.
  split; [split; [done|] | done]. by intros (code & body & H & _).
Qed.

Lemma post_decides_status op code body :
  post_decides (if 300 <=? code then Some (ErrStatus op code body) else None)
    (HttpResponse code body).
Proof.
  destruct (300 <=? code) eqn:Hc.
  - apply Z.leb_le in Hc. split; [split; [done|] | done].
    intros (code' & body' & [= <- <-] & Hlt). lia.
  - apply Z.leb_gt in Hc. split; [split; [|done] | ].
    + intros _. by exists code, body.
    + intros body' [= -> _]. lia.
Qed.

(** C7, as amended.  [createDevice] returns success exactly when the
    registry answers the POST with a status below 300, and, in [part_002],
    also when its own lookup already finds the row, in which case nothing is
    posted.  [src/app.go] always posts, asking the registry to merge
    duplicates.  An answer of 300 or above, 409 Conflict included, a
    transport error, and in [part_002] a failed lookup, are returned as an
    error. *)
Theorem createDevice_result env u n w :
  (exists e b rs w1,
     AppGo.createDevice env u n w =
       Ret e (EvHttp (PostDevice b "resolution=merge-duplicates") rs :: w1) /\
     post_decides e rs) /\
  (exists e w',
     Part002.createDevice env u n w = Ret e w' /\
     let found := registry env w (GetDevices u n) in
     let w1 := EvHttp (GetDevices u n) found :: w in
     (forall d dl,
        found = HttpResponse 200 (DevicesJSON (d :: dl)) -> e = None /\ w' = w1) /\
     (found = HttpResponse 200 (DevicesJSON []) ->
      exists b rs w2,
        w' = EvHttp (PostDevice b "return=minimal") rs :: w2 /\ post_decides e rs) /\
     ((forall dl, found <> HttpResponse 200 (DevicesJSON dl)) ->
      exists err,
        e = Some (ErrContext "failed to check existing device" err) /\ w' = w1)).
Proof.
  split.
  - unfold AppGo.createDevice, bind, http, now, ret. cbv zeta.
    match goal with |- context [registry env ?w0 ?rq] =>
      destruct (registry env w0 rq) as [msg | code body] end.
    + eexists _, _, _, _. split; [reflexivity|]. apply post_decides_transport.
    + eexists (if 300 <=? code then _ else _), _, _, _. split.
      * destruct (300 <=? code); reflexivity.
      * apply post_decides_status.
  - unfold Part002.createDevice, fetchDevices.
    unfold bind at 1 2. unfold http at 1. cbv zeta.
    destruct (registry env w (GetDevices u n)) as [msg | code body] eqn:Hfound.
    { eexists _, _. split; [reflexivity|]. split; [done|]. split; [done|].
      intros _. by eexists. }
    destruct (Z.eqb_spec code 200) as [-> | Hcode]; simpl.
    2:{ eexists _, _. split; [reflexivity|].
        split; [intros d dl [= ? _]; done|]. split; [intros [= ? _]; done|].
        intros _. by eexists. }
    destruct body as [[|d0 dl] | raw]; simpl.
    + unfold bind, http, now, ret. cbv zeta.
      match goal with |- context [registry env ?w0 (PostDevice ?b ?p)] =>
        destruct (registry env w0 (PostDevice b p)) as [msg | code body] end.
      * eexists _, _. split; [reflexivity|]. split; [done|].
        split; [|intros H; by destruct (H [])].
        intros _. eexists _, _, _. split; [reflexivity|]. apply post_decides_transport.
      * eexists (if 300 <=? code then _ else _), _. split.
        { destruct (300 <=? code); reflexivity. }
        split; [done|]. split; [|intros H; by destruct (H [])].
        intros _. eexists _, _, _. split; [reflexivity|]. apply post_decides_status.
    + eexists _, _. split; [reflexivity|]. split; [done|]. split; [done|].
      intros H. by destruct (H (d0 :: dl)).
    + eexists _, _. split; [reflexivity|]. split; [done|]. split; [done|].
      intros _. by eexists.
Qed.

(** A registry that finds no row and answers the creation with
    409 Conflict: both revisions return the error. *)
Lemma conflict_is_an_error :
  let conflict := HttpResponse 409 (RawBody "duplicate key value violates unique constraint") in
  let env := sample_env (steady_registry [] conflict no_content) "linux" (CmdOk "") in
  (exists w', AppGo.createDevice env "user-1" "laptop-7" [] =
     Ret (Some (ErrStatus "createDevice" 409
                  (RawBody "duplicate key value violates unique constraint"))) w') /\
  (exists w', Part002.createDevice env "user-1" "laptop-7" [] =
     Ret (Some (ErrStatus "createDevice" 409
                  (RawBody "duplicate key value violates unique constraint"))) w').
Proof. cbv zeta. split; eexists; vm_compute; reflexivity. Qed.

(** ** C8: a payload that does not parse *)

Lemma out_world_bind {A B} (m : M A) (k : A -> M B) w :
  (forall w0, exists evs, out_world (m w0) = evs ++ w0) ->
  (forall a w0, exists evs, out_world (k a w0) = evs ++ w0) ->
  exists evs, out_world (bind m k w) = evs ++ w.
Proof.
  intros Hm Hk. unfold bind. destruct (Hm w) as [evs Hw].
  destruct (m w) as [a w1|w1]; simpl in Hw; subst w1.
  - destruct (Hk a (evs ++ w)) as [evs' ->]. exists (evs' ++ evs).
    by rewrite app_assoc.
  - by exists evs.
Qed.

Lemma AppGo_pollOnce_extends env u n fuel w :
  exists evs,
    out_world (AppGo.pollOnce env u n fuel w)
    = evs ++ EvHttp (GetDevices u n) (registry env w (GetDevices u n)) :: w.
Proof.
  unfold AppGo.pollOnce. unfold bind at 1.
  destruct (fetchDevices_ret env u n w) as [[dl err] ->]. simpl.
  set (w1 := EvHttp _ _ :: w).
  destruct err as [err|]; [by eexists [_; _]|].
  destruct dl as [|device dl].
  - unfold bind at 1. unfold log at 1. unfold bind at 1.
    destruct (AppGo_createDevice_ret env u n (EvLog "No row found for device %q, creating one…" :: w1))
      as (e & evs & -> & _).
    destruct e; eexists (_ :: _ :: evs ++ [_]); simpl; by rewrite <- app_assoc.
  - apply out_world_bind; [|intros; by eexists [_]].
    intros w0. destruct (ShutdownRequest device) as [raw|]; [|by exists []].
    destruct (json_Unmarshal_map raw) as [req|]; [|by eexists [_]].
    destruct (String.eqb _ _); [|by exists []].
    destruct (AppGo_states env u n fuel device req w0) as (evs & Hw & _). by exists evs.
Qed.

Lemma Part002_pollOnce_extends env u n fuel w :
  exists evs,
    out_world (Part002.pollOnce env u n fuel w)
    = evs ++ EvHttp (GetDevices u n) (registry env w (GetDevices u n)) :: w.
Proof.
  unfold Part002.pollOnce. unfold bind at 1.
  destruct (fetchDevices_ret env u n w) as [[dl err] ->]. simpl.
  set (w1 := EvHttp _ _ :: w).
  destruct err as [err|]; [by eexists [_; _]|].
  destruct dl as [|device dl].
  - unfold bind at 1. unfold log at 1. unfold bind at 1.
    destruct (Part002_createDevice_ret env u n (EvLog "No row found for device %q, creating one…" :: w1))
      as (e & evs & -> & _).
    destruct e; eexists (_ :: _ :: evs ++ [_]); simpl; by rewrite <- app_assoc.
  - apply out_world_bind; [|intros; by eexists [_]].
    intros w0. destruct (ShutdownRequest device) as [raw|]; [|by exists []].
    destruct (json_Unmarshal_map raw) as [req|]; [|by eexists [_]].
    destruct (String.eqb _ _); [|by exists []].
    destruct (Part002_states env u n fuel device req w0) as (evs & Hw & _). by exists evs.
Qed.

Lemma AppGo_listen_extends env u n fuel polls : forall w,
  exists evs, out_world (AppGo.listenForShutdownRequests env u n polls fuel w) = evs ++ w.
Proof.
  induction polls as [|polls IH]; intros w; [by exists []|].
  simpl. apply out_world_bind; [|intros; apply IH].
  intros w0. destruct (AppGo_pollOnce_extends env u n fuel w0) as [evs ->].
  exists (evs ++ [EvHttp (GetDevices u n) (registry env w0 (GetDevices u n))]).
  by rewrite <- app_assoc.
Qed.

Lemma Part002_listen_extends env u n fuel polls : forall w,
  exists evs, out_world (Part002.listenForShutdownRequests env u n polls fuel w) = evs ++ w.
Proof.
  induction polls as [|polls IH]; intros w; [by exists []|].
  simpl. apply out_world_bind; [|intros; apply IH].
  intros w0. destruct (Part002_pollOnce_extends env u n fuel w0) as [evs ->].
  exists (evs ++ [EvHttp (GetDevices u n) (registry env w0 (GetDevices u n))]).
  by rewrite <- app_assoc.
Qed.

(** C8.  When the record the watcher fetches carries a [shutdown_requested]
    payload that is present but that [json.Unmarshal] cannot decode into a
    map (a number, a string, a boolean, an array, or an object holding, at
    any depth, a number too large for a [float64]), one pass of the loop
    fetches, logs the parse failure, sleeps [ShutdownPollInterval] and ends
    normally: no executor, no write, no command, whatever the budget.  The
    loop goes on, and its next pass starts by fetching the record again. *)
Theorem malformed_request_is_skipped env u n fuel w dev rest raw :
  registry env w (GetDevices u n) = HttpResponse 200 (DevicesJSON (dev :: rest)) ->
  ShutdownRequest dev = Some raw ->
  json_Unmarshal_map raw = None ->
  let w1 := EvSleep ShutdownPollInterval
              :: EvLog "Failed to parse shutdown request:"
              :: EvHttp (GetDevices u n) (HttpResponse 200 (DevicesJSON (dev :: rest)))
              :: w in
  let again := EvHttp (GetDevices u n) (registry env w1 (GetDevices u n)) in
  (AppGo.pollOnce env u n fuel w = Ret tt w1 /\
   forall polls, exists evs,
     out_world (AppGo.listenForShutdownRequests env u n (S (S polls)) fuel w)
     = evs ++ again :: w1) /\
  (Part002.pollOnce env u n fuel w = Ret tt w1 /\
   forall polls, exists evs,
     out_world (Part002.listenForShutdownRequests env u n (S (S polls)) fuel w)
     = evs ++ again :: w1).
Proof.
  intros Hget Hraw Hbad w1 again.
  assert (H1 : AppGo.pollOnce env u n fuel w = Ret tt w1).
  { unfold AppGo.pollOnce, fetchDevices, bind, http. cbv zeta.
    rewrite Hget. simpl. by rewrite Hraw, Hbad. }
  assert (H2 : Part002.pollOnce env u n fuel w = Ret tt w1).
  { unfold Part002.pollOnce, fetchDevices, bind, http. cbv zeta.
    rewrite Hget. simpl. by rewrite Hraw, Hbad. }
  split; (split; [done|]); intros polls.
  - change (AppGo.listenForShutdownRequests env u n (S (S polls)) fuel w)
      with (bind (AppGo.pollOnce env u n fuel)
              (fun _ => bind (AppGo.pollOnce env u n fuel)
                 (fun _ => AppGo.listenForShutdownRequests env u n polls fuel)) w).
    unfold bind at 1. rewrite H1.
    destruct (AppGo_pollOnce_extends env u n fuel w1) as [evs Hw]. fold again in Hw.
    unfold bind. destruct (AppGo.pollOnce env u n fuel w1) as [[] w2|w2];
      simpl in Hw; subst w2; [|by exists evs].
    destruct (AppGo_listen_extends env u n fuel polls (evs ++ again :: w1)) as [evs' ->].
    exists (evs' ++ evs). by rewrite app_assoc.
  - change (Part002.listenForShutdownRequests env u n (S (S polls)) fuel w)
      with (bind (Part002.pollOnce env u n fuel)
              (fun _ => bind (Part002.pollOnce env u n fuel)
                 (fun _ => Part002.listenForShutdownRequests env u n polls fuel)) w).
    unfold bind at 1. rewrite H2.
    destruct (Part002_pollOnce_extends env u n fuel w1) as [evs Hw]. fold again in Hw.
    unfold bind. destruct (Part002.pollOnce env u n fuel w1) as [[] w2|w2];
      simpl in Hw; subst w2; [|by exists evs].
    destruct (Part002_listen_extends env u n fuel polls (evs ++ again :: w1)) as [evs' ->].
    exists (evs' ++ evs). by rewrite app_assoc.
Qed.

Lemma malformed_request_is_skipped_witness :
  let text := JString "shutdown please" in
  let huge := JObject (pending_until (JNumber too_large)) in
  let skipped raw :=
    let dev := laptop None (Some raw) in
    let env := sample_env (steady_registry [dev] no_content no_content)
                 "linux" (CmdOk "") in
    Part002.pollOnce env "user-1" "laptop-7" 1 [] =
      Ret tt [ EvSleep ShutdownPollInterval;
               EvLog "Failed to parse shutdown request:";
               EvHttp (GetDevices "user-1" "laptop-7")
                 (HttpResponse 200 (DevicesJSON [dev])) ] in
  (json_Unmarshal_map text = None /\ skipped text) /\
  (json_Unmarshal_map huge = None /\ skipped huge).
Proof.
  cbv zeta. split; (split; [reflexivity|]).
  - set (dev := laptop None (Some (JString "shutdown please"))).
    set (env := sample_env (steady_registry [dev] no_content no_content)
                  "linux" (CmdOk "")).
    destruct (malformed_request_is_skipped env "user-1" "laptop-7" 1 [] dev []
                (JString "shutdown please") eq_refl eq_refl eq_refl) as [_ [H _]].
    exact H.
  - set (dev := laptop None (Some (JObject (pending_until (JNumber too_large))))).
    set (env := sample_env (steady_registry [dev] no_content no_content)
                  "linux" (CmdOk "")).
    destruct (malformed_request_is_skipped env "user-1" "laptop-7" 1 [] dev []
                (JObject (pending_until (JNumber too_large)))
                eq_refl eq_refl eq_refl) as [_ [H _]].
    exact H.
Defined.

(** ** C6: the status reporter *)

Lemma AppGo_statusTick_trace env u n fuel w :
  let t1 := clock env w in
  let t2 := clock env (EvNow t1 :: w) in
  exists evs,
    out_world (AppGo.statusTick env u n fuel w) = evs ++ EvNow t2 :: EvNow t1 :: w /\
    patches evs = replicate (length (patches evs)) (AppGo_liveness_data t1 t2) /\
    (fuel <> 0%nat -> length (patches evs) <> 0%nat).
Proof.
  intros t1 t2. unfold AppGo.statusTick, bind, now, tick. cbv zeta. fold t1. fold t2.
  change (<["status":=GString "on"]> _) with (AppGo_liveness_data t1 t2).
  destruct (AppGo_patchDevice_trace env u n (AppGo_liveness_data t1 t2) fuel
              (EvNow t2 :: EvNow t1 :: w)) as (evs & Hw & Hn & Hin).
  assert (Hlen : fuel <> 0%nat -> length (patches evs) <> 0%nat).
  { intros Hf. destruct (Hin Hf) as [rs Hrs]. apply in_patches in Hrs.
    destruct (patches evs); [done | simpl; lia]. }
  destruct (AppGo.patchDevice _ _ _ _ _ _) as [[] w'|w']; simpl in Hw; subst w'.
  - exists (EvTick StatusUpdateInterval :: evs). split; [done|].
    rewrite patches_cons. simpl. split; [by eapply noise_patches | done].
  - exists evs. split; [done|]. split; [by eapply noise_patches | done].
Qed.

Lemma Part002_statusTick_trace env u n fuel w :
  let t := clock env w in
  exists evs,
    out_world (Part002.statusTick env u n fuel w) = evs ++ EvNow t :: w /\
    patches evs = replicate (length (patches evs))
                    (Part002_liveness_data (rfc3339_format env t)) /\
    (fuel <> 0%nat -> length (patches evs) <> 0%nat).
Proof.
  intros t. unfold Part002.statusTick, bind, now. cbv zeta. fold t.
  change (<["status":=GString "on"]> _)
    with (Part002_liveness_data (rfc3339_format env t)).
  destruct (Part002_patchDevice_trace env u n
              (Part002_liveness_data (rfc3339_format env t)) fuel (EvNow t :: w))
    as (evs & Hw & Hn & Hin).
  assert (Hlen : fuel <> 0%nat -> length (patches evs) <> 0%nat).
  { intros Hf. destruct (Hin Hf) as [rs Hrs]. apply in_patches in Hrs.
    destruct (patches evs); [done | simpl; lia]. }
  exists evs. split; [|split; [by eapply noise_patches | done]].
  by destruct (Part002.patchDevice _ _ _ _ _ _).
Qed.

Lemma ticked_first body w evs k w' :
  body w evs ->
  ticked body (EvTick StatusUpdateInterval :: evs ++ w) k w' ->
  ticked body w (S k) w'.
Proof.
  intros Hb H. induction H as [|k w1 evs1 _ IH Hb1].
  - apply ticked_S; [constructor | exact Hb].
  - by apply ticked_S.
Qed.

Lemma AppGo_statusTick_body env u n fuel w :
  exists evs,
    AppGo_tick_body env u n w evs /\
    match AppGo.statusTick env u n (S fuel) w with
    | Ret _ w' => w' = EvTick StatusUpdateInterval :: evs ++ w
    | Stall w' => w' = evs ++ w
    end.
Proof.
  unfold AppGo.statusTick, AppGo_tick_body, bind, now, tick. cbv zeta.
  set (t1 := clock env w). set (t2 := clock env (EvNow t1 :: w)).
  change (<["status":=GString "on"]> _) with (AppGo_liveness_data t1 t2).
  destruct (AppGo_patchDevice_trace env u n (AppGo_liveness_data t1 t2) (S fuel)
              (EvNow t2 :: EvNow t1 :: w)) as (sent & Hw & Hn & Hin).
  exists (sent ++ [EvNow t2; EvNow t1]). split.
  - exists sent. split; [done|]. split; [done | by apply Hin].
  - destruct (AppGo.patchDevice _ _ _ _ _ _) as [[] w'|w']; simpl in Hw; subst w';
      by rewrite <- app_assoc.
Qed.

Lemma Part002_statusTick_body env u n fuel w :
  exists evs,
    Part002_tick_body env u n w evs /\
    out_world (Part002.statusTick env u n (S fuel) w) = evs ++ w.
Proof.
  unfold Part002.statusTick, Part002_tick_body, bind, now. cbv zeta.
  set (t := clock env w).
  change (<["status":=GString "on"]> _)
    with (Part002_liveness_data (rfc3339_format env t)).
  destruct (Part002_patchDevice_trace env u n
              (Part002_liveness_data (rfc3339_format env t)) (S fuel) (EvNow t :: w))
    as (sent & Hw & Hn & Hin).
  exists (sent ++ [EvNow t]). split.
  - exists sent. split; [done|]. split; [done | by apply Hin].
  - rewrite Hw. by rewrite <- app_assoc.
Qed.

Lemma AppGo_updateDeviceStatus_ticks env u n fuel ticks : forall w,
  exists k w1,
    ticked (AppGo_tick_body env u n) w k w1 /\
    (k = ticks /\
     AppGo.updateDeviceStatus env u n ticks (S fuel) w = Stall w1 \/
     (k < ticks)%nat /\
     exists evs,
       AppGo_tick_body env u n w1 evs /\
       AppGo.updateDeviceStatus env u n ticks (S fuel) w = Stall (evs ++ w1)).
Proof.
  induction ticks as [|ticks IH]; intros w.
  { exists 0%nat, w. split; [constructor | by left]. }
  change (AppGo.updateDeviceStatus env u n (S ticks) (S fuel) w)
    with (bind (AppGo.statusTick env u n (S fuel))
            (fun _ => AppGo.updateDeviceStatus env u n ticks (S fuel)) w).
  unfold bind.
  destruct (AppGo_statusTick_body env u n fuel w) as (evs & Hb & Ho).
  destruct (AppGo.statusTick env u n (S fuel) w) as [[] w'|w']; subst w'.
  - destruct (IH (EvTick StatusUpdateInterval :: evs ++ w)) as (k & w1 & Ht & Hc).
    exists (S k), w1. split; [by eapply ticked_first|].
    destruct Hc as [[-> Hr] | (Hlt & evs' & Hb' & Hr)].
    + by left.
    + right. split; [lia|]. by exists evs'.
  - exists 0%nat, w. split; [constructor|]. right. split; [lia|]. by exists evs.
Qed.

Lemma Part002_updateDeviceStatus_ticks env u n fuel ticks : forall w,
  exists k w1,
    ticked (Part002_tick_body env u n) w k w1 /\
    (k = ticks /\
     Part002.updateDeviceStatus env u n ticks (S fuel) w = Stall w1 \/
     (k < ticks)%nat /\
     exists evs,
       Part002_tick_body env u n w1 evs /\
       out_world (Part002.updateDeviceStatus env u n ticks (S fuel) w) = evs ++ w1).
Proof.
  induction ticks as [|ticks IH]; intros w.
  { exists 0%nat, w. split; [constructor | by left]. }
  change (Part002.updateDeviceStatus env u n (S ticks) (S fuel) w)
    with (bind (Part002.statusTick env u n (S fuel))
            (fun e => match e with
                      | Some err => ret (ErrContext "failed to update device status" err)
                      | None => bind (tick StatusUpdateInterval)
                                  (fun _ => Part002.updateDeviceStatus env u n ticks (S fuel))
                      end) w).
  unfold bind at 1 3.
  destruct (Part002_statusTick_body env u n fuel w) as (evs & Hb & Ho).
  assert (Hstop : forall o : Outcome error, out_world o = evs ++ w ->
            exists k w1,
              ticked (Part002_tick_body env u n) w k w1 /\
              (k = S ticks /\ o = Stall w1 \/
               (k < S ticks)%nat /\
               exists evs', Part002_tick_body env u n w1 evs' /\
                            out_world o = evs' ++ w1)).
  { intros o Hout. exists 0%nat, w. split; [constructor|].
    right. split; [lia|]. by exists evs. }
  destruct (Part002.statusTick env u n (S fuel) w) as [e w'|w'];
    simpl in Ho; subst w'; [|by apply Hstop].
  destruct e as [err|]; [by apply Hstop|].
  unfold bind, tick.
  destruct (IH (EvTick StatusUpdateInterval :: evs ++ w)) as (k & w1 & Ht & Hc).
  exists (S k), w1. split; [by eapply ticked_first|].
  destruct Hc as [[-> Hr] | (Hlt & evs' & Hb' & Hr)].
  - by left.
  - right. split; [lia|]. by exists evs'.
Qed.

(** C6.  Each tick of the status reporter reads the clock and PATCHes
    [status = on], [last_seen] set to that reading and [first_online_at] set
    to a reading of the same moment as well ([src/app.go] reads the clock a
    second time for it, [part_002] formats the one reading for both), so
    [first_online_at] is rewritten on every tick.  A run of the reporter's
    loop is a succession of such ticks, each followed by the wait for the
    ticker: every tick it has completed has sent the PATCH made of that
    tick's own readings, at least once, and has written nothing else; a run
    that has not completed the ticks of its budget is in a tick that has
    sent it, a tick that [part_002] may also have returned from. *)
Theorem status_tick_rewrites_first_online_at env u n fuel w :
  let t1 := clock env w in
  let t2 := clock env (EvNow t1 :: w) in
  (exists evs k,
     out_world (AppGo.statusTick env u n (S fuel) w)
       = evs ++ EvNow t2 :: EvNow t1 :: w /\
     patches evs = replicate (S k) (AppGo_liveness_data t1 t2)) /\
  (exists evs k,
     out_world (Part002.statusTick env u n (S fuel) w) = evs ++ EvNow t1 :: w /\
     patches evs = replicate (S k) (Part002_liveness_data (rfc3339_format env t1))) /\
  (forall ticks, exists k w1,
     ticked (AppGo_tick_body env u n) w k w1 /\
     (k = ticks /\
      AppGo.updateDeviceStatus env u n ticks (S fuel) w = Stall w1 \/
      (k < ticks)%nat /\
      exists evs,
        AppGo_tick_body env u n w1 evs /\
        AppGo.updateDeviceStatus env u n ticks (S fuel) w = Stall (evs ++ w1))) /\
  (forall ticks, exists k w1,
     ticked (Part002_tick_body env u n) w k w1 /\
     (k = ticks /\
      Part002.updateDeviceStatus env u n ticks (S fuel) w = Stall w1 \/
      (k < ticks)%nat /\
      exists evs,
        Part002_tick_body env u n w1 evs /\
        out_world (Part002.updateDeviceStatus env u n ticks (S fuel) w)
          = evs ++ w1)) /\
  (forall a b,
     AppGo_liveness_data a b !! "status" = Some (GString "on") /\
     AppGo_liveness_data a b !! "last_seen" = Some (GTime a) /\
     AppGo_liveness_data a b !! "first_online_at" = Some (GTime b)) /\
  (forall s,
     Part002_liveness_data s !! "status" = Some (GString "on") /\
     Part002_liveness_data s !! "last_seen" = Some (GString s) /\
     Part002_liveness_data s !! "first_online_at" = Some (GString s)).
Proof.
  intros t1 t2. split; [|split; [|split; [|split; [|split]]]].
  - destruct (AppGo_statusTick_trace env u n (S fuel) w) as (evs & Hw & Hp & Hlen).
    destruct (length (patches evs)) as [|k]; [by destruct Hlen|].
    by exists evs, k.
  - destruct (Part002_statusTick_trace env u n (S fuel) w) as (evs & Hw & Hp & Hlen).
    destruct (length (patches evs)) as [|k]; [by destruct Hlen|].
    by exists evs, k.
  - intros ticks. apply AppGo_updateDeviceStatus_ticks.
  - intros ticks. apply Part002_updateDeviceStatus_ticks.
  - done.
  - done.
Qed.

(** ** Event invariants: how computations compose *)

Lemma emits_ret {A} P (a : A) : emits P (ret a).
Proof. intros w. by exists []. Qed.

Lemma emits_stall {A} P : emits P (@stall A).
Proof. intros w. by exists []. Qed.

Lemma emits_bind {A B} P (m : M A) (k : A -> M B) :
  emits P m -> (forall a, emits P (k a)) -> emits P (bind m k).
Proof.
  intros Hm Hk w. unfold bind. destruct (Hm w) as (evs & Hw & Hp).
  destruct (m w) as [a w1|w1]; simpl in Hw; subst w1.
  - destruct (Hk a (evs ++ w)) as (evs' & -> & Hp').
    exists (evs' ++ evs). split; [by rewrite app_assoc|]. by apply Forall_app.
  - by exists evs.
Qed.

Lemma emits_one {A} P (e : World -> Event) (a : World -> A) :
  (forall w, P (e w)) -> emits P (fun w => Ret (a w) (e w :: w)).
Proof. intros H w. exists [e w]. split; [done|]. by repeat constructor. Qed.

Lemma emits_now P env : (forall t, P (EvNow t)) -> emits P (now env).
Proof. intros H. by apply (emits_one P (fun w => EvNow (clock env w))). Qed.

Lemma emits_http P env rq : (forall rs, P (EvHttp rq rs)) -> emits P (http env rq).
Proof. intros H. by apply (emits_one P (fun w => EvHttp rq (registry env w rq))). Qed.

Lemma emits_exec P env c : (forall r, P (EvExec c r)) -> emits P (exec env c).
Proof. intros H. by apply (emits_one P (fun w => EvExec c (run_command env w c))). Qed.

Lemma emits_sleep P d : P (EvSleep d) -> emits P (sleep d).
Proof. intros H. by apply (emits_one P (fun _ => EvSleep d) (fun _ => tt)). Qed.

Lemma emits_tick P d : P (EvTick d) -> emits P (tick d).
Proof. intros H. by apply (emits_one P (fun _ => EvTick d) (fun _ => tt)). Qed.

Lemma emits_log P msg : P (EvLog msg) -> emits P (log msg).
Proof. intros H. by apply (emits_one P (fun _ => EvLog msg) (fun _ => tt)). Qed.

Lemma emits_weaken {A} (P Q : Event -> Prop) (m : M A) :
  (forall e, P e -> Q e) -> emits P m -> emits Q m.
Proof.
  intros HPQ Hm w. destruct (Hm w) as (evs & Hw & Hp). exists evs.
  split; [done|]. by eapply Forall_impl.
Qed.

(** Takes a computation apart, down to the events it adds. *)
Ltac emits_step :=
  first
    [ apply emits_ret
    | apply emits_stall
    | apply emits_bind; [|intros ?]
    | apply emits_now; intros ?
    | apply emits_http; intros ?
    | apply emits_exec; intros ?
    | apply emits_sleep
    | apply emits_tick
    | apply emits_log
    | match goal with
      | |- emits _ (match ?x with _ => _ end) => destruct x
      | |- emits _ (if ?x then _ else _) => destruct x
      | |- emits _ (let _ := _ in _) => cbv zeta
      end ].

(** Closes what is asked of a single event. *)
Ltac agent_event_ok :=
  simpl; repeat split;
  first [ done | assumption | solve [auto] | solve [repeat constructor]
        | solve [repeat constructor; by eexists] ].

Ltac emits_all := repeat emits_step; try agent_event_ok.

Section AgentEvents.
Context (env : Env) (u n : string).
Context (D : gmap string GoValue -> Prop) (Sl : Duration -> Prop).
Context (C : Cmd -> Prop) (T : Duration -> Prop).

Lemma agent_fetch : emits (agent_event u n D Sl C T) (fetchDevices env u n).
Proof. unfold fetchDevices. emits_all. Qed.

Lemma AppGo_agent_create :
  emits (agent_event u n D Sl C T) (AppGo.createDevice env u n).
Proof. unfold AppGo.createDevice. emits_all. Qed.

Lemma Part002_agent_create :
  emits (agent_event u n D Sl C T) (Part002.createDevice env u n).
Proof.
  unfold Part002.createDevice.
  apply emits_bind; [apply agent_fetch | intros r]. emits_all.
Qed.

Lemma AppGo_agent_patch fuel data :
  D data -> emits (agent_event u n D Sl C T) (AppGo.patchDevice env u n fuel data).
Proof.
  intros Hd. induction fuel as [|fuel IH]; simpl; [apply emits_stall|].
  apply emits_bind; [emits_all | intros rs].
  destruct rs as [e | code body]; [emits_all|].
  destruct (code =? 404); [|emits_all].
  apply emits_bind; [apply agent_fetch | intros r].
  destruct (r.1); [|exact IH].
  apply emits_bind; [apply AppGo_agent_create | intros e].
  destruct e; [emits_all | exact IH].
Qed.

Lemma Part002_agent_patch fuel data :
  D data -> emits (agent_event u n D Sl C T) (Part002.patchDevice env u n fuel data).
Proof.
  intros Hd. induction fuel as [|fuel IH]; simpl; [apply emits_stall|].
  apply emits_bind; [emits_all | intros rs].
  destruct rs as [e | code body]; [emits_all|].
  destruct (code =? 404); [|emits_all].
  apply emits_bind; [apply agent_fetch | intros r].
  destruct (r.1); [|apply emits_bind; [exact IH | intros; apply emits_ret]].
  apply emits_bind; [apply Part002_agent_create | intros e].
  destruct e; [emits_all|]. apply emits_bind; [exact IH | intros; apply emits_ret].
Qed.

Lemma AppGo_agent_handle fuel dev req :
  D expired_data -> D AppGo_done_data -> Sl ShutdownDelay -> C shutdown_now ->
  emits (agent_event u n D Sl C T) (AppGo.handleShutdown env u n fuel dev req).
Proof.
  intros Hexp Hdone Hsl Hc. unfold AppGo.handleShutdown.
  apply emits_bind; [emits_all | intros expired].
  destruct expired; [by apply AppGo_agent_patch|].
  apply emits_bind; [unfold since; emits_all | intros young].
  destruct young; [apply emits_ret|].
  apply emits_bind; [by apply AppGo_agent_patch | intros _].
  emits_all.
Qed.

Lemma Part002_agent_handle fuel dev req :
  D expired_data -> (forall s, D (commit_data s)) -> (forall r, D (final_data r)) ->
  Sl ShutdownDelay ->
  (forall c, Part002.shutdownCommand (GOOS env) = Some c -> C c) ->
  emits (agent_event u n D Sl C T) (Part002.handleShutdown env u n fuel dev req).
Proof.
  intros Hexp Hcommit Hfinal Hsl Hc. unfold Part002.handleShutdown. cbv zeta.
  assert (Hk : emits (agent_event u n D Sl C T)
    (young <- match FirstOnlineAt dev with
              | Some t0 => d <- since env t0 ;; ret (d <? MinUptimeBeforeShutdown)
              | None => ret false
              end ;;
     if young : bool then
       log "Device %s too recently started, skipping shutdown"
     else
       log "Shutting down…" ;;;
       t <- now env ;;
       Part002.patchDevice env u n fuel
         (<[ "shutdown_requested" := request_state "shutting_down" ]>
         (<[ "status" := GString "off" ]>
         {[ "last_seen" := GString (rfc3339_format env t) ]})) ;;;
       sleep ShutdownDelay ;;;
       match Part002.shutdownCommand (GOOS env) with
       | None => log "Unsupported OS: %s. Shutdown command not executed."
       | Some cmd =>
           r <- exec env cmd ;;
           match r with
           | CmdFail _ err =>
               log "Shutdown command failed: %v\nOutput: %s" ;;;
               Part002.patchDevice env u n fuel
                 {[ "shutdown_requested" := request_failed err ]} ;;;
               ret tt
           | CmdOk _ =>
               Part002.patchDevice env u n fuel
                 (<[ "shutdown_requested" := request_state "done" ]>
                 {[ "status" := GString "off" ]}) ;;;
               log "Shutdown command executed successfully"
           end
       end)).
  { apply emits_bind; [unfold since; emits_all | intros young].
    destruct young; [emits_all|].
    apply emits_bind; [emits_all | intros _].
    apply emits_bind; [emits_all | intros t].
    apply emits_bind; [apply Part002_agent_patch, Hcommit | intros _].
    apply emits_bind; [emits_all | intros _].
    destruct (Part002.shutdownCommand (GOOS env)) as [c|] eqn:Hcmd; [|emits_all].
    specialize (Hc c eq_refl).
    apply emits_bind; [emits_all | intros r].
    destruct r as [out | out err].
    - apply emits_bind;
        [apply Part002_agent_patch, (Hfinal (CmdOk out)) | intros _; emits_all].
    - apply emits_bind; [emits_all | intros _].
      apply emits_bind;
        [apply Part002_agent_patch, (Hfinal (CmdFail out err)) | intros _; emits_all]. }
  destruct (req !! "expires_at") as [[| | |s| |]|]; try exact Hk.
  destruct (rfc3339_parse env s) as [e|]; [|emits_all].
  apply emits_bind; [emits_all | intros t].
  destruct (time_After t e); [|exact Hk].
  apply emits_bind; [by apply Part002_agent_patch | intros _; emits_all].
Qed.

End AgentEvents.

Section LoopEvents.
Context (env : Env) (u n : string).
Context (D : gmap string GoValue -> Prop) (Sl : Duration -> Prop).
Context (C : Cmd -> Prop) (T : Duration -> Prop).

Lemma AppGo_agent_poll fuel :
  D expired_data -> D AppGo_done_data ->
  Sl ShutdownDelay -> Sl ShutdownPollInterval -> C shutdown_now ->
  emits (agent_event u n D Sl C T) (AppGo.pollOnce env u n fuel).
Proof.
  intros Hexp Hdone Hsl Hpoll Hc. unfold AppGo.pollOnce.
  apply emits_bind; [apply agent_fetch | intros r].
  destruct (r.2); [emits_all|]. destruct (r.1) as [|device dl].
  - apply emits_bind; [emits_all | intros _].
    apply emits_bind; [apply AppGo_agent_create | intros e]. emits_all.
  - apply emits_bind; [|intros _; emits_all].
    destruct (ShutdownRequest device) as [raw|]; [|emits_all].
    destruct (json_Unmarshal_map raw) as [req|]; [|emits_all].
    destruct (String.eqb _ _); [|emits_all].
    by apply AppGo_agent_handle.
Qed.

Lemma Part002_agent_poll fuel :
  D expired_data -> (forall s, D (commit_data s)) -> (forall r, D (final_data r)) ->
  Sl ShutdownDelay -> Sl ShutdownPollInterval ->
  (forall c, Part002.shutdownCommand (GOOS env) = Some c -> C c) ->
  emits (agent_event u n D Sl C T) (Part002.pollOnce env u n fuel).
Proof.
  intros Hexp Hcommit Hfinal Hsl Hpoll Hc. unfold Part002.pollOnce.
  apply emits_bind; [apply agent_fetch | intros r].
  destruct (r.2); [emits_all|]. destruct (r.1) as [|device dl].
  - apply emits_bind; [emits_all | intros _].
    apply emits_bind; [apply Part002_agent_create | intros e]. emits_all.
  - apply emits_bind; [|intros _; emits_all].
    destruct (ShutdownRequest device) as [raw|]; [|emits_all].
    destruct (json_Unmarshal_map raw) as [req|]; [|emits_all].
    destruct (String.eqb _ _); [|emits_all].
    by apply Part002_agent_handle.
Qed.

Lemma AppGo_agent_listen polls fuel :
  D expired_data -> D AppGo_done_data ->
  Sl ShutdownDelay -> Sl ShutdownPollInterval -> C shutdown_now ->
  emits (agent_event u n D Sl C T) (AppGo.listenForShutdownRequests env u n polls fuel).
Proof.
  intros Hexp Hdone Hsl Hpoll Hc.
  induction polls as [|polls IH]; simpl; [apply emits_stall|].
  apply emits_bind; [by apply AppGo_agent_poll | intros _; exact IH].
Qed.

Lemma Part002_agent_listen polls fuel :
  D expired_data -> (forall s, D (commit_data s)) -> (forall r, D (final_data r)) ->
  Sl ShutdownDelay -> Sl ShutdownPollInterval ->
  (forall c, Part002.shutdownCommand (GOOS env) = Some c -> C c) ->
  emits (agent_event u n D Sl C T)
    (Part002.listenForShutdownRequests env u n polls fuel).
Proof.
  intros Hexp Hcommit Hfinal Hsl Hpoll Hc.
  induction polls as [|polls IH]; simpl; [apply emits_stall|].
  apply emits_bind; [by apply Part002_agent_poll | intros _; exact IH].
Qed.

Lemma AppGo_agent_update ticks fuel :
  (forall t1 t2, D (AppGo_liveness_data t1 t2)) -> T StatusUpdateInterval ->
  emits (agent_event u n D Sl C T) (AppGo.updateDeviceStatus env u n ticks fuel).
Proof.
  intros Hd Ht. induction ticks as [|ticks IH]; simpl; [apply emits_stall|].
  apply emits_bind; [|intros _; exact IH]. unfold AppGo.statusTick.
  apply emits_bind; [emits_all | intros t1].
  apply emits_bind; [emits_all | intros t2].
  apply emits_bind; [apply AppGo_agent_patch, Hd | intros _; emits_all].
Qed.

Lemma Part002_agent_update ticks fuel :
  (forall s, D (Part002_liveness_data s)) -> T StatusUpdateInterval ->
  emits (agent_event u n D Sl C T) (Part002.updateDeviceStatus env u n ticks fuel).
Proof.
  intros Hd Ht. induction ticks as [|ticks IH]; simpl; [apply emits_stall|].
  apply emits_bind.
  - unfold Part002.statusTick. apply emits_bind; [emits_all | intros t]. cbv zeta.
    apply Part002_agent_patch, Hd.
  - intros e. destruct e; [emits_all|].
    apply emits_bind; [emits_all | intros _; exact IH].
Qed.

End LoopEvents.

(** ** What the agent's loops never do *)

Lemma agent_event_reporter u n e :
  agent_event u n reporter_data (fun _ => False) (fun _ => False)
    (fun p => p = StatusUpdateInterval) e ->
  reporter_event e.
Proof.
  destruct e as [| [| |] | | | |]; simpl; try done.
  - by intros [H _].
  - by intros (_ & _ & H).
Qed.

Lemma agent_event_watcher u n ok e :
  agent_event u n watcher_data watcher_sleep ok (fun _ => False) e ->
  watcher_event ok e.
Proof.
  destruct e as [| [| |] | | | |]; simpl; try done.
  - by intros [_ H].
  - by intros (_ & _ & H).
Qed.

(** X2.  The status reporter of either revision, for any number of ticks and
    whatever the registry answers, runs no command and never sleeps, and
    each of its PATCHes sets [status = on] and carries no
    [shutdown_requested]: it cannot disturb a shutdown request. *)
Theorem reporter_leaves_requests_alone env u n ticks fuel :
  emits reporter_event (AppGo.updateDeviceStatus env u n ticks fuel) /\
  emits reporter_event (Part002.updateDeviceStatus env u n ticks fuel).
Proof.
  split;
    apply (emits_weaken (agent_event u n reporter_data (fun _ => False)
                           (fun _ => False) (fun p => p = StatusUpdateInterval)));
    try (intros e; apply agent_event_reporter).
  - by apply AppGo_agent_update.
  - by apply Part002_agent_update.
Qed.

(** X3.  The watcher of either revision, for any number of polls and
    whatever the registry answers, never waits for a ticker, sleeps only the
    grace delay or the poll interval, and runs no command but the power-off
    command: [shutdown now] in [src/app.go], the command selected for the
    host's OS in [part_002].  Its PATCHes never carry [first_online_at] and
    give [status] no value but off.  Its only other writes are the POSTs of
    [createDevice], whose rows do set [first_online_at] and [last_seen],
    give [status] the value unknown and carry no [shutdown_requested]. *)
Theorem watcher_only_powers_off env u n polls fuel :
  emits (watcher_event (fun c => c = shutdown_now))
    (AppGo.listenForShutdownRequests env u n polls fuel) /\
  emits (watcher_event (fun c => Part002.shutdownCommand (GOOS env) = Some c))
    (Part002.listenForShutdownRequests env u n polls fuel).
Proof.
  split.
  - apply (emits_weaken (agent_event u n watcher_data watcher_sleep
                           (fun c => c = shutdown_now) (fun _ => False)));
      [intros e; apply agent_event_watcher|].
    apply AppGo_agent_listen; try done;
      first [ by left | by right | (split; [done | by left]) ].
  - apply (emits_weaken (agent_event u n watcher_data watcher_sleep
                           (fun c => Part002.shutdownCommand (GOOS env) = Some c)
                           (fun _ => False)));
      [intros e; apply agent_event_watcher|].
    apply Part002_agent_listen; try done.
    + split; [done | by left].
    + intros s. split; [done | by right].
    + intros [out | out err]; (split; [done|]); first [ by left | by right ].
    + by left.
    + by right.
Qed.

(** ** One pass of the watcher *)

Lemma poll_sleeps_app a b : poll_sleeps (a ++ b) = (poll_sleeps a + poll_sleeps b)%nat.
Proof. unfold poll_sleeps. by rewrite List.filter_app, length_app. Qed.

Lemma poll_sleeps_none (P : Event -> Prop) evs :
  (forall e, P e -> is_poll_sleep e = false) ->
  Forall P evs -> poll_sleeps evs = 0%nat.
Proof.
  intros HP. induction 1 as [|e evs He _ IH]; [done|].
  unfold poll_sleeps in *. simpl. by rewrite (HP e He).
Qed.

Lemma grace_is_not_poll u n D C T e :
  agent_event u n D (fun d => d = ShutdownDelay) C T e -> is_poll_sleep e = false.
Proof. destruct e; simpl; try done. by intros ->. Qed.

Lemma noise_is_not_poll u n e :
  (forall d, patch_noise u n d e) -> is_poll_sleep e = false.
Proof. intros H. specialize (H ∅). by destruct e. Qed.

(** X4.  When the lookup fails (a transport error, a status other than 200,
    or a body that does not decode), a pass of the watcher of either
    revision logs, sleeps the poll interval and ends: it creates nothing,
    writes nothing and runs nothing, so the loop goes on to the next poll. *)
Theorem failed_lookup_is_waited_out env u n fuel w :
  fetch_fails (registry env w (GetDevices u n)) = true ->
  let w1 := EvSleep ShutdownPollInterval :: EvLog "Fetch devices error:"
              :: EvHttp (GetDevices u n) (registry env w (GetDevices u n)) :: w in
  AppGo.pollOnce env u n fuel w = Ret tt w1 /\
  Part002.pollOnce env u n fuel w = Ret tt w1.
Proof.
  intros Hf w1. subst w1.
  unfold AppGo.pollOnce, Part002.pollOnce, fetchDevices, bind, http. cbv zeta.
  destruct (registry env w (GetDevices u n)) as [msg | code [dl | raw]];
    simpl in *; [done | | by destruct (code =? 200)].
  by rewrite Hf.
Qed.

(** X5.  When the lookup finds no row, a pass of the watcher of either
    revision calls [createDevice] once, logs its outcome, sleeps the poll
    interval and ends, whether the creation succeeded or not; it PATCHes
    nothing and runs nothing. *)
Theorem missing_row_is_recreated env u n fuel w :
  registry env w (GetDevices u n) = HttpResponse 200 (DevicesJSON []) ->
  let w1 := EvLog "No row found for device %q, creating one…"
              :: EvHttp (GetDevices u n) (HttpResponse 200 (DevicesJSON [])) :: w in
  let outcome (e : option error) :=
    EvLog (match e with
           | Some _ => "createDevice failed:"
           | None => "Created device row for %q"
           end) in
  (exists e evs,
     AppGo.createDevice env u n w1 = Ret e (evs ++ w1) /\
     AppGo.pollOnce env u n fuel w
       = Ret tt (EvSleep ShutdownPollInterval :: outcome e :: evs ++ w1) /\
     patches evs = [] /\ execs evs = []) /\
  (exists e evs,
     Part002.createDevice env u n w1 = Ret e (evs ++ w1) /\
     Part002.pollOnce env u n fuel w
       = Ret tt (EvSleep ShutdownPollInterval :: outcome e :: evs ++ w1) /\
     patches evs = [] /\ execs evs = []).
Proof.
  intros Hget w1 outcome. split.
  - destruct (AppGo_createDevice_ret env u n w1) as (e & evs & Hc & Hn).
    exists e, evs. split; [done|]. split.
    + unfold AppGo.pollOnce, fetchDevices. unfold bind at 1 2. unfold http at 1.
      cbv zeta. rewrite Hget. simpl. unfold bind at 1. unfold log at 1.
      fold w1. unfold bind at 1. rewrite Hc. by destruct e.
    + split; [by eapply plain_patches|].
      apply (noise_execs u n ∅). eapply Forall_impl; [exact Hn|]. auto.
  - destruct (Part002_createDevice_ret env u n w1) as (e & evs & Hc & Hn).
    exists e, evs. split; [done|]. split.
    + unfold Part002.pollOnce, fetchDevices. unfold bind at 1 2. unfold http at 1.
      cbv zeta. rewrite Hget. simpl. unfold bind at 1. unfold log at 1.
      fold w1. unfold bind at 1. rewrite Hc. by destruct e.
    + split; [by eapply plain_patches|].
      apply (noise_execs u n ∅). eapply Forall_impl; [exact Hn|]. auto.
Qed.

(** X6.  When the record found carries no request, a JSON null, or an
    object that decodes and whose [status] is not the string pending (done,
    failed, expired, shutting_down, a number, or none at all), a pass of the
    watcher of either revision only fetches and sleeps: the executor is not
    called, so a request in a terminal state is never acted on again. *)
Theorem settled_request_is_not_touched env u n fuel w dev rest :
  registry env w (GetDevices u n) = HttpResponse 200 (DevicesJSON (dev :: rest)) ->
  not_pending dev ->
  let w1 := EvSleep ShutdownPollInterval
              :: EvHttp (GetDevices u n) (HttpResponse 200 (DevicesJSON (dev :: rest)))
              :: w in
  AppGo.pollOnce env u n fuel w = Ret tt w1 /\
  Part002.pollOnce env u n fuel w = Ret tt w1.
Proof.
  intros Hget Hnp w1. subst w1. unfold not_pending in Hnp.
  unfold AppGo.pollOnce, Part002.pollOnce, fetchDevices, bind, http. cbv zeta.
  rewrite Hget. simpl.
  destruct (ShutdownRequest dev) as [raw|]; [|done].
  destruct Hnp as (req & -> & ->). done.
Qed.

Lemma AppGo_pollOnce_returns env u n fuel w :
  never_404 env u n -> exists w', AppGo.pollOnce env u n (S fuel) w = Ret tt w'.
Proof.
  intros H404. unfold AppGo.pollOnce. unfold bind at 1.
  destruct (fetchDevices_ret env u n w) as [[dl err] ->]. simpl.
  destruct err; [by eexists|]. destruct dl as [|device dl].
  - unfold bind at 1. unfold log at 1. unfold bind at 1.
    destruct (AppGo_createDevice_ret env u n
                (EvLog "No row found for device %q, creating one…"
                   :: EvHttp (GetDevices u n) (registry env w (GetDevices u n)) :: w))
      as (e & evs & -> & _).
    destruct e; by eexists.
  - unfold bind at 1.
    destruct (ShutdownRequest device) as [raw|]; [|by eexists].
    destruct (json_Unmarshal_map raw) as [req|]; [|by eexists].
    destruct (String.eqb _ _); [|by eexists].
    destruct (AppGo_handleShutdown_returns env u n fuel device req
                (EvHttp (GetDevices u n) (registry env w (GetDevices u n)) :: w) H404)
      as [w' ->].
    by eexists.
Qed.

Lemma Part002_pollOnce_returns env u n fuel w :
  never_404 env u n -> exists w', Part002.pollOnce env u n (S fuel) w = Ret tt w'.
Proof.
  intros H404. unfold Part002.pollOnce. unfold bind at 1.
  destruct (fetchDevices_ret env u n w) as [[dl err] ->]. simpl.
  destruct err; [by eexists|]. destruct dl as [|device dl].
  - unfold bind at 1. unfold log at 1. unfold bind at 1.
    destruct (Part002_createDevice_ret env u n
                (EvLog "No row found for device %q, creating one…"
                   :: EvHttp (GetDevices u n) (registry env w (GetDevices u n)) :: w))
      as (e & evs & -> & _).
    destruct e; by eexists.
  - unfold bind at 1.
    destruct (ShutdownRequest device) as [raw|]; [|by eexists].
    destruct (json_Unmarshal_map raw) as [req|]; [|by eexists].
    destruct (String.eqb _ _); [|by eexists].
    destruct (Part002_handleShutdown_returns env u n fuel device req
                (EvHttp (GetDevices u n) (registry env w (GetDevices u n)) :: w) H404)
      as [w' ->].
    by eexists.
Qed.

Lemma AppGo_pollOnce_shape env u n fuel w w' :
  AppGo.pollOnce env u n fuel w = Ret tt w' -> pass_shape env u n w w'.
Proof.
  unfold AppGo.pollOnce. unfold bind at 1.
  destruct (fetchDevices_ret env u n w) as [[dl err] ->]. simpl.
  set (w1 := EvHttp _ _ :: w).
  destruct err; [intros [= <-]; by exists [EvLog "Fetch devices error:"]|].
  destruct dl as [|device dl].
  - unfold bind at 1. unfold log at 1. unfold bind at 1.
    destruct (AppGo_createDevice_ret env u n
                (EvLog "No row found for device %q, creating one…" :: w1))
      as (e & evs & -> & Hn).
    assert (Hz : poll_sleeps evs = 0%nat)
      by (eapply poll_sleeps_none; [apply noise_is_not_poll | exact Hn]).
    destruct e; intros [= <-]; eexists (_ :: evs ++ [_]);
      (split; [simpl; by rewrite <- app_assoc|]);
      change (poll_sleeps (evs ++ [EvLog "No row found for device %q, creating one…"])
              = 0%nat); by rewrite poll_sleeps_app, Hz.
  - unfold bind at 1.
    assert (Hh : forall req, emits
      (agent_event u n (fun _ => True) (fun d => d = ShutdownDelay)
         (fun _ => True) (fun _ => True))
      (AppGo.handleShutdown env u n fuel device req))
      by (intros; by apply AppGo_agent_handle).
    destruct (ShutdownRequest device) as [raw|]; [|intros [= <-]; by exists []].
    destruct (json_Unmarshal_map raw) as [req|];
      [|intros [= <-]; by exists [EvLog "Failed to parse shutdown request:"]].
    destruct (String.eqb _ _); [|intros [= <-]; by exists []].
    destruct (Hh req w1) as (evs & Hw & Hp).
    destruct (AppGo.handleShutdown env u n fuel device req w1) as [[] w2|w2];
      [|done]. simpl in Hw. subst w2. intros [= <-]. exists evs. split; [done|].
    eapply poll_sleeps_none; [apply grace_is_not_poll | exact Hp].
Qed.

Lemma Part002_pollOnce_shape env u n fuel w w' :
  Part002.pollOnce env u n fuel w = Ret tt w' -> pass_shape env u n w w'.
Proof.
  unfold Part002.pollOnce. unfold bind at 1.
  destruct (fetchDevices_ret env u n w) as [[dl err] ->]. simpl.
  set (w1 := EvHttp _ _ :: w).
  destruct err; [intros [= <-]; by exists [EvLog "Fetch devices error:"]|].
  destruct dl as [|device dl].
  - unfold bind at 1. unfold log at 1. unfold bind at 1.
    destruct (Part002_createDevice_ret env u n
                (EvLog "No row found for device %q, creating one…" :: w1))
      as (e & evs & -> & Hn).
    assert (Hz : poll_sleeps evs = 0%nat)
      by (eapply poll_sleeps_none; [apply noise_is_not_poll | exact Hn]).
    destruct e; intros [= <-]; eexists (_ :: evs ++ [_]);
      (split; [simpl; by rewrite <- app_assoc|]);
      change (poll_sleeps (evs ++ [EvLog "No row found for device %q, creating one…"])
              = 0%nat); by rewrite poll_sleeps_app, Hz.
  - unfold bind at 1.
    assert (Hh : forall req, emits
      (agent_event u n (fun _ => True) (fun d => d = ShutdownDelay)
         (fun _ => True) (fun _ => True))
      (Part002.handleShutdown env u n fuel device req))
      by (intros; by apply Part002_agent_handle).
    destruct (ShutdownRequest device) as [raw|]; [|intros [= <-]; by exists []].
    destruct (json_Unmarshal_map raw) as [req|];
      [|intros [= <-]; by exists [EvLog "Failed to parse shutdown request:"]].
    destruct (String.eqb _ _); [|intros [= <-]; by exists []].
    destruct (Hh req w1) as (evs & Hw & Hp).
    destruct (Part002.handleShutdown env u n fuel device req w1) as [[] w2|w2];
      [|done]. simpl in Hw. subst w2. intros [= <-]. exists evs. split; [done|].
    eapply poll_sleeps_none; [apply grace_is_not_poll | exact Hp].
Qed.

(** X7.  A pass of the watcher of either revision that returns began with
    the lookup of the device and ended with a sleep of the poll interval,
    with no other sleep of that length in between; so each pass costs the
    registry at least ten seconds of quiet.  With a registry that never
    answers this device's PATCH with 404, every pass returns. *)
Theorem watcher_pass_ends_with_a_sleep env u n fuel w :
  (forall w', AppGo.pollOnce env u n fuel w = Ret tt w' -> pass_shape env u n w w') /\
  (forall w', Part002.pollOnce env u n fuel w = Ret tt w' -> pass_shape env u n w w') /\
  (never_404 env u n ->
   (exists w', AppGo.pollOnce env u n (S fuel) w = Ret tt w') /\
   (exists w', Part002.pollOnce env u n (S fuel) w = Ret tt w')).
Proof.
  split; [|split].
  - intros w'. apply AppGo_pollOnce_shape.
  - intros w'. apply Part002_pollOnce_shape.
  - intros H404. split; [by apply AppGo_pollOnce_returns | by apply Part002_pollOnce_returns].
Qed.

Lemma watcher_pass_ends_with_a_sleep_witness :
  let dev := laptop None (Some (JObject pending)) in
  let env := sample_env (steady_registry [dev] no_content no_content) "linux" (CmdOk "") in
  never_404 env "user-1" "laptop-7" /\
  exists w', Part002.pollOnce env "user-1" "laptop-7" 1 [] = Ret tt w' /\
             pass_shape env "user-1" "laptop-7" [] w'.
Proof.
  cbv zeta.
  set (env := sample_env _ _ _).
  assert (H404 : never_404 env "user-1" "laptop-7") by (intros w d; reflexivity).
  split; [exact H404|].
  destruct (watcher_pass_ends_with_a_sleep env "user-1" "laptop-7" 0 [])
    as (_ & _ & Hret).
  destruct (watcher_pass_ends_with_a_sleep env "user-1" "laptop-7" 1 [])
    as (_ & Hshape & _).
  destruct (Hret H404) as [_ [w' Hw]]. exists w'. split; [exact Hw|].
  exact (Hshape w' Hw).
Defined.

(** X8.  The watcher loop of either revision has no way out: within no
    budget of polls does [listenForShutdownRequests] return, so in
    [part_002] it never delivers an error.  With a registry that never
    answers this device's PATCH with 404, a run of [polls] passes contains
    exactly [polls] sleeps of the poll interval. *)
Theorem watcher_loop_never_returns env u n fuel :
  (forall polls w, exists w',
     AppGo.listenForShutdownRequests env u n polls fuel w = Stall w') /\
  (forall polls w, exists w',
     Part002.listenForShutdownRequests env u n polls fuel w = Stall w') /\
  (never_404 env u n ->
   forall polls w,
     (exists evs,
        AppGo.listenForShutdownRequests env u n polls (S fuel) w = Stall (evs ++ w) /\
        poll_sleeps evs = polls) /\
     (exists evs,
        Part002.listenForShutdownRequests env u n polls (S fuel) w = Stall (evs ++ w) /\
        poll_sleeps evs = polls)).
Proof.
  split; [|split].
  - induction polls as [|polls IH]; intros w; [by eexists|].
    simpl. unfold bind. destruct (AppGo.pollOnce env u n fuel w); [apply IH | by eexists].
  - induction polls as [|polls IH]; intros w; [by eexists|].
    simpl. unfold bind. destruct (Part002.pollOnce env u n fuel w); [apply IH | by eexists].
  - intros H404. induction polls as [|polls IH]; intros w; [split; by exists []|].
    split; simpl; unfold bind.
    + destruct (AppGo_pollOnce_returns env u n fuel w H404) as [w1 Hw1]. rewrite Hw1.
      destruct (AppGo_pollOnce_shape _ _ _ _ _ _ Hw1) as (evs & -> & Hz).
      destruct (IH (EvSleep ShutdownPollInterval
                      :: evs ++ EvHttp (GetDevices u n) (registry env w (GetDevices u n)) :: w))
        as [(evs' & -> & Hn) _].
      exists (evs' ++ EvSleep ShutdownPollInterval :: evs
                ++ [EvHttp (GetDevices u n) (registry env w (GetDevices u n))]).
      split; [repeat (rewrite <- app_assoc; simpl); done|].
      rewrite poll_sleeps_app, Hn.
      change (poll_sleeps (EvSleep ShutdownPollInterval :: ?l))
        with (S (poll_sleeps l)).
      rewrite poll_sleeps_app, Hz. unfold poll_sleeps. simpl. lia.
    + destruct (Part002_pollOnce_returns env u n fuel w H404) as [w1 Hw1]. rewrite Hw1.
      destruct (Part002_pollOnce_shape _ _ _ _ _ _ Hw1) as (evs & -> & Hz).
      destruct (IH (EvSleep ShutdownPollInterval
                      :: evs ++ EvHttp (GetDevices u n) (registry env w (GetDevices u n)) :: w))
        as [_ (evs' & -> & Hn)].
      exists (evs' ++ EvSleep ShutdownPollInterval :: evs
                ++ [EvHttp (GetDevices u n) (registry env w (GetDevices u n))]).
      split; [repeat (rewrite <- app_assoc; simpl); done|].
      rewrite poll_sleeps_app, Hn.
      change (poll_sleeps (EvSleep ShutdownPollInterval :: ?l))
        with (S (poll_sleeps l)).
      rewrite poll_sleeps_app, Hz. unfold poll_sleeps. simpl. lia.
Qed.

Lemma watcher_loop_never_returns_witness :
  let dev := laptop None (Some (JObject pending)) in
  let env := sample_env (steady_registry [dev] no_content no_content) "linux" (CmdOk "") in
  never_404 env "user-1" "laptop-7" /\
  exists evs,
    Part002.listenForShutdownRequests env "user-1" "laptop-7" 3 1 [] = Stall (evs ++ []) /\
    poll_sleeps evs = 3%nat.
Proof.
  cbv zeta.
  set (env := sample_env _ _ _).
  assert (H404 : never_404 env "user-1" "laptop-7") by (intros w d; reflexivity).
  split; [exact H404|].
  destruct (watcher_loop_never_returns env "user-1" "laptop-7" 0) as (_ & _ & H).
  destruct (H H404 3%nat []) as [_ Hp]. exact Hp.
Defined.

Lemma failed_lookup_is_waited_out_witness :
  let env := sample_env down_registry "linux" (CmdOk "") in
  fetch_fails (registry env [] (GetDevices "user-1" "laptop-7")) = true /\
  Part002.pollOnce env "user-1" "laptop-7" 1 [] =
    Ret tt [ EvSleep ShutdownPollInterval; EvLog "Fetch devices error:";
             EvHttp (GetDevices "user-1" "laptop-7")
               (TransportError "dial tcp: connection refused") ].
Proof.
  cbv zeta. split; [reflexivity|].
  destruct (failed_lookup_is_waited_out (sample_env down_registry "linux" (CmdOk ""))
              "user-1" "laptop-7" 1 [] eq_refl) as [_ H].
  exact H.
Defined.

Lemma missing_row_is_recreated_witness :
  let refused := HttpResponse 403 (RawBody "new row violates row-level security policy") in
  let env := sample_env (steady_registry [] refused no_content) "linux" (CmdOk "") in
  let w1 := [ EvLog "No row found for device %q, creating one…";
              EvHttp (GetDevices "user-1" "laptop-7") (HttpResponse 200 (DevicesJSON [])) ] in
  exists e evs,
    AppGo.createDevice env "user-1" "laptop-7" w1 = Ret e (evs ++ w1) /\
    AppGo.pollOnce env "user-1" "laptop-7" 1 [] =
      Ret tt (EvSleep ShutdownPollInterval
                :: EvLog (match e with
                          | Some _ => "createDevice failed:"
                          | None => "Created device row for %q"
                          end) :: evs ++ w1) /\
    patches evs = [] /\ execs evs = [].
Proof.
  cbv zeta.
  destruct (missing_row_is_recreated
              (sample_env (steady_registry []
                 (HttpResponse 403 (RawBody "new row violates row-level security policy"))
                 no_content) "linux" (CmdOk ""))
              "user-1" "laptop-7" 1 [] eq_refl) as [H _].
  exact H.
Defined.

Lemma settled_request_is_not_touched_witness :
  let dev := laptop None (Some (JObject {[ "status" := JString "done" ]})) in
  let env := sample_env (steady_registry [dev] no_content no_content) "linux" (CmdOk "") in
  not_pending dev /\
  AppGo.pollOnce env "user-1" "laptop-7" 1 [] =
    Ret tt [ EvSleep ShutdownPollInterval;
             EvHttp (GetDevices "user-1" "laptop-7") (HttpResponse 200 (DevicesJSON [dev])) ].
Proof.
  cbv zeta.
  set (dev := laptop None (Some (JObject {[ "status" := JString "done" ]}))).
  assert (Hnp : not_pending dev) by (eexists; split; reflexivity).
  split; [exact Hnp|].
  destruct (settled_request_is_not_touched
              (sample_env (steady_registry [dev] no_content no_content) "linux" (CmdOk ""))
              "user-1" "laptop-7" 1 [] dev [] eq_refl Hnp) as [H _].
  exact H.
Defined.

(** X9.  In [part_002], a pending request whose [expires_at] is a string
    that does not parse as RFC 3339 is never acted on: the pass that finds
    it fetches, logs the parse failure, sleeps the poll interval and ends,
    with no write and no command, whatever the device's uptime. *)
Theorem unreadable_deadline_blocks_the_request env u n fuel w dev rest raw req s :
  registry env w (GetDevices u n) = HttpResponse 200 (DevicesJSON (dev :: rest)) ->
  ShutdownRequest dev = Some raw ->
  json_Unmarshal_map raw = Some req ->
  string_field req "status" = "pending" ->
  req !! "expires_at" = Some (JString s) ->
  rfc3339_parse env s = None ->
  Part002.pollOnce env u n fuel w =
    Ret tt (EvSleep ShutdownPollInterval
              :: EvLog "Failed to parse expires_at: %v"
              :: EvHttp (GetDevices u n) (HttpResponse 200 (DevicesJSON (dev :: rest)))
              :: w).
Proof.
  intros Hget Hraw Hreq Hst Hexp Hparse.
  unfold Part002.pollOnce, fetchDevices. unfold bind at 1 2. unfold http at 1.
  cbv zeta. rewrite Hget. simpl. rewrite Hraw, Hreq, Hst. simpl.
  unfold bind at 1. unfold Part002.handleShutdown. by rewrite Hexp, Hparse.
Qed.

Lemma unreadable_deadline_blocks_the_request_witness :
  let req := pending_until (JString "tomorrow") in
  let dev := laptop None (Some (JObject req)) in
  let env := sample_env (steady_registry [dev] no_content no_content) "linux" (CmdOk "") in
  rfc3339_parse env "tomorrow" = None /\
  Part002.pollOnce env "user-1" "laptop-7" 1 [] =
    Ret tt [ EvSleep ShutdownPollInterval;
             EvLog "Failed to parse expires_at: %v";
             EvHttp (GetDevices "user-1" "laptop-7") (HttpResponse 200 (DevicesJSON [dev])) ].
Proof.
  cbv zeta. split; [reflexivity|].
  exact (unreadable_deadline_blocks_the_request
           (sample_env (steady_registry
              [laptop None (Some (JObject (pending_until (JString "tomorrow"))))]
              no_content no_content) "linux" (CmdOk ""))
           "user-1" "laptop-7" 1 []
           (laptop None (Some (JObject (pending_until (JString "tomorrow"))))) []
           (JObject (pending_until (JString "tomorrow")))
           (pending_until (JString "tomorrow")) "tomorrow"
           eq_refl eq_refl eq_refl eq_refl eq_refl eq_refl).
Defined.

(** ** The registry client under failure *)

Lemma Part002_patchDevice_once env u n data fuel w :
  let rs := registry env w (PatchDevice u n data) in
  is_404 rs = false ->
  exists e evs,
    Part002.patchDevice env u n (S fuel) data w
      = Ret e (evs ++ EvHttp (PatchDevice u n data) rs :: w) /\
    Forall silent evs /\
    (e = None <-> patch_fails rs = false).
Proof.
  intros rs H.
  simpl. unfold bind at 1. unfold http. cbv zeta. fold rs.
  destruct rs as [msg | code body]; simpl in *.
  - eexists _, [_]. split; [reflexivity|]. split; [by repeat constructor | done].
  - rewrite H. simpl. destruct (300 <=? code).
    + eexists _, []. split; [reflexivity|]. split; [constructor | done].
    + eexists _, [_]. split; [reflexivity|]. split; [by repeat constructor | done].
Qed.

(** X10.  A PATCH that is not answered 404 is sent once and never repeated,
    whatever the answer: a transport error or a status of 300 or above is
    logged by [src/app.go] and returned as an error by [part_002], which
    returns success exactly for a status below 300.  Nothing else is sent. *)
Theorem patch_is_sent_once env u n data fuel w :
  let rs := registry env w (PatchDevice u n data) in
  is_404 rs = false ->
  (exists msg,
     AppGo.patchDevice env u n (S fuel) data w
       = Ret tt (EvLog msg :: EvHttp (PatchDevice u n data) rs :: w)) /\
  (exists e evs,
     Part002.patchDevice env u n (S fuel) data w
       = Ret e (evs ++ EvHttp (PatchDevice u n data) rs :: w) /\
     Forall silent evs /\
     (e = None <-> patch_fails rs = false)).
Proof.
  intros rs H. split; [by apply AppGo_patchDevice_once|].
  by apply Part002_patchDevice_once.
Qed.

Lemma patch_is_sent_once_witness :
  let unavailable := HttpResponse 503 (RawBody "upstream unavailable") in
  let env := sample_env (steady_registry [] no_content unavailable) "linux" (CmdOk "") in
  is_404 unavailable = false /\
  exists e evs,
    Part002.patchDevice env "user-1" "laptop-7" 5 expired_data []
      = Ret e (evs ++ [EvHttp (PatchDevice "user-1" "laptop-7" expired_data) unavailable]) /\
    Forall silent evs /\
    (e = None <-> patch_fails unavailable = false).
Proof.
  cbv zeta. split; [reflexivity|].
  destruct (patch_is_sent_once
              (sample_env (steady_registry [] no_content
                 (HttpResponse 503 (RawBody "upstream unavailable"))) "linux" (CmdOk ""))
              "user-1" "laptop-7" expired_data 4 [] eq_refl) as [_ H].
  exact H.
Defined.

(** X11.  In [part_002], once the first PATCH has been answered 404 the
    result of [patchDevice] no longer depends on any PATCH: it is an error
    only when [createDevice] failed, which it has then logged last, and
    success otherwise, even when the repeated PATCH fails. *)
Theorem repeated_patch_result_is_dropped env u n data fuel w e w' :
  is_404 (registry env w (PatchDevice u n data)) = true ->
  Part002.patchDevice env u n (S fuel) data w = Ret e w' ->
  e = None \/ exists w2, w' = EvLog "createDevice:" :: w2.
Proof.
  intros H. simpl. unfold bind at 1. unfold http. cbv zeta.
  destruct (registry env w (PatchDevice u n data)) as [msg | code body];
    simpl in H; [done|]. rewrite H.
  unfold bind at 1.
  destruct (fetchDevices_ret env u n
              (EvHttp (PatchDevice u n data) (HttpResponse code body) :: w)) as [r ->].
  destruct (r.1) as [|d0 dl].
  - unfold bind at 1.
    destruct (Part002_createDevice_ret env u n
                (EvHttp (GetDevices u n)
                   (registry env (EvHttp (PatchDevice u n data) (HttpResponse code body) :: w)
                      (GetDevices u n))
                 :: EvHttp (PatchDevice u n data) (HttpResponse code body) :: w))
      as (e0 & cevs & -> & _).
    destruct e0 as [err|].
    + intros [= <- <-]. right. by eexists.
    + unfold bind. destruct (Part002.patchDevice _ _ _ _ _ _); [|done].
      intros [= <- _]. by left.
  - unfold bind. destruct (Part002.patchDevice _ _ _ _ _ _); [|done].
    intros [= <- _]. by left.
Qed.

Lemma repeated_patch_result_is_dropped_witness :
  let env := sample_env (gone_then_broken [laptop None None]) "linux" (CmdOk "") in
  is_404 (registry env [] (PatchDevice "user-1" "laptop-7" expired_data)) = true /\
  exists w',
    Part002.patchDevice env "user-1" "laptop-7" 2 expired_data [] = Ret None w' /\
    hd_error w' = Some (EvHttp (PatchDevice "user-1" "laptop-7" expired_data)
                          (HttpResponse 500 (RawBody ""))) /\
    (@None error = None \/ exists w2, w' = EvLog "createDevice:" :: w2).
Proof.
  cbv zeta. split; [reflexivity|].
  set (env := sample_env (gone_then_broken [laptop None None]) "linux" (CmdOk "")).
  destruct (Part002.patchDevice env "user-1" "laptop-7" 2 expired_data [])
    as [e w'|w'] eqn:Hrun; [|vm_compute in Hrun; discriminate].
  assert (He : e = None) by (vm_compute in Hrun; congruence). subst e.
  exists w'. split; [reflexivity|]. split.
  - vm_compute in Hrun. injection Hrun as <-. reflexivity.
  - exact (repeated_patch_result_is_dropped env "user-1" "laptop-7" expired_data 1 []
             None w' eq_refl Hrun).
Defined.

(** X12.  A call of [patchDevice], of either revision and whether it
    returns or not, PATCHes only the payload it was given, for this device,
    and does so at least once; between repeats it only looks the device up
    and creates it, with no sleep, and the rows it creates carry no
    [shutdown_requested]; it runs no command. *)
Theorem patchDevice_sends_only_its_payload env u n data fuel w :
  (exists evs,
     out_world (AppGo.patchDevice env u n (S fuel) data w) = evs ++ w /\
     Forall (patch_noise u n data) evs /\
     exists rs, In (EvHttp (PatchDevice u n data) rs) evs) /\
  (exists evs,
     out_world (Part002.patchDevice env u n (S fuel) data w) = evs ++ w /\
     Forall (patch_noise u n data) evs /\
     exists rs, In (EvHttp (PatchDevice u n data) rs) evs).
Proof.
  split.
  - destruct (AppGo_patchDevice_trace env u n data (S fuel) w) as (evs & Hw & Hn & Hin).
    exists evs. split; [done|]. split; [done|]. by apply Hin.
  - destruct (Part002_patchDevice_trace env u n data (S fuel) w) as (evs & Hw & Hn & Hin).
    exists evs. split; [done|]. split; [done|]. by apply Hin.
Qed.

(** ** The status reporter under failure *)

(** X13.  The status reporter of [src/app.go] never returns, whatever the
    registry answers: a failed PATCH is only logged.  The reporter of
    [part_002] returns only with the error of a failed PATCH, wrapped; when
    the PATCH of a tick is answered with a transport error or a status of
    300 or above other than 404, it returns at that tick without waiting for
    the ticker. *)
Theorem reporter_stops_only_on_failure env u n fuel :
  (forall ticks w, exists w',
     AppGo.updateDeviceStatus env u n ticks fuel w = Stall w') /\
  (forall ticks w e w',
     Part002.updateDeviceStatus env u n ticks fuel w = Ret e w' ->
     exists err, e = ErrContext "failed to update device status" err) /\
  (forall ticks w,
     let t := clock env w in
     let data := Part002_liveness_data (rfc3339_format env t) in
     let rs := registry env (EvNow t :: w) (PatchDevice u n data) in
     patch_fails rs = true ->
     exists err evs,
       Part002.updateDeviceStatus env u n (S ticks) (S fuel) w
         = Ret (ErrContext "failed to update device status" err)
             (evs ++ EvHttp (PatchDevice u n data) rs :: EvNow t :: w) /\
       Forall silent evs).
Proof.
  split; [|split].
  - induction ticks as [|ticks IH]; intros w; [by eexists|].
    simpl. unfold bind. destruct (AppGo.statusTick env u n fuel w); [apply IH | by eexists].
  - induction ticks as [|ticks IH]; intros w e w'; [done|].
    simpl. unfold bind at 1. destruct (Part002.statusTick env u n fuel w) as [[err|] w1|w1].
    + intros [= <- _]. by eexists.
    + unfold bind at 1. unfold tick. apply IH.
    + done.
  - intros ticks w t data rs Hf.
    assert (H404 : is_404 rs = false).
    { destruct rs as [|code body]; [done|]. simpl in *.
      by destruct (code =? 404). }
    destruct (Part002_patchDevice_once env u n data fuel (EvNow t :: w) H404)
      as (e & evs & Hrun & Hs & He).
    change (Part002.updateDeviceStatus env u n (S ticks) (S fuel) w)
      with (bind (Part002.statusTick env u n (S fuel))
              (fun e => match e with
                        | Some err => ret (ErrContext "failed to update device status" err)
                        | None => bind (tick StatusUpdateInterval)
                                    (fun _ => Part002.updateDeviceStatus env u n ticks (S fuel))
                        end) w).
    unfold bind at 1. unfold Part002.statusTick. unfold bind at 1. unfold now. cbv zeta.
    fold t. change (<["status":=GString "on"]> _) with data.
    fold rs in Hrun. rewrite Hrun.
    destruct e as [err|].
    + exists err, evs. done.
    + destruct He as [He _]. specialize (He eq_refl). subst rs. congruence.
Qed.

Lemma reporter_stops_only_on_failure_witness :
  let unavailable := HttpResponse 503 (RawBody "upstream unavailable") in
  let env := sample_env (steady_registry [] no_content unavailable) "linux" (CmdOk "") in
  let data := Part002_liveness_data "2025-01-01T12:00:00Z" in
  patch_fails unavailable = true /\
  exists err evs,
    Part002.updateDeviceStatus env "user-1" "laptop-7" 3 1 []
      = Ret (ErrContext "failed to update device status" err)
          (evs ++ [EvHttp (PatchDevice "user-1" "laptop-7" data) unavailable; EvNow noon]) /\
    Forall silent evs.
Proof.
  cbv zeta. split; [reflexivity|].
  destruct (reporter_stops_only_on_failure
              (sample_env (steady_registry [] no_content
                 (HttpResponse 503 (RawBody "upstream unavailable"))) "linux" (CmdOk ""))
              "user-1" "laptop-7" 0) as (_ & _ & H).
  exact (H 2%nat [] eq_refl).
Defined.

(** ** The guards at their bounds *)

(** X14.  A deadline that has not passed lets the request through as if it
    were absent, after one reading of the clock.  In [src/app.go] the
    deadline is the result of the conversion [int64(expires_at)], and it has
    not passed when that result is not below the current Unix second, the
    current second included; for a number whose integer part fits an
    [int64] the result is that integer part, for any other number (1e30,
    say) it is what the implementation gives, so that such a deadline may
    count as passed.  In [part_002] the deadline is an RFC 3339 string, and
    it has not passed when it is not before the current instant, that
    instant included. *)
Theorem deadline_not_passed_is_no_deadline env u n fuel dev req w :
  let t := clock env w in
  (forall exp,
     req !! "expires_at" = Some (JNumber exp) ->
     time_Unix t <= int64_of_float64 (float64_oor env) exp ->
     AppGo.handleShutdown env u n fuel dev req w =
     AppGo.handleShutdown env u n fuel dev (delete "expires_at" req) (EvNow t :: w)) /\
  (forall exp z,
     req !! "expires_at" = Some (JNumber exp) ->
     float64_trunc exp = Some z ->
     minInt64 <= z <= maxInt64 ->
     time_Unix t <= z ->
     AppGo.handleShutdown env u n fuel dev req w =
     AppGo.handleShutdown env u n fuel dev (delete "expires_at" req) (EvNow t :: w)) /\
  (forall exp,
     req !! "expires_at" = Some (JNumber exp) ->
     match float64_trunc exp with
     | Some z => z < minInt64 \/ maxInt64 < z
     | None => True
     end ->
     float64_oor env exp < time_Unix t ->
     AppGo.handleShutdown env u n fuel dev req w =
     AppGo.patchDevice env u n fuel expired_data (EvNow t :: w)) /\
  (forall s e,
     req !! "expires_at" = Some (JString s) ->
     rfc3339_parse env s = Some e ->
     t <= e ->
     Part002.handleShutdown env u n fuel dev req w =
     Part002.handleShutdown env u n fuel dev (delete "expires_at" req) (EvNow t :: w)).
Proof.
  intros t.
  assert (Hpass : forall exp,
            req !! "expires_at" = Some (JNumber exp) ->
            time_Unix t <= int64_of_float64 (float64_oor env) exp ->
            AppGo.handleShutdown env u n fuel dev req w =
            AppGo.handleShutdown env u n fuel dev (delete "expires_at" req)
              (EvNow t :: w)).
  { intros exp Hreq Hle. apply AppGo_expiry_pass.
    unfold AppGo_past_expiry. rewrite Hreq. fold t.
    destruct (Z.ltb_spec (int64_of_float64 (float64_oor env) exp) (time_Unix t));
      [lia|done]. }
  split; [exact Hpass|]. split; [|split].
  - intros exp z Hreq Hz Hfit Hle. apply (Hpass exp Hreq).
    unfold int64_of_float64. rewrite Hz.
    destruct (Z.leb_spec minInt64 z); [|lia].
    destruct (Z.leb_spec z maxInt64); [|lia]. done.
  - intros exp Hreq Hout Hlt.
    unfold AppGo.handleShutdown. unfold bind at 1. rewrite Hreq.
    unfold bind at 1. unfold now, ret. cbv zeta. fold t.
    assert (Hconv : int64_of_float64 (float64_oor env) exp = float64_oor env exp).
    { unfold int64_of_float64. destruct (float64_trunc exp) as [z|]; [|done].
      destruct Hout as [Hlo | Hhi].
      - destruct (Z.leb_spec minInt64 z); [lia|done].
      - destruct (Z.leb_spec z maxInt64); [lia|]. by rewrite andb_false_r. }
    rewrite Hconv.
    destruct (Z.ltb_spec (float64_oor env exp) (time_Unix t)); [done|lia].
  - intros s e Hreq Hparse Hle. apply Part002_expiry_pass.
    unfold Part002_past_expiry, time_After. rewrite Hreq, Hparse. fold t.
    destruct (Z.ltb_spec e t); [lia|done].
Qed.

Lemma deadline_not_passed_is_no_deadline_witness :
  let env := sample_env (steady_registry [] no_content no_content) "linux" (CmdOk "") in
  let at_noon := S754_finite false 1735732800 0 in
  let req := pending_until (JNumber at_noon) in
  (float64_trunc at_noon = Some 1735732800 /\
   minInt64 <= 1735732800 <= maxInt64 /\
   time_Unix (clock env []) <= 1735732800) /\
  AppGo.handleShutdown env "user-1" "laptop-7" 1 (laptop None None) req [] =
  AppGo.handleShutdown env "user-1" "laptop-7" 1 (laptop None None)
    (delete "expires_at" req) [EvNow noon].
Proof.
  cbv zeta.
  assert (Hfit : minInt64 <= 1735732800 <= maxInt64) by (vm_compute; split; discriminate).
  assert (Hle : time_Unix noon <= 1735732800) by (vm_compute; discriminate).
  split; [split; [reflexivity | split; [exact Hfit | exact Hle]]|].
  destruct (deadline_not_passed_is_no_deadline
              (sample_env (steady_registry [] no_content no_content) "linux" (CmdOk ""))
              "user-1" "laptop-7" 1 (laptop None None)
              (pending_until (JNumber (S754_finite false 1735732800 0))) [])
    as (_ & H & _).
  exact (H (S754_finite false 1735732800 0) 1735732800 eq_refl eq_refl Hfit Hle).
Defined.

Lemma time_Sub_below (t u : Time) :
  (time_Sub t u <? MinUptimeBeforeShutdown) = (t - u <? MinUptimeBeforeShutdown).
Proof.
  unfold time_Sub, MinUptimeBeforeShutdown, minDuration, maxDuration,
    minInt64, maxInt64, Minute, Second.
  destruct (Z.ltb_spec (t - u) (- 2 ^ 63)); [|destruct (Z.ltb_spec (2 ^ 63 - 1) (t - u))].
  - destruct (Z.ltb_spec (- 2 ^ 63) (1 * (60 * 1000000000)));
      destruct (Z.ltb_spec (t - u) (1 * (60 * 1000000000))); lia.
  - destruct (Z.ltb_spec (2 ^ 63 - 1) (1 * (60 * 1000000000)));
      destruct (Z.ltb_spec (t - u) (1 * (60 * 1000000000))); lia.
  - done.
Qed.

(** X15.  The uptime guard of either revision compares the true time since
    [first_online_at] with one minute, the saturation of [time.Duration]
    never changing the verdict: with no deadline to read, a device first
    online a full minute ago or more, however long ago, is let through after
    one reading of the clock, and one first online less than a minute ago,
    or in the future, makes the executor return with nothing sent. *)
Theorem uptime_guard_is_one_minute env u n fuel dev req w t0 :
  req !! "expires_at" = None ->
  FirstOnlineAt dev = Some t0 ->
  let t := clock env w in
  (60 * Second <= t - t0 ->
   AppGo.handleShutdown env u n fuel dev req w =
     AppGo.handleShutdown env u n fuel (without_epoch dev) req (EvNow t :: w) /\
   Part002.handleShutdown env u n fuel dev req w =
     Part002.handleShutdown env u n fuel (without_epoch dev) req (EvNow t :: w)) /\
  (t - t0 < 60 * Second ->
   AppGo.handleShutdown env u n fuel dev req w = Ret tt (EvNow t :: w) /\
   Part002.handleShutdown env u n fuel dev req w =
     Ret tt (EvLog "Device %s too recently started, skipping shutdown"
               :: EvNow t :: w)).
Proof.
  intros Hreq Hdev t. split.
  - intros Hold.
    assert (Hup : past_uptime env dev w = Some (EvNow t :: w)).
    { unfold past_uptime. rewrite Hdev, time_Sub_below. fold t.
      destruct (Z.ltb_spec (t - t0) MinUptimeBeforeShutdown); [|done].
      unfold MinUptimeBeforeShutdown, Minute in *. lia. }
    split; [by apply AppGo_uptime_pass | by apply Part002_uptime_pass].
  - intros Hyoung.
    assert (Hy : time_Sub t t0 < MinUptimeBeforeShutdown).
    { apply Z.ltb_lt. rewrite time_Sub_below. apply Z.ltb_lt.
      unfold MinUptimeBeforeShutdown, Minute. lia. }
    split; [by eapply AppGo_young_run | by eapply Part002_young_run].
Qed.

Lemma uptime_guard_is_one_minute_witness :
  let env := sample_env (steady_registry [] no_content no_content) "linux" (CmdOk "") in
  let dev := laptop (Some (noon - 60 * Second)) None in
  60 * Second <= noon - (noon - 60 * Second) /\
  AppGo.handleShutdown env "user-1" "laptop-7" 1 dev pending [] =
    AppGo.handleShutdown env "user-1" "laptop-7" 1 (without_epoch dev) pending [EvNow noon].
Proof.
  cbv zeta.
  assert (Hold : 60 * Second <= noon - (noon - 60 * Second)) by (vm_compute; discriminate).
  split; [exact Hold|].
  destruct (uptime_guard_is_one_minute
              (sample_env (steady_registry [] no_content no_content) "linux" (CmdOk ""))
              "user-1" "laptop-7" 1 (laptop (Some (noon - 60 * Second)) None) pending []
              (noon - 60 * Second) eq_refl eq_refl) as [H _].
  destruct (H Hold) as [Ha _]. exact Ha.
Defined.
